(** * Zillagram: message fingerprinting, propagation reconstruction and
      leak scoring

    A shallow embedding of

      - [ai_agents/analysis_engines/message_fingerprinter.py]
      - [ai_agents/analysis_engines/cross_chat_correlator.py]
      - [ai_agents/analysis_engines/source_attribution.py]
      - [ai_agents/security_monitors/forwarding_monitor.py]
      - [ai_agents/intelligence_collectors/realtime_monitor.py]

    Python dictionaries are finite maps with string keys, exceptions are an
    explicit [Raise] outcome, methods that may touch the engine or the outside
    world are computations in a state-and-exception monad.  Methods that the
    classes call but never define are fields of a type class, one class per
    Python class. *)

From Stdlib Require Import ZArith QArith Qminmax Ascii String List Permutation Sorted Lia.
From stdpp Require Import gmap strings list fin_maps sorting pretty.

#[local] Set Warnings "-register-all,-clear-no-such-hyp".
#[local] Open Scope string_scope.
#[local] Open Scope list_scope.

(** ** Python values *)

(** Scalars, as they occur in message records and database rows.  A [float]
    is the rational it denotes (no NaN, no infinities); [datetime] objects
    are not represented. *)
Inductive pyval : Type :=
| VNone
| VBool (b : bool)
| VInt (z : Z)
| VFloat (q : Q)
| VStr (s : string).

(** Structured values: what the analysis functions return. *)
Inductive pyobj : Type :=
| OVal (v : pyval)
| OList (l : list pyobj)
| ODict (d : gmap string pyobj).

(** A message record / database row: a flat dictionary of scalars. *)
Abbreviation Message := (gmap string pyval).

Definition of_message (m : Message) : pyobj := ODict (OVal <$> m).

Inductive exn : Type :=
| KeyError (key : string)
| TypeError (what : string)
| AttributeError (attr : string)
| IndexError
| NameError (name : string)
| Failure (source : string).

Inductive result (A : Type) : Type :=
| Ok (a : A)
| Raise (e : exn).
Arguments Ok {A} a.
Arguments Raise {A} e.

#[global] Instance Q_eq_dec : EqDecision Q.
Proof. solve_decision. Defined.
#[global] Instance pyval_eq_dec : EqDecision pyval.
Proof. solve_decision. Defined.
#[global] Instance exn_eq_dec : EqDecision exn.
Proof. solve_decision. Defined.
#[global] Instance result_eq_dec `{EqDecision A} : EqDecision (result A).
Proof. solve_decision. Defined.

(** Reading a global name that the module never binds. *)
Definition unbound_name {A} (name : string) : result A :=
  Raise (NameError name).

Definition is_ok {A} (r : result A) : bool :=
  match r with
  | Ok _ => true
  | Raise _ => false
  end.

#[global] Instance result_ret : MRet result := λ A a, Ok a.
#[global] Instance result_bind : MBind result :=
  λ A B f r, match r with Ok a => f a | Raise e => Raise e end.
#[global] Instance result_fmap : FMap result :=
  λ A B f r, match r with Ok a => Ok (f a) | Raise e => Raise e end.

(** Computations over a mutable state [St] that may raise; the state
    reached before an exception is kept, as in Python. *)
Definition M (St A : Type) : Type := St → result A * St.

#[global] Instance M_ret St : MRet (M St) := λ A a s, (Ok a, s).
#[global] Instance M_bind St : MBind (M St) :=
  λ A B f c s,
    match c s with
    | (Ok a, s') => f a s'
    | (Raise e, s') => (Raise e, s')
    end.
Definition lift {St A} (r : result A) : M St A := λ s, (r, s).

(** [d[key]] *)
Definition getitem {V} (d : gmap string V) (key : string) : result V :=
  match d !! key with
  | Some v => Ok v
  | None => Raise (KeyError key)
  end.

(** [d.get(key, dflt)] *)
Definition dict_get {V} (d : gmap string V) (key : string) (dflt : V) : V :=
  default dflt (d !! key).

(** Truth value of a dictionary: empty dictionaries are falsy. *)
Definition dict_truthy {V} (d : gmap string V) : bool :=
  negb (bool_decide (dom d = ∅)).

(** Numeric reading of a scalar ([bool] is a subtype of [int]). *)
Definition as_number (v : pyval) : option Q :=
  match v with
  | VBool b => Some (if b then 1%Q else 0%Q)
  | VInt z => Some (inject_Z z)
  | VFloat q => Some q
  | _ => None
  end.

(** [a == b] on scalars. *)
Definition py_eqb (a b : pyval) : bool :=
  match as_number a, as_number b with
  | Some x, Some y => Qeq_bool x y
  | _, _ =>
      match a, b with
      | VNone, VNone => true
      | VStr s, VStr t => String.eqb s t
      | _, _ => false
      end
  end.

(** [a <= b] and [a < b] on scalars: numbers with numbers, strings with
    strings (code-point order), anything else is a [TypeError]. *)
Definition py_le (a b : pyval) : result bool :=
  match as_number a, as_number b with
  | Some x, Some y => Ok (Qle_bool x y)
  | _, _ =>
      match a, b with
      | VStr s, VStr t => Ok (String.leb s t)
      | _, _ => Raise (TypeError "<=")
      end
  end.

Definition py_lt (a b : pyval) : result bool :=
  match as_number a, as_number b with
  | Some x, Some y => Ok (negb (Qle_bool y x))
  | _, _ =>
      match a, b with
      | VStr s, VStr t => Ok (String.ltb s t)
      | _, _ => Raise (TypeError "<")
      end
  end.

(** [len(o)] *)
Definition py_len (o : pyobj) : result nat :=
  match o with
  | OList l => Ok (length l)
  | ODict d => Ok (size d)
  | OVal (VStr s) => Ok (String.length s)
  | OVal _ => Raise (TypeError "len")
  end.

(** ** Strings

    A Python [str] is represented by its UTF-8 bytes, so [encode] is the
    identity on the bytes; [lower] folds the ASCII letters. *)
Definition encode (s : string) : list Z :=
  map (λ a, Z.of_nat (nat_of_ascii a)) (list_ascii_of_string s).

Definition lower_ascii (a : ascii) : ascii :=
  let n := nat_of_ascii a in
  if (65 <=? n)%nat && (n <=? 90)%nat then ascii_of_nat (n + 32) else a.

Fixpoint lower (s : string) : string :=
  match s with
  | EmptyString => EmptyString
  | String a s' => String (lower_ascii a) (lower s')
  end.

(** [s[:n]] *)
Definition prefix (n : nat) (s : string) : string := substring 0 n s.

(** ** SHA-256 ([hashlib.sha256]) on 32-bit words held in [Z] *)
Module Sha256.
#[local] Open Scope Z_scope.

Definition wrap32 (x : Z) : Z := Z.land x (2 ^ 32 - 1).
Definition add32 (x y : Z) : Z := wrap32 (x + y).
Definition rotr (n x : Z) : Z :=
  Z.lor (Z.shiftr x n) (wrap32 (Z.shiftl x (32 - n))).
Definition not32 (x : Z) : Z := Z.lxor x (2 ^ 32 - 1).

Definition ch (x y z : Z) : Z := Z.lxor (Z.land x y) (Z.land (not32 x) z).
Definition maj (x y z : Z) : Z :=
  Z.lxor (Z.lxor (Z.land x y) (Z.land x z)) (Z.land y z).
Definition bsig0 (x : Z) : Z :=
  Z.lxor (Z.lxor (rotr 2 x) (rotr 13 x)) (rotr 22 x).
Definition bsig1 (x : Z) : Z :=
  Z.lxor (Z.lxor (rotr 6 x) (rotr 11 x)) (rotr 25 x).
Definition ssig0 (x : Z) : Z :=
  Z.lxor (Z.lxor (rotr 7 x) (rotr 18 x)) (Z.shiftr x 3).
Definition ssig1 (x : Z) : Z :=
  Z.lxor (Z.lxor (rotr 17 x) (rotr 19 x)) (Z.shiftr x 10).

(** The round constants and the initial state are computed from their
    description: the first 32 fractional bits of the cube roots of the
    first 64 primes, and of the square roots of the first 8 primes. *)
Definition is_prime (n : nat) : bool :=
  forallb (λ d, negb (Nat.eqb (n mod d) 0)) (seq 2 (n - 2)).
Definition first_primes (k : nat) : list Z :=
  map Z.of_nat (firstn k (List.filter is_prime (seq 2 400))).

Fixpoint icbrt_bits (b : nat) (n r : Z) : Z :=
  match b with
  | O => r
  | S b' =>
      let c := r + 2 ^ Z.of_nat b' in
      icbrt_bits b' n (if c * c * c <=? n then c else r)
  end.
Definition icbrt (n : Z) : Z := icbrt_bits 48 n 0.

Definition K : list Z :=
  Eval vm_compute in
    map (λ p, wrap32 (icbrt (p * 2 ^ 96))) (first_primes 64).
Definition H0 : list Z :=
  Eval vm_compute in
    map (λ p, wrap32 (Z.sqrt (p * 2 ^ 64))) (first_primes 8).

(** Padding: the byte 0x80, zeros up to 56 modulo 64, the bit length on
    eight bytes. *)
Definition be_bytes (n : nat) (x : Z) : list Z :=
  map (λ i, Z.land (Z.shiftr x (8 * Z.of_nat i)) 255) (rev (seq 0 n)).
Definition pad (msg : list Z) : list Z :=
  let len := Z.of_nat (length msg) in
  msg ++ [128] ++ repeat 0 (Z.to_nat ((55 - len) mod 64))
      ++ be_bytes 8 (8 * len).

Fixpoint to_words (bs : list Z) : list Z :=
  match bs with
  | a :: b :: c :: d :: rest =>
      (Z.shiftl a 24 + Z.shiftl b 16 + Z.shiftl c 8 + d) :: to_words rest
  | _ => []
  end.

(** Message schedule, most recent word first. *)
Fixpoint extend (n : nat) (ws : list Z) : list Z :=
  match n with
  | O => ws
  | S n' =>
      let w := add32 (add32 (ssig1 (nth 1 ws 0)) (nth 6 ws 0))
                     (add32 (ssig0 (nth 14 ws 0)) (nth 15 ws 0)) in
      extend n' (w :: ws)
  end.
Definition schedule (block : list Z) : list Z :=
  rev (extend 48 (rev block)).

Record regs : Type :=
  Regs { ra : Z; rb : Z; rc : Z; rd : Z; re : Z; rf : Z; rg : Z; rh : Z }.

Definition round (s : regs) (kw : Z * Z) : regs :=
  let t1 :=
    add32 (add32 (add32 (rh s) (bsig1 (re s))) (ch (re s) (rf s) (rg s)))
          (add32 (fst kw) (snd kw)) in
  let t2 := add32 (bsig0 (ra s)) (maj (ra s) (rb s) (rc s)) in
  Regs (add32 t1 t2) (ra s) (rb s) (rc s)
       (add32 (rd s) t1) (re s) (rf s) (rg s).

Definition regs_add (x y : regs) : regs :=
  Regs (add32 (ra x) (ra y)) (add32 (rb x) (rb y)) (add32 (rc x) (rc y))
       (add32 (rd x) (rd y)) (add32 (re x) (re y)) (add32 (rf x) (rf y))
       (add32 (rg x) (rg y)) (add32 (rh x) (rh y)).

Definition compress (h : regs) (block : list Z) : regs :=
  regs_add h (fold_left round (combine K (schedule block)) h).

Fixpoint blocks (n : nat) (ws : list Z) (h : regs) : regs :=
  match n with
  | O => h
  | S n' => blocks n' (skipn 16 ws) (compress h (firstn 16 ws))
  end.

Definition init : regs :=
  Regs (nth 0 H0 0) (nth 1 H0 0) (nth 2 H0 0) (nth 3 H0 0)
       (nth 4 H0 0) (nth 5 H0 0) (nth 6 H0 0) (nth 7 H0 0).

Definition digest (msg : list Z) : list Z :=
  let ws := to_words (pad msg) in
  let h := blocks (length ws / 16) ws init in
  [ra h; rb h; rc h; rd h; re h; rf h; rg h; rh h].

Definition hex_digit (d : Z) : ascii :=
  ascii_of_nat (Z.to_nat (if d <? 10 then 48 + d else 87 + d)).
Definition hex_word (w : Z) : list ascii :=
  map (λ i, hex_digit (Z.land (Z.shiftr w (4 * Z.of_nat i)) 15))
      (rev (seq 0 8)).

(** [hashlib.sha256(msg).hexdigest()] *)
Definition hexdigest (msg : list Z) : string :=
  string_of_list_ascii (concat (map hex_word (digest msg))).
End Sha256.

Definition sha256_hexdigest (s : string) : string := Sha256.hexdigest (encode s).

(** [v.lower()], [v.encode()] and [''.join(vs)] on dynamically typed
    values: anything but a [str] raises. *)
Definition py_lower (v : pyval) : result string :=
  match v with
  | VStr s => Ok (lower s)
  | _ => Raise (AttributeError "lower")
  end.

Definition py_encode (v : pyval) : result string :=
  match v with
  | VStr s => Ok s
  | _ => Raise (AttributeError "encode")
  end.

Fixpoint py_join (vs : list pyval) : result string :=
  match vs with
  | [] => Ok ""
  | VStr s :: rest => t ← py_join rest; Ok (String.append s t)
  | _ :: _ => Raise (TypeError "join")
  end.

(** ** [message_fingerprinter.py] *)
Module Fingerprinter.

Record TfidfVectorizer : Type :=
  { analyzer : string; ngram_range : nat * nat }.

(** The attributes of a [MessageFingerprintingEngine] instance. *)
Record Engine : Type :=
  { vectorizer : TfidfVectorizer;
    known_forwarded_patterns : list string }.

Record MessageFingerprint : Type :=
  { content_hash : string;
    semantic_hash : string;
    style_signature : string;
    temporal_pattern : pyobj;
    metadata_hash : pyobj;
    composite_fingerprint : pyobj }.

(** The methods the class calls but does not define, and
    [json.dumps(_, sort_keys=True)].  Each may read and write the engine
    and may raise. *)
Class Helpers : Type :=
  { _normalize_text : pyval → M Engine pyval;
    _generate_ngram_hash : pyval → Z → M Engine pyval;
    _extract_key_entities : pyval → M Engine pyobj;
    _extract_sentiment_profile : pyval → M Engine pyobj;
    _extract_topic_signature : pyval → M Engine pyobj;
    _extract_syntactic_pattern : pyval → M Engine pyobj;
    _calculate_avg_sentence_length : pyval → M Engine pyobj;
    _calculate_punctuation_ratio : pyval → M Engine pyobj;
    _analyze_capitalization : pyval → M Engine pyobj;
    _calculate_vocabulary_richness : pyval → M Engine pyobj;
    _analyze_emoji_usage : pyval → M Engine pyobj;
    _estimate_typing_rhythm : pyval → M Engine pyobj;
    _analyze_temporal_pattern : Message → M Engine pyobj;
    _generate_metadata_hash : Message → M Engine pyobj;
    _generate_composite_fingerprint : Message → M Engine pyobj;
    json_dumps : pyobj → result string }.

Section methods.
Context `{Helpers}.

Definition _generate_content_hash (text : pyval) : M Engine string :=
  normalized ← _normalize_text text;
  h1 ← lift (sha256_hexdigest <$> py_encode normalized);
  h2 ← lift (sha256_hexdigest <$> py_lower text);
  h3 ← _generate_ngram_hash text 3;
  joined ← lift (py_join [VStr h1; VStr h2; h3]);
  mret (prefix 32 (sha256_hexdigest joined)).

Definition _generate_semantic_hash (text : pyval) : M Engine string :=
  e1 ← _extract_key_entities text;
  e2 ← _extract_sentiment_profile text;
  e3 ← _extract_topic_signature text;
  e4 ← _extract_syntactic_pattern text;
  semantic_string ← lift (json_dumps (OList [e1; e2; e3; e4]));
  mret (prefix 32 (sha256_hexdigest semantic_string)).

Definition _analyze_writing_style (text : pyval) : M Engine string :=
  m1 ← _calculate_avg_sentence_length text;
  m2 ← _calculate_punctuation_ratio text;
  m3 ← _analyze_capitalization text;
  m4 ← _calculate_vocabulary_richness text;
  m5 ← _analyze_emoji_usage text;
  m6 ← _estimate_typing_rhythm text;
  let style_metrics : gmap string pyobj :=
    <["typing_rhythm" := m6]>
    (<["emoji_usage_pattern" := m5]>
    (<["vocabulary_richness" := m4]>
    (<["capitalization_pattern" := m3]>
    (<["punctuation_ratio" := m2]>
    (<["avg_sentence_length" := m1]> ∅))))) in
  dumped ← lift (json_dumps (ODict style_metrics));
  mret (prefix 32 (sha256_hexdigest dumped)).

Definition create_message_fingerprint (message : Message)
  : M Engine MessageFingerprint :=
  let text := dict_get message "text" (VStr "") in
  c ← _generate_content_hash text;
  s ← _generate_semantic_hash text;
  w ← _analyze_writing_style text;
  t ← _analyze_temporal_pattern message;
  h ← _generate_metadata_hash message;
  f ← _generate_composite_fingerprint message;
  mret {| content_hash := c; semantic_hash := s; style_signature := w;
          temporal_pattern := t; metadata_hash := h;
          composite_fingerprint := f |}.
End methods.

(** The three digests of the text, in the order in which
    [create_message_fingerprint] computes them. *)
Definition text_digests `{Helpers} (text : pyval)
  : M Engine (string * string * string) :=
  c ← _generate_content_hash text;
  s ← _generate_semantic_hash text;
  w ← _analyze_writing_style text;
  mret (c, s, w).

(** The text [create_message_fingerprint] reads is the empty string. *)
Definition empty_text (m : Message) : Prop :=
  dict_get m "text" (VStr "") = VStr "".

(** Two different strings whose digests agree on the 32 characters kept. *)
Definition truncated_collision : Prop :=
  ∃ x y, x ≠ y
         ∧ prefix 32 (sha256_hexdigest x) = prefix 32 (sha256_hexdigest y).

(** A computation that leaves the engine as it found it. *)
Definition read_only {A} (c : M Engine A) : Prop :=
  ∀ self, (c self).2 = self.

Definition read_only_helpers (H : Helpers) : Prop :=
  (∀ t, read_only (_normalize_text t))
  ∧ (∀ t n, read_only (_generate_ngram_hash t n))
  ∧ (∀ t, read_only (_extract_key_entities t))
  ∧ (∀ t, read_only (_extract_sentiment_profile t))
  ∧ (∀ t, read_only (_extract_topic_signature t))
  ∧ (∀ t, read_only (_extract_syntactic_pattern t))
  ∧ (∀ t, read_only (_calculate_avg_sentence_length t))
  ∧ (∀ t, read_only (_calculate_punctuation_ratio t))
  ∧ (∀ t, read_only (_analyze_capitalization t))
  ∧ (∀ t, read_only (_calculate_vocabulary_richness t))
  ∧ (∀ t, read_only (_analyze_emoji_usage t))
  ∧ (∀ t, read_only (_estimate_typing_rhythm t))
  ∧ (∀ m, read_only (_analyze_temporal_pattern m))
  ∧ (∀ m, read_only (_generate_metadata_hash m))
  ∧ (∀ m, read_only (_generate_composite_fingerprint m)).




(** A computation that returns, whatever the engine is like. *)
Definition returns {A} (c : M Engine A) : Prop :=
  ∀ self, ∃ a self', c self = (Ok a, self').

(** The three helper methods that are given the message return on it. *)
Definition message_helpers_return (H : Helpers) (m : Message) : Prop :=
  returns (_analyze_temporal_pattern m)
  ∧ returns (_generate_metadata_hash m)
  ∧ returns (_generate_composite_fingerprint m).
End Fingerprinter.

(** ** [cross_chat_correlator.py] *)
Module Correlator.

(** The method used by the path reconstruction and defined nowhere. *)
Class Helpers : Type :=
  { _is_likely_forward : Message → Message → result bool }.

(** [sorted] is stable: insertion into an already sorted tail puts an
    element in front of the first one that is not smaller. *)
Section sorting.
Context {K A : Type} (le : K → K → bool).

Fixpoint insert_by (x : K * A) (l : list (K * A)) : list (K * A) :=
  match l with
  | [] => [x]
  | y :: l' => if le x.1 y.1 then x :: y :: l' else y :: insert_by x l'
  end.

Definition stable_sort (l : list (K * A)) : list (K * A) :=
  foldr insert_by [] l.
End sorting.

Definition as_string (v : pyval) : option string :=
  match v with
  | VStr s => Some s
  | _ => None
  end.

(** [sorted(msgs, key=lambda x: x['date'])]: the keys are read first, and
    compared only when there are at least two of them; they must then be
    all numbers or all strings. *)
Definition sorted_by_date (msgs : list Message) : result (list Message) :=
  keys ← mapM (λ x : Message, getitem x "date") msgs;
  match msgs with
  | [] | [_] => Ok msgs
  | _ =>
      match mapM as_number keys, mapM as_string keys with
      | Some qs, _ => Ok ((stable_sort Qle_bool (zip qs msgs)).*2)
      | None, Some ss => Ok ((stable_sort String.leb (zip ss msgs)).*2)
      | None, None => Raise (TypeError "<")
      end
  end.

Section methods.
Context `{Helpers}.

(** The [for] loop of [_reconstruct_propagation_path]; the state is
    [(propagation_path, current_chain)]. *)
Fixpoint chain_loop (msgs : list Message)
    (st : list (list Message) * list Message)
  : result (list (list Message) * list Message) :=
  match msgs with
  | [] => Ok st
  | current_msg :: rest =>
      let '(propagation_path, current_chain) := st in
      match last current_chain with
      | None => Raise IndexError
      | Some prev_msg =>
          continues ← _is_likely_forward prev_msg current_msg;
          if continues : bool
          then chain_loop rest (propagation_path, current_chain ++ [current_msg])
          else
            chain_loop rest
              (if (1 <? length current_chain)%nat
               then propagation_path ++ [current_chain]
               else propagation_path,
               [current_msg])
      end
  end.

Definition _reconstruct_propagation_path (similar_messages : list Message)
  : result (list (list Message)) :=
  match similar_messages with
  | [] => Ok []
  | _ =>
      sorted_messages ← sorted_by_date similar_messages;
      match sorted_messages with
      | [] => Raise IndexError
      | first :: others =>
          '(propagation_path, current_chain) ← chain_loop others ([], [first]);
          Ok (if (1 <? length current_chain)%nat
              then propagation_path ++ [current_chain]
              else propagation_path)
      end
  end.
End methods.

(** The first query of [_find_similar_messages],
    [SELECT * FROM messages WHERE content_hash = ? OR semantic_hash = ?],
    over the rows of the table. *)
Definition column_is (row : Message) (column value : string) : bool :=
  match row !! column with
  | Some (VStr s) => String.eqb s value
  | _ => false
  end.

Definition exact_matches (table : list Message)
    (target_fingerprint : Fingerprinter.MessageFingerprint) : list Message :=
  List.filter
    (λ row,
       column_is row "content_hash"
         (Fingerprinter.content_hash target_fingerprint)
       || column_is row "semantic_hash"
            (Fingerprinter.semantic_hash target_fingerprint))
    table.

(** Modelled from the spec: the code that writes the [messages] table is
    not part of the sources.  Per the data model a fingerprint is computed
    once, at ingestion, and stored with its message; the row of a message
    is the message with the two hash columns the query reads. *)
Definition stored_row (m : Message)
    (fp : Fingerprinter.MessageFingerprint) : Message :=
  <["semantic_hash" := VStr (Fingerprinter.semantic_hash fp)]>
    (<["content_hash" := VStr (Fingerprinter.content_hash fp)]> m).

(** The timestamps of two messages are in order. *)
Definition date_le (m1 m2 : Message) : Prop :=
  ∃ d1 d2, m1 !! "date" = Some d1 ∧ m2 !! "date" = Some d2
           ∧ py_le d1 d2 = Ok true.

Definition message_ids (chain : list Message) : list (option pyval) :=
  (λ m : Message, m !! "id") <$> chain.

(** What the loop keeps true of [(propagation_path, current_chain)] once
    the messages in [seen] have been looked at. *)
Definition chains_within (seen : list Message)
    (st : list (list Message) * list Message) : Prop :=
  Forall (λ c, c `sublist_of` seen ∧ (2 ≤ length c)%nat) st.1
  ∧ st.2 `sublist_of` seen.
End Correlator.

(** ** [source_attribution.py] *)
Module Attribution.

(** The two methods the chain walk calls; both query the database. *)
Class Helpers : Type :=
  { _find_previous_version : Message → result (option Message);
    _detect_modifications : Message → Message → result pyobj }.

Definition max_iterations : nat := 10.

Section methods.
Context `{Helpers}.

Definition original_entry (current_message : Message)
  : result (gmap string pyobj) :=
  timestamp ← getitem current_message "date";
  Ok (<["timestamp" := OVal timestamp]>
      (<["status" := OVal (VStr "original")]>
      (<["message" := of_message current_message]> ∅))).

Definition forward_entry (previous_version current_message : Message)
  : result (gmap string pyobj) :=
  forwarder ← getitem current_message "user_id";
  timestamp ← getitem current_message "date";
  modifications ← _detect_modifications previous_version current_message;
  Ok (<["modifications" := modifications]>
      (<["timestamp" := OVal timestamp]>
      (<["forwarder" := OVal forwarder]>
      (<["message" := of_message previous_version]> ∅)))).

(** The [while] loop; [budget] is [max_iterations - iteration]. *)
Fixpoint chain_walk (budget : nat) (current_message : Message)
    (chain : list (gmap string pyobj))
  : result (list (gmap string pyobj)) :=
  match budget with
  | O => Ok chain
  | S budget' =>
      if dict_truthy current_message then
        previous_version ← _find_previous_version current_message;
        match previous_version with
        | Some previous =>
            if dict_truthy previous then
              entry ← forward_entry previous current_message;
              chain_walk budget' previous (chain ++ [entry])
            else
              entry ← original_entry current_message;
              Ok (chain ++ [entry])
        | None =>
            entry ← original_entry current_message;
            Ok (chain ++ [entry])
        end
      else Ok chain
  end.

Definition _reconstruct_forwarding_chain (message : Message)
  : result (list (gmap string pyobj)) :=
  reverse <$> chain_walk max_iterations message [].
End methods.

(** No entry of the chain has the key. *)
Definition lacks (key : string) (chain : list (gmap string pyobj)) : bool :=
  forallb (λ e, match e !! key with None => true | Some _ => false end) chain.

(** The keys an entry of the chain can have. *)
Definition entry_keys : gset string :=
  {[ "message"; "forwarder"; "timestamp"; "modifications"; "status" ]}.

(** Messages on which the walk cannot raise: they carry the two keys it
    reads, the lookups succeed, and what the lookups find is again such a
    message. *)
Definition well_behaved `{Helpers} (wf : Message → Prop) : Prop :=
  ∀ m, wf m →
    is_Some (m !! "user_id") ∧ is_Some (m !! "date")
    ∧ ∃ r, _find_previous_version m = Ok r
           ∧ ∀ p, r = Some p →
                  wf p ∧ ∃ o, _detect_modifications p m = Ok o.
End Attribution.

(** ** Long-running coroutines

    A [while True:] loop is run for a number of cycles; it is either still
    running after them or has been left by an exception.  The time passed in
    [asyncio.sleep] is logged next to the state the collaborators act on. *)
Record Run (W : Type) : Type := { world : W; slept : list Z }.
Arguments world {W} r.
Arguments slept {W} r.

Definition in_world {W A} (c : M W A) : M (Run W) A :=
  λ r, let '(a, w) := c (world r) in (a, {| world := w; slept := slept r |}).

(** [await asyncio.sleep(seconds)], where the module has bound [asyncio],
    in a task that is not cancelled while it sleeps. *)
Definition asyncio_sleep {W} (seconds : Z) : M (Run W) unit :=
  λ r, (Ok tt, {| world := world r; slept := slept r ++ [seconds] |}).

Inductive loop_outcome : Type :=
| Running
| Escaped (e : exn).

Fixpoint while_true {St} (cycles : nat) (body : M St unit) (s : St)
  : loop_outcome * St :=
  match cycles with
  | O => (Running, s)
  | S cycles' =>
      match body s with
      | (Ok _, s') => while_true cycles' body s'
      | (Raise e, s') => (Escaped e, s')
      end
  end.


(** [for x in xs: body(x)] *)
Fixpoint for_each {St A} (xs : list A) (body : A → M St unit) : M St unit :=
  match xs with
  | [] => mret tt
  | x :: rest => _ ← body x; for_each rest body
  end.

(** Truth value of an object. *)
Definition py_truthy (o : pyobj) : bool :=
  match o with
  | OVal VNone => false
  | OVal (VBool b) => b
  | OVal (VInt z) => negb (z =? 0)%Z
  | OVal (VFloat q) => negb (Qeq_bool q 0)
  | OVal (VStr s) => negb (String.eqb s "")
  | OList l => negb (Nat.eqb (length l) 0)
  | ODict d => dict_truthy d
  end.

(** [o[key]] on an object: only dictionaries take string keys. *)
Definition obj_getitem (o : pyobj) (key : string) : result pyobj :=
  match o with
  | ODict d => getitem d key
  | _ => Raise (TypeError "subscript")
  end.

(** [o != v] for a scalar [v]. *)
Definition obj_ne (o : pyobj) (v : pyval) : bool :=
  match o with
  | OVal w => negb (py_eqb w v)
  | _ => true
  end.

(** [o > v] for a scalar [v]. *)
Definition obj_gt (o : pyobj) (v : pyval) : result bool :=
  match o with
  | OVal w => py_lt v w
  | _ => Raise (TypeError ">")
  end.

(** The elements a [for] loop sees; a dictionary yields its keys. *)
Definition py_iter (o : pyobj) : result (list pyobj) :=
  match o with
  | OList l => Ok l
  | ODict d => Ok ((λ kv : string * pyobj, OVal (VStr kv.1)) <$> map_to_list d)
  | OVal (VStr s) =>
      Ok ((λ a, OVal (VStr (String a EmptyString))) <$> list_ascii_of_string s)
  | OVal _ => Raise (TypeError "iter")
  end.

(** The doubles written [0.3] and [0.7] in the source. *)
Definition float_0_3 : Q := 5404319552844595 # 18014398509481984.
Definition float_0_7 : Q := 3152519739159347 # 4503599627370496.

(** ** [forwarding_monitor.py] *)
Module ForwardingMonitor.

(** The injected correlation engine and the methods the monitor calls
    without defining them; [W] is what they act on. *)
Class Collaborators (W : Type) : Type :=
  { track_message_propagation : Message → M W (gmap string pyobj);
    _get_recent_messages : pyval → Z → M W (list Message);
    _check_temporal_proximity : gmap string pyobj → M W pyobj;
    _detect_content_modification : gmap string pyobj → M W pyobj;
    _calculate_relationship_score : pyval → pyobj → M W pyval;
    _calculate_leak_confidence : gmap string pyobj → M W pyval;
    _identify_primary_leaker : gmap string pyobj → M W pyobj;
    _suggest_countermeasures : gmap string pyobj → M W pyobj;
    _trigger_leak_alert : gmap string pyobj → M W unit;
    _implement_countermeasures : gmap string pyobj → M W unit }.

Definition alert_threshold : pyval := VFloat float_0_7.

Section methods.
Context {W : Type} `{Collaborators W}.

(** The [for] loop of [_check_trust_network], with its early return. *)
Fixpoint trust_loop (original_chat original_user : pyval)
    (similar_messages : list pyobj) : M W bool :=
  match similar_messages with
  | [] => mret false
  | similar_msg :: rest =>
      chat ← lift (obj_getitem similar_msg "chat_id");
      if obj_ne chat original_chat then
        user ← lift (obj_getitem similar_msg "user_id");
        relationship_score ← _calculate_relationship_score original_user user;
        low ← lift (py_lt relationship_score (VFloat float_0_3));
        if low : bool then mret true
        else trust_loop original_chat original_user rest
      else trust_loop original_chat original_user rest
  end.

Definition _check_trust_network (original_message : Message)
    (propagation : gmap string pyobj) : M W bool :=
  original_chat ← lift (getitem original_message "chat_id");
  original_user ← lift (getitem original_message "user_id");
  similar ← lift (py_iter (dict_get propagation "similar_messages" (OList [])));
  trust_loop original_chat original_user similar.

Definition analyze_message_leakage (message : Message)
  : M W (gmap string pyobj) :=
  propagation_analysis ← track_message_propagation message;
  n ← lift (py_len (dict_get propagation_analysis "similar_messages" (OList [])));
  temporal ← _check_temporal_proximity propagation_analysis;
  modification ← _detect_content_modification propagation_analysis;
  violation ← _check_trust_network message propagation_analysis;
  let leak_indicators : gmap string pyobj :=
    <["trust_network_violation" := OVal (VBool violation)]>
    (<["content_modification" := modification]>
    (<["temporal_proximity" := temporal]>
    (<["cross_chat_appearance" := OVal (VBool (1 <? n)%nat)]> ∅))) in
  message_id ← lift (getitem message "id");
  leak_confidence ← _calculate_leak_confidence leak_indicators;
  suspected_leaker ← _identify_primary_leaker propagation_analysis;
  recommended_actions ← _suggest_countermeasures leak_indicators;
  mret (<["recommended_actions" := recommended_actions]>
        (<["suspected_leaker" := suspected_leaker]>
        (<["propagation_path" :=
             dict_get propagation_analysis "propagation_path" (OList [])]>
        (<["leak_indicators" := ODict leak_indicators]>
        (<["leak_confidence" := OVal leak_confidence]>
        (<["message_id" := OVal message_id]> ∅)))))).

(** One pass of the body of [monitor_conversation_leaks], up to the
    sleep. *)
Definition leak_scan (chat_id : pyval) : M W unit :=
  recent_messages ← _get_recent_messages chat_id 24;
  for_each recent_messages
    (λ message,
       leak_analysis ← analyze_message_leakage message;
       confidence ← lift (getitem leak_analysis "leak_confidence");
       alert ← lift (obj_gt confidence alert_threshold);
       if alert : bool then
         _ ← _trigger_leak_alert leak_analysis;
         _implement_countermeasures leak_analysis
       else mret tt).

Definition monitor_cycle (chat_id : pyval) : M (Run W) unit :=
  _ ← in_world (leak_scan chat_id); asyncio_sleep 300.

Definition monitor_conversation_leaks (cycles : nat)
    (chat_id user_id : pyval) (r : Run W) : loop_outcome * Run W :=
  while_true cycles (monitor_cycle chat_id) r.
End methods.

(** Modelled from the spec: [_calculate_leak_confidence] is called but not
    defined in the sources.  The score is the weighted sum of the
    cross-chat appearance (0.4), the time-proximity term (0.3) and the
    trust term (0.3), clamped to [0,1].  An indicator contributes its
    numeric value ([True] is 1), and nothing when it is not a number. *)
Definition indicator_term (leak_indicators : gmap string pyobj)
    (name : string) : Q :=
  match leak_indicators !! name with
  | Some (OVal v) => default 0%Q (as_number v)
  | _ => 0%Q
  end.

Definition clamp01 (x : Q) : Q := Qmax 0 (Qmin 1 x).

Definition weighted_leak_confidence (leak_indicators : gmap string pyobj)
  : Q :=
  clamp01 ((4 # 10) * indicator_term leak_indicators "cross_chat_appearance"
           + (3 # 10) * indicator_term leak_indicators "temporal_proximity"
           + (3 # 10) * indicator_term leak_indicators "trust_network_violation").

Definition scores_as_specified {W} (C : Collaborators W) : Prop :=
  ∀ leak_indicators w,
    _calculate_leak_confidence leak_indicators w
    = (Ok (VFloat (weighted_leak_confidence leak_indicators)), w).

(** The trust provider raises [e] whenever it is asked. *)
Definition provider_down {W} (C : Collaborators W) (e : exn) : Prop :=
  ∀ a b w, _calculate_relationship_score a b w = (Raise e, w).

(** The test [similar_msg['chat_id'] != original_chat]. *)
Definition crosses_chat (original_chat : pyval) (similar_msg : pyobj) : bool :=
  match obj_getitem similar_msg "chat_id" with
  | Ok chat => obj_ne chat original_chat
  | Raise _ => false
  end.

Definition well_formed_row (o : pyobj) : Prop :=
  ∃ d, o = ODict d ∧ is_Some (d !! "chat_id") ∧ is_Some (d !! "user_id").
End ForwardingMonitor.

(** ** [realtime_monitor.py] *)
Module ManipulationMonitor.

Class Collaborators (W : Type) : Type :=
  { _get_recent_activity : M W pyobj;
    _detect_real_time_coordination : pyobj → M W pyobj;
    _detect_amplification_spikes : pyobj → M W pyobj;
    _detect_narrative_sync : pyobj → M W pyobj;
    _trigger_manipulation_alert : gmap string pyobj → M W unit;
    _update_manipulator_profiles : gmap string pyobj → M W unit }.

Section methods.
Context {W : Type} `{Collaborators W}.

Definition _detect_real_time_manipulation (activity_data : pyobj)
  : M W (gmap string pyobj) :=
  coordinated ← _detect_real_time_coordination activity_data;
  spikes ← _detect_amplification_spikes activity_data;
  narrative ← _detect_narrative_sync activity_data;
  mret (<["confidence_level" := OVal (VFloat 0)]>
        (<["campaign_detected" := OVal (VBool false)]>
        (<["narrative_synchronization" := narrative]>
        (<["amplification_spikes" := spikes]>
        (<["coordinated_posting" := coordinated]> ∅))))).

Definition manipulation_scan : M W unit :=
  recent_activity ← _get_recent_activity;
  manipulation_signals ← _detect_real_time_manipulation recent_activity;
  campaign ← lift (getitem manipulation_signals "campaign_detected");
  _ ← (if py_truthy campaign
       then _trigger_manipulation_alert manipulation_signals
       else mret tt);
  _update_manipulator_profiles manipulation_signals.

(** One pass of the loop.  [realtime_monitor.py] has no [import asyncio]:
    when the line [await asyncio.sleep(30)] is reached, reading the name
    raises. *)
Definition monitor_cycle : M (Run W) unit :=
  _ ← in_world manipulation_scan;
  _ ← lift (unbound_name (A:=unit) "asyncio");
  asyncio_sleep 30.

Definition monitor_manipulation_activity (cycles : nat) (r : Run W)
  : loop_outcome * Run W :=
  while_true cycles monitor_cycle r.
End methods.
End ManipulationMonitor.

(** ** Collaborators to run the model on examples

    The absent methods have no code to embed.  Where the spec describes one
    it is modelled from the spec; the others are simple stand-ins, used only
    to evaluate the embedded code on concrete inputs. *)
Module Demo.

Definition dquote : string := String (ascii_of_nat 34) EmptyString.

(** *** Text helpers *)

Definition is_space (a : ascii) : bool :=
  let n := nat_of_ascii a in
  ((9 <=? n)%nat && (n <=? 13)%nat) || (n =? 32)%nat.

(** [text.split()]: the maximal runs of non-blank characters. *)
Fixpoint split_words (s : string) (word : string) : list string :=
  match s with
  | EmptyString => if String.eqb word "" then [] else [word]
  | String a s' =>
      if is_space a
      then (if String.eqb word "" then [] else [word]) ++ split_words s' ""
      else split_words s' (word +:+ String a EmptyString)
  end.

(** The UTF-8 encodings of U+200B .. U+200D start with E2 80 and end with
    8B .. 8D. *)
Fixpoint strip_zero_width (s : string) : string :=
  match s with
  | String a (String b (String c rest as s2) as s1) =>
      if (nat_of_ascii a =? 226)%nat && (nat_of_ascii b =? 128)%nat
         && (139 <=? nat_of_ascii c)%nat && (nat_of_ascii c <=? 141)%nat
      then strip_zero_width rest
      else String a (strip_zero_width s1)
  | String a s1 => String a (strip_zero_width s1)
  | EmptyString => EmptyString
  end.

(** Modelled from the spec: [_normalize_text] is called but not defined.
    Per the Fingerprint Generator contract normalization lower-cases,
    collapses whitespace and strips zero-width characters. *)
Definition normalize_text (s : string) : string :=
  String.concat " " (split_words (strip_zero_width (lower s)) "").

(** Stand-in for [_generate_ngram_hash]: the digest of the character
    n-grams of the text, one after the other. *)
Fixpoint ngrams (n : nat) (s : string) : list string :=
  match s with
  | EmptyString => []
  | String _ s' =>
      if (n <=? String.length s)%nat
      then substring 0 n s :: ngrams n s'
      else []
  end.

Definition ngram_hash (s : string) (n : Z) : string :=
  sha256_hexdigest (String.concat "|" (ngrams (Z.to_nat n) s)).

(** Stand-in for [json.dumps(_, sort_keys=True)]: no string escapes. *)
Definition scalar_dumps (v : pyval) : string :=
  match v with
  | VNone => "null"
  | VBool b => if b then "true" else "false"
  | VInt z => pretty z
  | VFloat q => pretty (Qnum q) +:+ "/" +:+ pretty (Zpos (Qden q))
  | VStr s => dquote +:+ s +:+ dquote
  end.

Fixpoint dumps (o : pyobj) : string :=
  match o with
  | OVal v => scalar_dumps v
  | OList l => "[" +:+ String.concat ", " (map dumps l) +:+ "]"
  | ODict d =>
      "{" +:+ String.concat ", "
                ((λ kv : string * string,
                    dquote +:+ kv.1 +:+ dquote +:+ ": " +:+ kv.2)
                   <$> map_to_list (dumps <$> d))
          +:+ "}"
  end.

(** A helper that looks at the text only. *)
Definition on_text {A} (f : string → A) (v : pyval) : M Fingerprinter.Engine A :=
  match v with
  | VStr s => mret (f s)
  | _ => lift (Raise (TypeError "text"))
  end.

Definition text_length (s : string) : pyobj :=
  OVal (VInt (Z.of_nat (String.length s))).

Definition word_count (s : string) : pyobj :=
  OVal (VInt (Z.of_nat (length (split_words s "")))).

Definition helpers : Fingerprinter.Helpers :=
  {| Fingerprinter._normalize_text := on_text (λ s, VStr (normalize_text s));
     Fingerprinter._generate_ngram_hash :=
       λ v n, on_text (λ s, VStr (ngram_hash s n)) v;
     Fingerprinter._extract_key_entities :=
       on_text (λ s, OList ((OVal ∘ VStr) <$> split_words (lower s) ""));
     Fingerprinter._extract_sentiment_profile := on_text (λ _, OVal (VStr "neutral"));
     Fingerprinter._extract_topic_signature := on_text (λ _, OVal VNone);
     Fingerprinter._extract_syntactic_pattern := on_text word_count;
     Fingerprinter._calculate_avg_sentence_length := on_text text_length;
     Fingerprinter._calculate_punctuation_ratio := on_text (λ _, OVal (VInt 0));
     Fingerprinter._analyze_capitalization :=
       on_text (λ s, OVal (VBool (String.eqb s (lower s))));
     Fingerprinter._calculate_vocabulary_richness := on_text word_count;
     Fingerprinter._analyze_emoji_usage := on_text (λ _, OVal (VInt 0));
     Fingerprinter._estimate_typing_rhythm := on_text text_length;
     Fingerprinter._analyze_temporal_pattern :=
       λ m, mret (OVal (dict_get m "date" VNone));
     Fingerprinter._generate_metadata_hash :=
       λ m, mret (OVal (dict_get m "chat_id" VNone));
     Fingerprinter._generate_composite_fingerprint :=
       λ m, mret (OVal (dict_get m "id" VNone));
     Fingerprinter.json_dumps := λ o, Ok (dumps o) |}.

Definition engine : Fingerprinter.Engine :=
  {| Fingerprinter.vectorizer :=
       {| Fingerprinter.analyzer := "char"; Fingerprinter.ngram_range := (2, 4)%nat |};
     Fingerprinter.known_forwarded_patterns := [] |}.

(** *** Messages *)

Definition message (id chat_id user_id date : Z) (text : string) : Message :=
  <["text" := VStr text]>
  (<["date" := VInt date]>
  (<["user_id" := VInt user_id]>
  (<["chat_id" := VInt chat_id]>
  (<["id" := VInt id]> ∅)))).

Definition meeting_a : Message := message 1 1 100 0 "Meeting at 5pm".
Definition meeting_b : Message := message 2 2 200 3600 "Meeting at 5pm".
Definition lunch : Message := message 3 3 300 7200 "Lunch?".
Definition blank_1 : Message := message 4 1 100 10 "".
Definition blank_2 : Message := message 5 2 200 20 "".

(** *** Correlation *)

(** Edit distance, one row of the table at a time. *)
Fixpoint next_row (a : ascii) (t : list ascii) (prev : list nat) (left : nat)
  : list nat :=
  match t, prev with
  | b :: t', diag :: (up :: _) as prev' =>
      let cell :=
        Nat.min (Nat.min (S up) (S left))
                (diag + (if Ascii.eqb a b then 0 else 1)) in
      cell :: next_row a t' prev' cell
  | _, _ => []
  end.

Definition levenshtein (s t : list ascii) : nat :=
  List.last
    (fold_left (λ row a, S (hd 0%nat row) :: next_row a t row (S (hd 0%nat row)))
               s (seq 0 (S (length t))))
    0%nat.

Definition text_of (m : Message) : string :=
  match m !! "text" with
  | Some (VStr s) => s
  | _ => ""
  end.

(** Modelled from the spec: [_is_likely_forward] is called but not
    defined.  Per the Propagation Reconstructor a step is a likely forward
    when its time delta is at most 24 hours and the edit distance of the
    two texts is at most 20% of the length of the earlier one. *)
Definition is_likely_forward (prev_msg current_msg : Message) : result bool :=
  d1 ← getitem prev_msg "date";
  d2 ← getitem current_msg "date";
  match as_number d1, as_number d2 with
  | Some x, Some y =>
      Ok (Qle_bool (y - x) 86400
          && (5 * levenshtein (list_ascii_of_string (text_of prev_msg))
                              (list_ascii_of_string (text_of current_msg))
              <=? String.length (text_of prev_msg))%nat)
  | _, _ => Raise (TypeError "-")
  end.

Definition correlator : Correlator.Helpers :=
  {| Correlator._is_likely_forward := is_likely_forward |}.

(** *** Attribution *)

Definition earlier_copy (m row : Message) : bool :=
  match row !! "text", m !! "text", row !! "date", m !! "date" with
  | Some (VStr a), Some (VStr b), Some (VInt x), Some (VInt y) =>
      String.eqb a b && (x <? y)%Z
  | _, _, _, _ => false
  end.

(** Stand-in for [_find_previous_version]: the latest row of a table, kept
    in date order, with the same text and an earlier date. *)
Definition find_previous_version (table : list Message) (m : Message)
  : result (option Message) :=
  Ok (last (List.filter (earlier_copy m) table)).

Definition attribution (table : list Message) : Attribution.Helpers :=
  {| Attribution._find_previous_version := find_previous_version table;
     Attribution._detect_modifications := λ _ _, Ok (OList []) |}.

(** Twelve copies of one text, a minute apart, passed around three chats. *)
Definition relay (i : nat) : Message :=
  message (Z.of_nat i) (Z.of_nat (i mod 3)) (100 + Z.of_nat i)
          (60 * Z.of_nat i) "Meeting at 5pm".

Definition relays : list Message := relay <$> seq 0 12.

(** *** Monitoring; the collaborators act on a log of what they did. *)

Definition propagation_of (similar : list Message) : gmap string pyobj :=
  <["propagation_path" := OList []]>
  (<["similar_messages" := OList (of_message <$> similar)]> ∅).

Definition logging (entry : string) : M (list string) unit :=
  λ log, (Ok tt, log ++ [entry]).

Definition monitor (recent : result (list Message)) (similar : list Message)
    (score : result pyval) : ForwardingMonitor.Collaborators (list string) :=
  {| ForwardingMonitor.track_message_propagation :=
       λ _, mret (propagation_of similar);
     ForwardingMonitor._get_recent_messages := λ _ _, lift recent;
     ForwardingMonitor._check_temporal_proximity := λ _, mret (OVal (VInt 1));
     ForwardingMonitor._detect_content_modification :=
       λ _, mret (OVal (VBool false));
     ForwardingMonitor._calculate_relationship_score := λ _ _, lift score;
     ForwardingMonitor._calculate_leak_confidence :=
       λ leak_indicators,
         mret (VFloat (ForwardingMonitor.weighted_leak_confidence leak_indicators));
     ForwardingMonitor._identify_primary_leaker := λ _, mret (OVal VNone);
     ForwardingMonitor._suggest_countermeasures := λ _, mret (OList []);
     ForwardingMonitor._trigger_leak_alert := λ _, logging "alert";
     ForwardingMonitor._implement_countermeasures :=
       λ _, logging "countermeasures" |}.

Definition manipulation (activity : result pyobj)
  : ManipulationMonitor.Collaborators (list string) :=
  {| ManipulationMonitor._get_recent_activity := lift activity;
     ManipulationMonitor._detect_real_time_coordination := λ _, mret (OList []);
     ManipulationMonitor._detect_amplification_spikes := λ _, mret (OList []);
     ManipulationMonitor._detect_narrative_sync := λ _, mret (OList []);
     ManipulationMonitor._trigger_manipulation_alert := λ _, logging "alert";
     ManipulationMonitor._update_manipulator_profiles := λ _, logging "profiles" |}.

Definition start : Run (list string) := {| world := []; slept := [] |}.

Definition working_monitor : ForwardingMonitor.Collaborators (list string) :=
  monitor (Ok []) [meeting_a; meeting_b] (Ok (VFloat (1 # 10))).

Definition failing_trust : exn := Failure "trust provider unavailable".

Definition untrusting_monitor : ForwardingMonitor.Collaborators (list string) :=
  monitor (Ok []) [meeting_a; meeting_b] (Raise failing_trust).



(** The fingerprint and the content hash the demo engine computes. *)
Definition fp_of (m : Message) : result Fingerprinter.MessageFingerprint :=
  (Fingerprinter.create_message_fingerprint (H:=helpers) m engine).1.

Definition content_hash_of (text : string) : result string :=
  (Fingerprinter._generate_content_hash (H:=helpers) (VStr text) engine).1.
End Demo.

(** * More of the same classes, and their users

    The rest of [CrossChatCorrelationEngine] and [SourceAttributionEngine],
    and [LeakCountermeasures], which acts on the analyses the forwarding
    monitor produces. *)

(** The doubles written [0.8] and [0.5] in the source. *)
Definition float_0_8 : Q := 3602879701896397 # 4503599627370496.
Definition float_0_5 : Q := 1 # 2.

(** [pattern in text] on strings. *)
Fixpoint contains (pattern text : string) : bool :=
  String.prefix pattern text
  || match text with
     | EmptyString => false
     | String _ text' => contains pattern text'
     end.

(** [s[n:]] *)
Fixpoint string_drop (n : nat) (s : string) : string :=
  match n, s with
  | S n', String _ s' => string_drop n' s'
  | _, _ => s
  end.

(** The longest prefix whose characters all satisfy [p]: what a greedy
    repetition of a one-character class consumes. *)
Fixpoint take_while (p : ascii → bool) (s : string) : string :=
  match s with
  | EmptyString => EmptyString
  | String a s' => if p a then String a (take_while p s') else EmptyString
  end.

Fixpoint all_chars (p : ascii → bool) (s : string) : bool :=
  match s with
  | EmptyString => true
  | String a s' => p a && all_chars p s'
  end.

(** ** [networkx.DiGraph], as far as [_build_forwarding_network] uses it

    Nodes and edges are dictionaries keyed by Python values, in insertion
    order; a key that compares equal to an old one updates the old entry
    and keeps the old key. *)
Module DiGraph.

Record t : Type :=
  { nodes : list (pyval * gmap string pyval);
    edges : list ((pyval * pyval) * gmap string pyval) }.

Definition empty : t := {| nodes := []; edges := [] |}.

(** [d.setdefault(k, {}).update(attr)] *)
Fixpoint update_entry {K} (same : K → K → bool) (k : K)
    (attr : gmap string pyval) (l : list (K * gmap string pyval))
  : list (K * gmap string pyval) :=
  match l with
  | [] => [(k, attr)]
  | (k', old) :: l' =>
      if same k' k then (k', attr ∪ old) :: l'
      else (k', old) :: update_entry same k attr l'
  end.

(** [d.get(k)] *)
Definition entry {K} (same : K → K → bool) (k : K)
    (l : list (K * gmap string pyval)) : option (gmap string pyval) :=
  snd <$> List.find (λ kv, same kv.1 k) l.

Definition same_edge (e1 e2 : pyval * pyval) : bool :=
  py_eqb e1.1 e2.1 && py_eqb e1.2 e2.2.

(** [G.add_node(n, **attr)]; [None] is refused with a [ValueError]. *)
Definition add_node (n : pyval) (attr : gmap string pyval) (G : t)
  : result t :=
  match n with
  | VNone => Raise (Failure "ValueError: None cannot be a node")
  | _ => Ok {| nodes := update_entry py_eqb n attr (nodes G);
               edges := edges G |}
  end.

(** [G.add_edge(u, v, **attr)]: missing end points become nodes without
    attributes, and an edge that is already there is updated. *)
Definition add_edge (u v : pyval) (attr : gmap string pyval) (G : t)
  : result t :=
  G ← add_node u ∅ G;
  G ← add_node v ∅ G;
  Ok {| nodes := nodes G;
        edges := update_entry same_edge (u, v) attr (edges G) |}.

(** [G.nodes[n]] and [G.edges[u, v]] *)
Definition node_attrs (G : t) (n : pyval) : option (gmap string pyval) :=
  entry py_eqb n (nodes G).
Definition edge_attrs (G : t) (u v : pyval) : option (gmap string pyval) :=
  entry same_edge (u, v) (edges G).

(** The attribute [key] of a node, or of an edge, is [v]. *)
Definition node_has (G : t) (n : pyval) (key : string) (v : pyval) : Prop :=
  ∃ attrs, node_attrs G n = Some attrs ∧ attrs !! key = Some v.

Definition edge_has (G : t) (u c : pyval) (key : string) (v : pyval)
  : Prop :=
  ∃ attrs, edge_attrs G u c = Some attrs ∧ attrs !! key = Some v.
End DiGraph.

(** ** [cross_chat_correlator.py]: the propagation analysis *)
Module Propagation.

(** What [CrossChatCorrelationEngine] calls without defining it, and the
    database: [messages_table] is what [sqlite3.connect(self.db_path)] and
    a cursor find in the table [messages], [recent_in_other_chats] is the
    second query of [_find_similar_messages], which depends on the clock. *)
Class Collaborators (W : Type) : Type :=
  { _create_message_fingerprint :
      Message → M W Fingerprinter.MessageFingerprint;
    messages_table : M W (list Message);
    recent_in_other_chats : pyobj → M W (list Message);
    _format_message_results : list Message → M W (list Message);
    _format_message_result : Message → M W Message;
    _calculate_semantic_similarity :
      Fingerprinter.MessageFingerprint → Message → M W pyval;
    _identify_original_source : list Message → M W pyobj;
    _calculate_trust_metrics : list Message → M W pyobj;
    _serialize_graph : DiGraph.t → M W pyobj;
    _calculate_centrality : DiGraph.t → M W pyobj;
    _detect_communities : DiGraph.t → M W pyobj;
    _identify_influencers : DiGraph.t → M W pyobj;
    _calculate_propagation_speed : DiGraph.t → list Message → M W pyobj;
    _create_time_windows : list Message → M W pyobj;
    _calculate_leakage_confidence : pyobj → M W pyobj;
    _identify_suspected_leakers : pyobj → M W pyobj }.

(** The body of the [for] loop of [_build_forwarding_network]. *)
Definition add_message (G : DiGraph.t) (message : Message)
  : result DiGraph.t :=
  user_id ← getitem message "user_id";
  chat_id ← getitem message "chat_id";
  timestamp ← getitem message "date";
  G ← DiGraph.add_node user_id
        (<["first_seen" := timestamp]> {[ "type" := VStr "user" ]}) G;
  G ← DiGraph.add_node chat_id {[ "type" := VStr "chat" ]} G;
  message_id ← getitem message "id";
  DiGraph.add_edge user_id chat_id
    (<["timestamp" := timestamp]> {[ "message_id" := message_id ]}) G.

Fixpoint network_loop (similar_messages : list Message) (G : DiGraph.t)
  : result DiGraph.t :=
  match similar_messages with
  | [] => Ok G
  | message :: rest => G ← add_message G message; network_loop rest G
  end.

Section methods.
Context {W : Type} `{Collaborators W} `{Correlator.Helpers}.

Definition _build_forwarding_network (similar_messages : list Message)
  : M W (gmap string pyobj) :=
  G ← lift (network_loop similar_messages DiGraph.empty);
  graph_data ← _serialize_graph G;
  centrality_metrics ← _calculate_centrality G;
  community_structure ← _detect_communities G;
  key_influencers ← _identify_influencers G;
  propagation_speed ← _calculate_propagation_speed G similar_messages;
  mret (<["propagation_speed" := propagation_speed]>
        (<["key_influencers" := key_influencers]>
        (<["community_structure" := community_structure]>
        (<["centrality_metrics" := centrality_metrics]>
        (<["graph_data" := graph_data]> ∅))))).

(** The [for] loop of [_identify_leakage_points]. *)
Fixpoint leakage_loop (time_windows : list pyobj)
    (leakage_points : list (gmap string pyobj))
  : M W (list (gmap string pyobj)) :=
  match time_windows with
  | [] => mret leakage_points
  | window :: rest =>
      messages ← lift (obj_getitem window "messages");
      n ← lift (py_len messages);
      if (1 <? n)%nat then
        timestamp ← lift (obj_getitem window "window_start");
        messages ← lift (obj_getitem window "messages");
        leakage_confidence ← _calculate_leakage_confidence window;
        messages' ← lift (obj_getitem window "messages");
        suspected_leakers ← _identify_suspected_leakers messages';
        leakage_loop rest
          (leakage_points ++
             [ <["suspected_leakers" := suspected_leakers]>
               (<["leakage_confidence" := leakage_confidence]>
               (<["messages" := messages]>
               (<["timestamp" := timestamp]> ∅))) ])
      else leakage_loop rest leakage_points
  end.

Definition _identify_leakage_points (similar_messages : list Message)
  : M W (list (gmap string pyobj)) :=
  time_windows ← _create_time_windows similar_messages;
  windows ← lift (py_iter time_windows);
  leakage_loop windows [].

(** The [for] loop of [_find_similar_messages]. *)
Fixpoint similarity_loop
    (target_fingerprint : Fingerprinter.MessageFingerprint)
    (all_recent_messages similar_messages : list Message)
  : M W (list Message) :=
  match all_recent_messages with
  | [] => mret similar_messages
  | msg :: rest =>
      similarity ← _calculate_semantic_similarity target_fingerprint msg;
      close ← lift (py_lt (VFloat float_0_8) similarity);
      if close : bool then
        formatted ← _format_message_result msg;
        similarity_loop target_fingerprint rest
          (similar_messages ++ [formatted])
      else similarity_loop target_fingerprint rest similar_messages
  end.

(** The second query is given [target_message['chat_id']]; the method has
    no variable of that name (its parameter is [target_fingerprint]) and
    the module has no such global, so reading it raises. *)
Definition _find_similar_messages
    (target_fingerprint : Fingerprinter.MessageFingerprint)
  : M W (list Message) :=
  table ← messages_table;
  let exact_matches := Correlator.exact_matches table target_fingerprint in
  formatted ← _format_message_results exact_matches;
  let similar_messages := [] ++ formatted in
  target_message ← lift (unbound_name (A:=pyobj) "target_message");
  chat_id ← lift (obj_getitem target_message "chat_id");
  all_recent_messages ← recent_in_other_chats chat_id;
  similarity_loop target_fingerprint all_recent_messages similar_messages.

Definition track_message_propagation (target_message : Message)
  : M W (gmap string pyobj) :=
  target_fingerprint ← _create_message_fingerprint target_message;
  similar_messages ← _find_similar_messages target_fingerprint;
  original_source ← _identify_original_source similar_messages;
  propagation_path ←
    lift (Correlator._reconstruct_propagation_path similar_messages);
  forwarding_network ← _build_forwarding_network similar_messages;
  leakage_points ← _identify_leakage_points similar_messages;
  trust_metrics ← _calculate_trust_metrics similar_messages;
  mret (<["trust_metrics" := trust_metrics]>
        (<["leakage_points" := OList (ODict <$> leakage_points)]>
        (<["forwarding_network" := ODict forwarding_network]>
        (<["propagation_path" :=
             OList ((λ chain, OList (of_message <$> chain))
                      <$> propagation_path)]>
        (<["original_source" := original_source]> ∅))))).
End methods.

(** [window[key]], where there is one. *)
Definition window_field (key : string) (window : pyobj) : option pyobj :=
  match obj_getitem window key with
  | Ok o => Some o
  | Raise _ => None
  end.

(** A window of [_create_time_windows] with more than one message. *)
Definition crowded (window : pyobj) : bool :=
  match obj_getitem window "messages" with
  | Ok messages =>
      match py_len messages with
      | Ok n => (1 <? n)%nat
      | Raise _ => false
      end
  | Raise _ => false
  end.

(** The monitor of [forwarding_monitor.py] around this engine: its
    [correlation_engine] is a [CrossChatCorrelationEngine]. *)
Definition monitor_with_engine {W} `{Collaborators W} `{Correlator.Helpers}
    (C : ForwardingMonitor.Collaborators W)
  : ForwardingMonitor.Collaborators W :=
  {| ForwardingMonitor.track_message_propagation := track_message_propagation;
     ForwardingMonitor._get_recent_messages :=
       ForwardingMonitor._get_recent_messages;
     ForwardingMonitor._check_temporal_proximity :=
       ForwardingMonitor._check_temporal_proximity;
     ForwardingMonitor._detect_content_modification :=
       ForwardingMonitor._detect_content_modification;
     ForwardingMonitor._calculate_relationship_score :=
       ForwardingMonitor._calculate_relationship_score;
     ForwardingMonitor._calculate_leak_confidence :=
       ForwardingMonitor._calculate_leak_confidence;
     ForwardingMonitor._identify_primary_leaker :=
       ForwardingMonitor._identify_primary_leaker;
     ForwardingMonitor._suggest_countermeasures :=
       ForwardingMonitor._suggest_countermeasures;
     ForwardingMonitor._trigger_leak_alert :=
       ForwardingMonitor._trigger_leak_alert;
     ForwardingMonitor._implement_countermeasures :=
       ForwardingMonitor._implement_countermeasures |}.
End Propagation.

(** ** [source_attribution.py]: where the content came from *)
Module ContentOrigin.

(** The [MessageFingerprintingEngine] held in [self.fingerprinter], and
    the methods of [SourceAttributionEngine] that are called and not
    defined. *)
Class Helpers : Type :=
  { fingerprinter : Fingerprinter.Engine;
    _classify_url_platform : string → result pyobj;
    _check_common_phrases : pyval → result pyobj;
    _analyze_cultural_references : pyval → result pyobj;
    _analyze_technical_origin : pyval → result pyobj;
    _identify_likely_platform : pyval → result pyobj;
    _calculate_attribution_confidence : gmap string pyobj → result pyobj }.

(** The character class of [url_pattern] after the scheme: letters,
    digits, [$-_] (a range, bytes 36 to 95), [@.&+], [!*\(),]; the
    alternative [%XX] adds nothing, [%] being in the range. *)
Definition url_char (a : ascii) : bool :=
  let n := nat_of_ascii a in
  let between lo hi := ((lo <=? n)%nat && (n <=? hi)%nat)%bool in
  let one_of l := existsb (Nat.eqb n) l in
  (between 97 122 || between 65 90
   || between 48 57
   || (between 36 95 || one_of [64; 46; 38; 43])
   || one_of [33; 42; 92; 40; 41; 44])%bool.

(** [re.match(url_pattern, s)]: [http], an optional [s], [://] and as many
    characters of the class as there are, at least one. *)
Definition match_url (s : string) : option string :=
  scheme ← (if String.prefix "https://" s then Some "https://"
            else if String.prefix "http://" s then Some "http://"
            else None);
  let body := take_while url_char (string_drop (String.length scheme) s) in
  if String.eqb body "" then None else Some (scheme +:+ body).

(** [re.findall(url_pattern, s)]: the matches from left to right, the
    search going on behind each match; [skip] counts the characters of the
    last match still to be passed. *)
Fixpoint findall_from (skip : nat) (s : string) : list string :=
  match s with
  | EmptyString => []
  | String _ s' =>
      match skip with
      | S skip' => findall_from skip' s'
      | O =>
          match match_url s with
          | Some url => url :: findall_from (String.length url - 1) s'
          | None => findall_from 0 s'
          end
      end
  end.

Definition findall_urls (s : string) : list string := findall_from 0 s.

Definition social_media_indicators : list (string * string) :=
  [ ("RT @", "twitter_retweet");
    ("via @", "twitter_via");
    ("Shared from", "facebook_share");
    ("Forwarded", "telegram_forward");
    ("@instagram", "instagram_mention") ].

Definition social_entry (platform : string) : gmap string pyobj :=
  <["confidence" := OVal (VFloat float_0_8)]>
  (<["platform" := OVal (VStr platform)]>
  (<["type" := OVal (VStr "social_media")]> ∅)).

Section methods.
Context `{Helpers} `{Attribution.Helpers} `{Fingerprinter.Helpers}.

(** The message is fingerprinted, and then [sqlite3.connect] is to be
    called: [source_attribution.py] has no [import sqlite3], reading the
    name raises.  The query and what follows it are never reached and are
    left out, and so is the state the fingerprinting engine is left in. *)
Definition _find_original_author (message : Message) : result pyobj :=
  message_fingerprint ←
    (Fingerprinter.create_message_fingerprint message fingerprinter).1;
  unbound_name "sqlite3".

Definition url_entry (url : string) : result (gmap string pyobj) :=
  platform ← _classify_url_platform url;
  Ok (<["platform" := platform]>
      (<["content" := OVal (VStr url)]>
      (<["type" := OVal (VStr "url")]> ∅))).

(** [source_attribution.py] has no [import re]: reading the name in
    [re.findall(url_pattern, text)] raises. *)
Definition _detect_external_sources (text : pyval)
  : result (list (gmap string pyobj)) :=
  _ ← unbound_name (A:=unit) "re";
  match text with
  | VStr s =>
      url_entries ← mapM url_entry (findall_urls s);
      Ok (url_entries
          ++ ((λ pp : string * string, social_entry pp.2)
                <$> List.filter (λ pp, contains pp.1 s)
                      social_media_indicators))
  | _ => Raise (TypeError "expected string or bytes-like object")
  end.

Definition _analyze_content_origin (message : Message)
  : result (gmap string pyobj) :=
  let text := dict_get message "text" (VStr "") in
  external_sources ← _detect_external_sources text;
  common_phrases ← _check_common_phrases text;
  cultural_references ← _analyze_cultural_references text;
  technical_origin ← _analyze_technical_origin text;
  likely_platform ← _identify_likely_platform text;
  Ok (<["likely_platform" := likely_platform]>
      (<["technical_origin" := technical_origin]>
      (<["cultural_references" := cultural_references]>
      (<["common_phrases" := common_phrases]>
      (<["external_sources" := OList (ODict <$> external_sources)]> ∅))))).

Definition attribute_message_source (suspicious_message : Message)
  : result (gmap string pyobj) :=
  original_author ← _find_original_author suspicious_message;
  forwarding_chain ←
    Attribution._reconstruct_forwarding_chain suspicious_message;
  content_origin ← _analyze_content_origin suspicious_message;
  let attribution_analysis : gmap string pyobj :=
    <["supporting_evidence" := OList []]>
    (<["confidence_metrics" := ODict ∅]>
    (<["content_origin" := ODict content_origin]>
    (<["forwarding_chain" := OList (ODict <$> forwarding_chain)]>
    (<["original_author" := original_author]> ∅)))) in
  confidence_metrics ← _calculate_attribution_confidence attribution_analysis;
  Ok (<["confidence_metrics" := confidence_metrics]> attribution_analysis).
End methods.
End ContentOrigin.

(** ** [leak_countermeasures.py] *)
Module Countermeasures.

(** The Telegram client, the deception engine and the measures the class
    names without defining them.  The measures are coroutines: calling one
    runs nothing until it is awaited. *)
Class Collaborators (W : Type) : Type :=
  { generate_canary_messages : pyobj → M W pyobj;
    send_message : pyobj → pyobj → M W unit;
    _isolate_suspected_leaker : gmap string pyobj → M W unit;
    _alert_trusted_contacts : gmap string pyobj → M W unit;
    _modify_communication_patterns : M W unit;
    _increase_monitoring : gmap string pyobj → M W unit;
    _test_with_canary_messages : gmap string pyobj → M W unit;
    _gather_additional_evidence : gmap string pyobj → M W unit }.

Section methods.
Context {W : Type} `{Collaborators W}.

Definition _inject_deception_data (leak_analysis : gmap string pyobj)
  : M W unit :=
  suspected_leaker ← lift (getitem leak_analysis "suspected_leaker");
  canary_messages ← generate_canary_messages suspected_leaker;
  messages ← lift (py_iter canary_messages);
  for_each messages
    (λ message,
       original_chat ← lift (getitem leak_analysis "original_chat");
       send_message original_chat message).

Definition implement_countermeasures (leak_analysis : gmap string pyobj)
  : M W unit :=
  confidence ← lift (getitem leak_analysis "leak_confidence");
  high ← lift (obj_gt confidence (VFloat float_0_8));
  countermeasures ←
    (if high : bool then
       mret [ _inject_deception_data leak_analysis;
              _isolate_suspected_leaker leak_analysis;
              _alert_trusted_contacts leak_analysis;
              _modify_communication_patterns ]
     else
       confidence ← lift (getitem leak_analysis "leak_confidence");
       medium ← lift (obj_gt confidence (VFloat float_0_5));
       if medium : bool then
         mret [ _increase_monitoring leak_analysis;
                _test_with_canary_messages leak_analysis;
                _gather_additional_evidence leak_analysis ]
       else mret []);
  for_each countermeasures (λ measure, measure).
End methods.
End Countermeasures.

(** ** Notions the properties are stated with *)

(** *** Digests *)
Module Digests.

Definition is_hex (a : ascii) : bool :=
  let n := nat_of_ascii a in
  ((48 <=? n)%nat && (n <=? 57)%nat) || ((97 <=? n)%nat && (n <=? 102)%nat).

(** What [hexdigest()[:32]] looks like. *)
Definition hash_like (h : string) : Prop :=
  String.length h = 32%nat ∧ all_chars is_hex h = true.
End Digests.

(** *** Propagation paths *)
Module Paths.
Import Correlator.

Definition forwards_to `{Helpers} (a b : Message) : Prop :=
  _is_likely_forward a b = Ok true.

(** What the loop of the reconstruction keeps true of the links inside
    [(propagation_path, current_chain)]. *)
Definition linked_chains `{Helpers} (seen : list Message)
    (st : list (list Message) * list Message) : Prop :=
  Forall (Sorted forwards_to) st.1 ∧ Sorted forwards_to st.2
  ∧ concat st.1 ++ st.2 `sublist_of` seen.

Definition undated (m : Message) : Prop := m !! "date" = None.
Definition date_no_number (m : Message) : Prop :=
  ∃ d, m !! "date" = Some d ∧ as_number d = None.
Definition date_no_string (m : Message) : Prop :=
  ∃ d, m !! "date" = Some d ∧ as_string d = None.
End Paths.

(** *** Entries of a forwarding chain *)
Module Entries.

Definition is_original_entry (e : gmap string pyobj) : Prop :=
  e !! "status" = Some (OVal (VStr "original"))
  ∧ is_Some (e !! "message") ∧ is_Some (e !! "timestamp").

Definition is_forward_entry (e : gmap string pyobj) : Prop :=
  e !! "status" = None
  ∧ is_Some (e !! "message") ∧ is_Some (e !! "forwarder")
  ∧ is_Some (e !! "timestamp") ∧ is_Some (e !! "modifications").
End Entries.

(** *** Monitors with some of their collaborators fixed or replaced *)
Module Alerts.
Import ForwardingMonitor.

(** The trust provider answers with [score], and does nothing else. *)
Definition provider_scores {W} (C : Collaborators W)
    (score : pyval → pyobj → Q) : Prop :=
  ∀ a b w, _calculate_relationship_score a b w = (Ok (VFloat (score a b)), w).

(** The row is in another chat and its author scores below 0.3. *)
Definition low_trust_crossing (score : pyval → pyobj → Q)
    (original_chat original_user : pyval) (similar_msg : pyobj) : bool :=
  crosses_chat original_chat similar_msg
  && match obj_getitem similar_msg "user_id" with
     | Ok user => negb (Qle_bool float_0_3 (score original_user user))
     | Raise _ => false
     end.

(** The monitor with other methods in the place of [_trigger_leak_alert]
    and [_implement_countermeasures]. *)
Definition with_alerts {W} (C : Collaborators W)
    (alert countermeasures : gmap string pyobj → M W unit) : Collaborators W :=
  {| track_message_propagation := track_message_propagation;
     _get_recent_messages := _get_recent_messages;
     _check_temporal_proximity := _check_temporal_proximity;
     _detect_content_modification := _detect_content_modification;
     _calculate_relationship_score := _calculate_relationship_score;
     _calculate_leak_confidence := _calculate_leak_confidence;
     _identify_primary_leaker := _identify_primary_leaker;
     _suggest_countermeasures := _suggest_countermeasures;
     _trigger_leak_alert := alert;
     _implement_countermeasures := countermeasures |}.

(** No confidence the scoring returns is above the alert threshold. *)
Definition never_above_threshold {W} (C : Collaborators W) : Prop :=
  ∀ leak_indicators w v w',
    _calculate_leak_confidence leak_indicators w = (Ok v, w') →
    py_lt alert_threshold v = Ok false.

(** The manipulation monitor with another method in the place of
    [_trigger_manipulation_alert]. *)
Definition with_manipulation_alert {W}
    (C : ManipulationMonitor.Collaborators W)
    (alert : gmap string pyobj → M W unit)
  : ManipulationMonitor.Collaborators W :=
  {| ManipulationMonitor._get_recent_activity :=
       ManipulationMonitor._get_recent_activity;
     ManipulationMonitor._detect_real_time_coordination :=
       ManipulationMonitor._detect_real_time_coordination;
     ManipulationMonitor._detect_amplification_spikes :=
       ManipulationMonitor._detect_amplification_spikes;
     ManipulationMonitor._detect_narrative_sync :=
       ManipulationMonitor._detect_narrative_sync;
     ManipulationMonitor._trigger_manipulation_alert := alert;
     ManipulationMonitor._update_manipulator_profiles :=
       ManipulationMonitor._update_manipulator_profiles |}.

(** The confidence of an analysis, when it is a number. *)
Definition confidence_of (analysis : gmap string pyobj) : option Q :=
  match analysis !! "leak_confidence" with
  | Some (OVal v) => as_number v
  | _ => None
  end.
End Alerts.

(** ** More sample data *)
Module Examples.

(** A media message: Telegram gives it the text [None]. *)
Definition photo : Message := <["text" := VNone]> Demo.meeting_a.

Definition undated_note : Message := delete "date" Demo.lunch.

(** A row whose date was stored as text. *)
Definition iso_dated : Message :=
  <["date" := VStr "2024-01-01T00:00:00"]> Demo.meeting_b.

(** The author of [Demo.meeting_a] posts it again in the same chat. *)
Definition repost : Message := Demo.message 7 1 100 60 "Meeting at 5pm".

(** A forwarding monitor whose scoring always answers 0.5. *)
Definition calm_monitor : ForwardingMonitor.Collaborators (list string) :=
  {| ForwardingMonitor.track_message_propagation :=
       λ _, mret (Demo.propagation_of [Demo.meeting_a; Demo.meeting_b]);
     ForwardingMonitor._get_recent_messages :=
       λ _ _, mret [Demo.meeting_a; Demo.meeting_b];
     ForwardingMonitor._check_temporal_proximity := λ _, mret (OVal (VInt 1));
     ForwardingMonitor._detect_content_modification :=
       λ _, mret (OVal (VBool false));
     ForwardingMonitor._calculate_relationship_score :=
       λ _ _, mret (VFloat 1);
     ForwardingMonitor._calculate_leak_confidence :=
       λ _, mret (VFloat float_0_5);
     ForwardingMonitor._identify_primary_leaker := λ _, mret (OVal VNone);
     ForwardingMonitor._suggest_countermeasures := λ _, mret (OList []);
     ForwardingMonitor._trigger_leak_alert := λ _, Demo.logging "alert";
     ForwardingMonitor._implement_countermeasures :=
       λ _, Demo.logging "countermeasures" |}.

(** One time window holding all the messages. *)
Definition one_window (similar_messages : list Message) : pyobj :=
  OList [ ODict (<["window_start" := OVal (VInt 0)]>
                 (<["messages" := OList (of_message <$> similar_messages)]>
                  ∅)) ].

Definition engine_parts : Propagation.Collaborators (list string) :=
  {| Propagation._create_message_fingerprint :=
       λ m, lift (Demo.fp_of m);
     Propagation.messages_table :=
       mret [Demo.meeting_a; Demo.meeting_b; Demo.lunch];
     Propagation.recent_in_other_chats := λ _, mret [];
     Propagation._format_message_results := λ rows, mret rows;
     Propagation._format_message_result := λ row, mret row;
     Propagation._calculate_semantic_similarity := λ _ _, mret (VFloat 0);
     Propagation._identify_original_source :=
       λ similar, mret (default (OVal VNone) (of_message <$> head similar));
     Propagation._calculate_trust_metrics := λ _, mret (ODict ∅);
     Propagation._serialize_graph :=
       λ G, mret (OList ((λ n, OVal n.1) <$> DiGraph.nodes G));
     Propagation._calculate_centrality := λ _, mret (ODict ∅);
     Propagation._detect_communities := λ _, mret (OList []);
     Propagation._identify_influencers := λ _, mret (OList []);
     Propagation._calculate_propagation_speed := λ _ _, mret (OVal (VInt 0));
     Propagation._create_time_windows := λ similar, mret (one_window similar);
     Propagation._calculate_leakage_confidence :=
       λ _, mret (OVal (VFloat float_0_5));
     Propagation._identify_suspected_leakers := λ _, mret (OList []) |}.

Definition origin : ContentOrigin.Helpers :=
  {| ContentOrigin.fingerprinter := Demo.engine;
     ContentOrigin._classify_url_platform := λ _, Ok (OVal (VStr "web"));
     ContentOrigin._check_common_phrases := λ _, Ok (OList []);
     ContentOrigin._analyze_cultural_references := λ _, Ok (OList []);
     ContentOrigin._analyze_technical_origin := λ _, Ok (OVal VNone);
     ContentOrigin._identify_likely_platform :=
       λ _, Ok (OVal (VStr "telegram"));
     ContentOrigin._calculate_attribution_confidence := λ _, Ok (ODict ∅) |}.

Definition measures : Countermeasures.Collaborators (list string) :=
  {| Countermeasures.generate_canary_messages :=
       λ _, _ ← Demo.logging "canaries"; mret (OList [OVal (VStr "canary")]);
     Countermeasures.send_message := λ _ _, Demo.logging "sent";
     Countermeasures._isolate_suspected_leaker := λ _, Demo.logging "isolate";
     Countermeasures._alert_trusted_contacts := λ _, Demo.logging "contacts";
     Countermeasures._modify_communication_patterns :=
       Demo.logging "patterns";
     Countermeasures._increase_monitoring := λ _, Demo.logging "monitoring";
     Countermeasures._test_with_canary_messages :=
       λ _, Demo.logging "test canaries";
     Countermeasures._gather_additional_evidence :=
       λ _, Demo.logging "evidence" |}.

Definition shrug : gmap string pyobj :=
  {[ "leak_confidence" := OVal (VFloat float_0_5) ]}.
End Examples.

(** * Properties *)

(** ** The monad *)

Lemma bind_ok {St A B} (c : M St A) (f : A → M St B) s a s' :
  c s = (Ok a, s') → (c ≫= f) s = f a s'.
Proof. intros E. unfold mbind, M_bind. by rewrite E. Qed.

Lemma bind_raise {St A B} (c : M St A) (f : A → M St B) s e s' :
  c s = (Raise e, s') → (c ≫= f) s = (Raise e, s').
Proof. intros E. unfold mbind, M_bind. by rewrite E. Qed.

Lemma bind_ok_inv {St A B} (c : M St A) (f : A → M St B) s b s' :
  (c ≫= f) s = (Ok b, s') → ∃ a s1, c s = (Ok a, s1) ∧ f a s1 = (Ok b, s').
Proof.
  unfold mbind, M_bind. destruct (c s) as [[a|e] s1]; [eauto | discriminate].
Qed.

(** Splits a successful run of [c ≫= f] into the run of [c] and the rest. *)
Ltac step_ok H :=
  let a := fresh "a" in
  let s := fresh "s" in
  let E := fresh "E" in
  apply bind_ok_inv in H as (a & s & E & H).

Lemma mapM_Ok {A B} (f : A → result B) l k :
  mapM f l = Ok k → Forall2 (λ x y, f x = Ok y) l k.
Proof.
  revert k. induction l as [|x l IH]; simpl; intros k E.
  - injection E as <-. constructor.
  - destruct (f x) as [y|] eqn:Ex; simpl in E; [|discriminate].
    destruct (mapM f l) as [k'|]; simpl in E; [|discriminate].
    injection E as <-. constructor; auto.
Qed.

Lemma getitem_Ok {V} (d : gmap string V) key v :
  getitem d key = Ok v → d !! key = Some v.
Proof. unfold getitem. destruct (d !! key); congruence. Qed.

(** ** Strings and digests *)

Lemma length_string_of_list_ascii l :
  String.length (string_of_list_ascii l) = length l.
Proof. induction l; simpl; congruence. Qed.

Lemma sha256_hexdigest_length s : String.length (sha256_hexdigest s) = 64%nat.
Proof.
  unfold sha256_hexdigest, Sha256.hexdigest.
  rewrite length_string_of_list_ascii. reflexivity.
Qed.

Lemma append_inj_length (a b x y : string) :
  String.length a = String.length b →
  String.append a x = String.append b y → a = b ∧ x = y.
Proof.
  revert b. induction a as [|c a IH]; intros [|d b] Hl E; simpl in *;
    try discriminate; [done|].
  injection E as -> E. injection Hl as Hl.
  destruct (IH b Hl E) as [-> ->]. done.
Qed.

Lemma append_empty_r (s : string) : String.append s "" = s.
Proof.
  induction s as [|a s IH]; [reflexivity|].
  change (String a (String.append s "") = String a s). by rewrite IH.
Qed.

Lemma py_join_three h1 h2 h3 j :
  py_join [VStr h1; VStr h2; h3] = Ok j →
  ∃ g, h3 = VStr g ∧ j = String.append h1 (String.append h2 g).
Proof.
  destruct h3; simpl; try discriminate. intros [= <-].
  eexists; split; [done|]. by rewrite append_empty_r.
Qed.

(** ** The fingerprinting engine *)
Module FingerprinterFacts.
Import Fingerprinter.

Create HintDb read_only.

Section engine.
Context `{H : Helpers}.

Lemma read_only_ret {A} (a : A) : read_only (mret a).
Proof. by intros self. Qed.

Lemma read_only_lift {A} (r : result A) : read_only (lift r).
Proof. by intros self. Qed.

Lemma read_only_bind {A B} (c : M Engine A) (f : A → M Engine B) :
  read_only c → (∀ a, read_only (f a)) → read_only (c ≫= f).
Proof.
  intros Hc Hf self. unfold mbind, M_bind.
  specialize (Hc self). destruct (c self) as [[a|e] s1]; simpl in *; subst.
  - apply Hf.
  - done.
Qed.

Lemma read_only_same {A} (c : M Engine A) self :
  read_only c → c (c self).2 = c self.
Proof. intros Hc. by rewrite Hc. Qed.

Hint Resolve read_only_ret read_only_lift : read_only.

Lemma create_message_fingerprint_read_only message :
  read_only_helpers H → read_only (create_message_fingerprint message).
Proof.
  intros (? & ? & ? & ? & ? & ? & ? & ? & ? & ? & ? & ? & ? & ? & ?).
  unfold create_message_fingerprint, _generate_content_hash,
    _generate_semantic_hash, _analyze_writing_style.
  repeat (apply read_only_bind; [ | intros ? ]); auto with read_only.
Qed.

(** The three text digests of a fingerprint are those of the text. *)
Lemma create_message_fingerprint_text message self fp s' :
  create_message_fingerprint message self = (Ok fp, s') →
  ∃ s1, text_digests (dict_get message "text" (VStr "")) self
        = (Ok (content_hash fp, semantic_hash fp, style_signature fp), s1).
Proof.
  unfold create_message_fingerprint, text_digests. intros E.
  do 6 step_ok E. injection E as <- <-. simpl.
  eexists. erewrite bind_ok by eassumption. erewrite bind_ok by eassumption.
  erewrite bind_ok by eassumption. reflexivity.
Qed.

Lemma text_fields_agree m1 m2 self fp1 fp2 s1 s2 :
  dict_get m1 "text" (VStr "") = dict_get m2 "text" (VStr "") →
  create_message_fingerprint m1 self = (Ok fp1, s1) →
  create_message_fingerprint m2 self = (Ok fp2, s2) →
  content_hash fp1 = content_hash fp2
  ∧ semantic_hash fp1 = semantic_hash fp2
  ∧ style_signature fp1 = style_signature fp2.
Proof.
  intros Ht E1 E2.
  apply create_message_fingerprint_text in E1 as [t1 E1].
  apply create_message_fingerprint_text in E2 as [t2 E2].
  rewrite Ht, E2 in E1. by injection E1 as -> -> ->.
Qed.

(** What the final digest of [_generate_content_hash] is taken of: two
    digests of 64 characters, the second of the lower-cased text as it
    is, and the n-gram hash. *)
Lemma content_hash_input (text : string) self h s :
  _generate_content_hash (VStr text) self = (Ok h, s) →
  ∃ n g, h = prefix 32 (sha256_hexdigest
             (String.append (sha256_hexdigest n)
                (String.append (sha256_hexdigest (lower text)) g))).
Proof.
  unfold _generate_content_hash. intros E. do 5 step_ok E.
  injection E as <- _.
  unfold lift in *.
  destruct (py_encode a) as [n|] eqn:En; simpl in E1; [|discriminate].
  injection E1 as <- _. simpl in E2. injection E2 as <- _.
  injection E4 as E4 _. apply py_join_three in E4 as (g & _ & ->).
  by exists n, g.
Qed.

(** Whatever the absent helpers compute, the two texts below get the
    same content hash only if the truncated digest collides. *)
Lemma whitespace_needs_collision self h1 h2 s1 s2 :
  _generate_content_hash (VStr "Meeting at 5pm") self = (Ok h1, s1) →
  _generate_content_hash (VStr "Meeting  at 5pm") self = (Ok h2, s2) →
  h1 = h2 → truncated_collision.
Proof.
  intros E1 E2 Heq.
  apply content_hash_input in E1 as (n1 & g1 & ->).
  apply content_hash_input in E2 as (n2 & g2 & ->).
  eexists _, _. split; [|exact Heq].
  intros E. apply append_inj_length in E as [_ E];
    [|by rewrite !sha256_hexdigest_length].
  apply append_inj_length in E as [E _];
    [|by rewrite !sha256_hexdigest_length].
  vm_compute in E. discriminate.
Qed.
End engine.

Lemma column_is_insert (row : Message) column value :
  Correlator.column_is (<[column := VStr value]> row) column value = true.
Proof.
  unfold Correlator.column_is. rewrite lookup_insert_eq. apply String.eqb_refl.
Qed.

(** Claim C1, evaluated on the code.  The texts ["Meeting at 5pm"] and
    ["Meeting  at 5pm"] differ by one space and have the same
    normalization, yet their content hashes differ: the second of the
    three digests that are hashed together is taken of [text.lower()],
    where the space is still doubled. *)
Theorem extra_space_changes_content_hash :
  Demo.normalize_text "Meeting at 5pm" = Demo.normalize_text "Meeting  at 5pm"
  ∧ Demo.content_hash_of "Meeting at 5pm"
    = Ok "fbe1c8c14654ac2f105797c0f1e9bd96"
  ∧ Demo.content_hash_of "Meeting  at 5pm"
    = Ok "1fd00ad0620bfd92e5dbdba794963600".
Proof. vm_compute. done. Qed.






(** [create_message_fingerprint] is the three digests of the text it
    reads, followed by the three helper methods that are given the
    message. *)
Lemma create_message_fingerprint_stages `{H : Helpers} message self :
  create_message_fingerprint message self
  = (d ← text_digests (dict_get message "text" (VStr ""));
     t ← _analyze_temporal_pattern message;
     h ← _generate_metadata_hash message;
     f ← _generate_composite_fingerprint message;
     mret {| content_hash := d.1.1; semantic_hash := d.1.2;
             style_signature := d.2; temporal_pattern := t;
             metadata_hash := h; composite_fingerprint := f |}) self.
Proof.
  unfold create_message_fingerprint, text_digests.
  generalize (dict_get message "text" (VStr "")). intros text.
  cbv [mbind M_bind mret M_ret].
  destruct (_generate_content_hash text self) as [[c|e] s1]; [|done].
  destruct (_generate_semantic_hash text s1) as [[sem|e] s2]; [|done].
  by destruct (_analyze_writing_style text s2) as [[w|e] s3].
Qed.

(** Claim C10.  A message without a ['text'] key does not raise at the
    lookup: the text read is the empty string.  Fingerprinting such a
    message, and the same message with ['text'] set to the empty string,
    starts with the three digests of the empty string.  If computing them
    raises, both calls raise that exception; otherwise every fingerprint
    either call returns has these digests as its content hash, semantic
    hash and style signature, and each call returns a fingerprint as soon
    as the three helper methods that are given the message return. *)
Theorem missing_text_is_empty_text (H : Helpers) (message : Message)
    (self : Engine) :
  message !! "text" = None →
  let with_text : Message := <["text" := VStr ""]> message in
  match text_digests (VStr "") self with
  | (Raise e, s) =>
      create_message_fingerprint message self = (Raise e, s)
      ∧ create_message_fingerprint with_text self = (Raise e, s)
  | (Ok (c, sem, w), s) =>
      (∀ m fp s', m = message ∨ m = with_text →
         create_message_fingerprint m self = (Ok fp, s') →
         content_hash fp = c ∧ semantic_hash fp = sem
         ∧ style_signature fp = w)
      ∧ (∀ m, m = message ∨ m = with_text →
           message_helpers_return H m →
           ∃ fp s', create_message_fingerprint m self = (Ok fp, s'))
  end.
Proof.
  intros Hnone with_text.
  assert (Ht : ∀ m, m = message ∨ m = with_text →
                    dict_get m "text" (VStr "") = VStr "").
  { intros m [->| ->]; unfold dict_get, with_text;
      [by rewrite Hnone|by rewrite lookup_insert_eq]. }
  destruct (text_digests (VStr "") self) as [[[[c sem] w]|e] s] eqn:Ed.
  - split.
    + intros m fp s' Hm E.
      rewrite create_message_fingerprint_stages, (Ht m Hm) in E.
      rewrite (bind_ok _ _ _ _ _ Ed) in E. do 3 step_ok E.
      by injection E as <- _.
    + intros m Hm (Htp & Hmh & Hcf).
      rewrite create_message_fingerprint_stages, (Ht m Hm).
      rewrite (bind_ok _ _ _ _ _ Ed).
      destruct (Htp s) as (t & s1 & E1). rewrite (bind_ok _ _ _ _ _ E1).
      destruct (Hmh s1) as (h & s2 & E2). rewrite (bind_ok _ _ _ _ _ E2).
      destruct (Hcf s2) as (f & s3 & E3). rewrite (bind_ok _ _ _ _ _ E3).
      by eexists _, _.
  - split; rewrite create_message_fingerprint_stages, Ht by auto;
      by rewrite (bind_raise _ _ _ _ _ Ed).
Qed.

Lemma missing_text_is_empty_text_witness :
  ∃ fp1 fp2,
    Demo.fp_of (delete "text" Demo.blank_1) = Ok fp1
    ∧ Demo.fp_of (<["text" := VStr ""]> (delete "text" Demo.blank_1)) = Ok fp2
    ∧ content_hash fp1 = content_hash fp2
    ∧ semantic_hash fp1 = semantic_hash fp2
    ∧ style_signature fp1 = style_signature fp2.
Proof.
  pose (m := delete "text" Demo.blank_1 : Message).
  pose proof (missing_text_is_empty_text Demo.helpers m Demo.engine
                ltac:(reflexivity)) as Hthm.
  cbv zeta in Hthm.
  assert (Hok : is_ok (text_digests (H:=Demo.helpers) (VStr "")
                         Demo.engine).1 = true) by (vm_compute; reflexivity).
  destruct (text_digests (H:=Demo.helpers) (VStr "") Demo.engine)
    as [[[[c sem] w]|e] s]; [|discriminate].
  destruct Hthm as [Hfields Hreturns].
  assert (Hmh : ∀ m', message_helpers_return Demo.helpers m').
  { intros m'. repeat split; intros self; by eexists _, _. }
  destruct (Hreturns m (or_introl eq_refl) (Hmh _)) as (fp1 & s1 & E1).
  destruct (Hreturns (<["text" := VStr ""]> m) (or_intror eq_refl) (Hmh _))
    as (fp2 & s2 & E2).
  destruct (Hfields _ _ _ (or_introl eq_refl) E1) as (Hc1 & Hs1 & Hw1).
  destruct (Hfields _ _ _ (or_intror eq_refl) E2) as (Hc2 & Hs2 & Hw2).
  exists fp1, fp2. unfold Demo.fp_of. fold m. rewrite E1, E2.
  by rewrite Hc1, Hc2, Hs1, Hs2, Hw1, Hw2.
Defined.

(** Claim C6, as the code has it.  For a message whose text is empty the
    content hash of the fingerprint is the one [_generate_content_hash]
    returns for the empty string.  Two such messages, fingerprinted by the
    same engine, get the same content hash, and the exact-match query for
    one of them returns the stored row of the other: they are treated as
    duplicates. *)
Theorem empty_texts_match_each_other (H : Helpers) (self : Engine)
    (m1 m2 : Message) (fp1 fp2 : MessageFingerprint) (s1 s2 : Engine)
    (table : list Message) :
  empty_text m1 → empty_text m2 →
  create_message_fingerprint m1 self = (Ok fp1, s1) →
  create_message_fingerprint m2 self = (Ok fp2, s2) →
  Correlator.stored_row m2 fp2 ∈ table →
  (∃ s, _generate_content_hash (VStr "") self = (Ok (content_hash fp1), s))
  ∧ content_hash fp1 = content_hash fp2
  ∧ Correlator.stored_row m2 fp2 ∈ Correlator.exact_matches table fp1.
Proof.
  intros T1 T2 E1 E2 Hin.
  destruct (text_fields_agree m1 m2 self fp1 fp2 s1 s2) as (Hc & Hs & _);
    [by rewrite T1, T2 | done | done |].
  split; [|split; [done|]].
  - apply create_message_fingerprint_text in E1 as [t E1]. rewrite T1 in E1.
    unfold text_digests in E1. do 3 step_ok E1. injection E1 as <- _ _. eauto.
  - unfold Correlator.exact_matches. apply list_elem_of_In, filter_In.
    split; [by apply list_elem_of_In|].
    apply orb_true_iff. right. rewrite Hs.
    unfold Correlator.stored_row. apply column_is_insert.
Qed.

Lemma empty_texts_match_each_other_witness :
  ∃ fp1 fp2,
    Demo.fp_of Demo.blank_1 = Ok fp1 ∧ Demo.fp_of Demo.blank_2 = Ok fp2
    ∧ content_hash fp1 = content_hash fp2
    ∧ Correlator.stored_row Demo.blank_2 fp2
      ∈ Correlator.exact_matches
          [Correlator.stored_row Demo.meeting_a fp1;
           Correlator.stored_row Demo.blank_2 fp2] fp1.
Proof.
  assert (Hok1 : is_ok (Demo.fp_of Demo.blank_1) = true)
    by (vm_compute; reflexivity).
  assert (Hok2 : is_ok (Demo.fp_of Demo.blank_2) = true)
    by (vm_compute; reflexivity).
  unfold Demo.fp_of in Hok1, Hok2.
  destruct (create_message_fingerprint (H:=Demo.helpers) Demo.blank_1 Demo.engine)
    as [[fp1|e1] s1] eqn:E1; [|discriminate].
  destruct (create_message_fingerprint (H:=Demo.helpers) Demo.blank_2 Demo.engine)
    as [[fp2|e2] s2] eqn:E2; [|discriminate].
  exists fp1, fp2. unfold Demo.fp_of. rewrite E1, E2.
  split; [done|]. split; [done|].
  eapply (empty_texts_match_each_other Demo.helpers Demo.engine
            Demo.blank_1 Demo.blank_2 fp1 fp2 s1 s2);
    [compute_done | compute_done | exact E1 | exact E2 | ].
  right. left.
Defined.

Lemma empty_texts_are_duplicates :
  ∃ fp1 fp2,
    Demo.fp_of Demo.blank_1 = Ok fp1 ∧ Demo.fp_of Demo.blank_2 = Ok fp2
    ∧ Demo.blank_1 !! "id" ≠ Demo.blank_2 !! "id"
    ∧ content_hash fp1 ≠ prefix 32 (sha256_hexdigest "")
    ∧ content_hash fp1 = content_hash fp2
    ∧ Correlator.exact_matches [Correlator.stored_row Demo.blank_2 fp2] fp1
      = [Correlator.stored_row Demo.blank_2 fp2].
Proof.
  eexists. eexists.
  split; [vm_compute; reflexivity|]. split; [vm_compute; reflexivity|].
  split; [vm_compute; congruence|]. split; [vm_compute; congruence|].
  split; vm_compute; reflexivity.
Qed.
End FingerprinterFacts.

(** ** Path reconstruction *)
Module CorrelatorFacts.
Import Correlator.

(** ** Sorting *)
Section sort_facts.
Context {K A : Type} (le : K → K → bool).
Hypothesis le_total : ∀ x y, le x y = false → le y x = true.
Hypothesis le_trans : ∀ x y z, le x y = true → le y z = true → le x z = true.

Let R (p q : K * A) : Prop := le p.1 q.1 = true.

Lemma insert_by_perm (x : K * A) l : Correlator.insert_by le x l ≡ₚ x :: l.
Proof.
  induction l as [|y l IH]; simpl; [done|].
  destruct (le x.1 y.1); [done|]. rewrite IH. apply Permutation_swap.
Qed.

Lemma stable_sort_perm (l : list (K * A)) : Correlator.stable_sort le l ≡ₚ l.
Proof.
  induction l as [|x l IH]; simpl; [done|].
  rewrite insert_by_perm. by rewrite IH.
Qed.

Lemma insert_by_sorted (x : K * A) l :
  StronglySorted R l → StronglySorted R (Correlator.insert_by le x l).
Proof.
  induction 1 as [|y l Hl IH Hy]; simpl.
  - repeat constructor.
  - destruct (le x.1 y.1) eqn:E.
    + constructor; [by constructor|].
      constructor; [done|].
      eapply Forall_impl; [exact Hy|]. intros z Hz. unfold R in *. eauto.
    + constructor; [done|].
      rewrite insert_by_perm. constructor; [|done].
      unfold R. auto.
Qed.

Lemma stable_sort_sorted (l : list (K * A)) : StronglySorted R (Correlator.stable_sort le l).
Proof.
  induction l as [|x l IH]; simpl; [constructor|]. by apply insert_by_sorted.
Qed.
End sort_facts.

Lemma StronglySorted_sublist {A} (R : relation A) l k :
  l `sublist_of` k → StronglySorted R k → StronglySorted R l.
Proof.
  induction 1 as [|x l k Hs IH|x l k Hs IH]; intros Hk.
  - constructor.
  - apply StronglySorted_inv in Hk as [Hk Hx]. constructor; [auto|].
    rewrite Forall_forall in *. intros y Hy. apply Hx.
    by eapply elem_of_sublist.
  - apply StronglySorted_inv in Hk as [Hk _]. auto.
Qed.

Lemma StronglySorted_map {A B} (R : relation A) (R' : relation B) (P : A → Prop)
    (f : A → B) l :
  (∀ x y, P x → P y → R x y → R' (f x) (f y)) →
  Forall P l → StronglySorted R l → StronglySorted R' (f <$> l).
Proof.
  intros HR HP Hs. induction Hs as [|x l Hl IH Hx]; simpl; [constructor|].
  apply Forall_cons in HP as [Px Pl]. constructor.
  - by apply IH.
  - rewrite Forall_forall in Hx, Pl. apply Forall_forall. intros y Hy.
    apply list_elem_of_fmap in Hy as (z & -> & Hz). auto.
Qed.

(** Orders on the keys *)
Lemma Qle_bool_total x y : Qle_bool x y = false → Qle_bool y x = true.
Proof.
  intros E. apply Qle_bool_iff. apply Qlt_le_weak, Qnot_le_lt.
  intros Hle. apply Qle_bool_iff in Hle. congruence.
Qed.

Lemma Qle_bool_trans x y z :
  Qle_bool x y = true → Qle_bool y z = true → Qle_bool x z = true.
Proof. rewrite !Qle_bool_iff. apply Qle_trans. Qed.

Lemma ascii_compare_trans_lt a b c :
  Ascii.compare a b = Lt → Ascii.compare b c = Lt → Ascii.compare a c = Lt.
Proof. unfold Ascii.compare. rewrite !N.compare_lt_iff. lia. Qed.

Lemma string_compare_eq s t : String.compare s t = Eq → s = t.
Proof. apply String.compare_eq_iff. Qed.

Lemma string_compare_refl s : String.compare s s = Eq.
Proof.
  induction s as [|a s IH]; simpl; [done|].
  unfold Ascii.compare. by rewrite N.compare_refl.
Qed.

Lemma string_compare_trans_lt s t u :
  String.compare s t = Lt → String.compare t u = Lt → String.compare s u = Lt.
Proof.
  revert t u. induction s as [|a s IH]; intros [|b t] [|c u]; simpl;
    try done.
  destruct (Ascii.compare a b) eqn:Eab; try done;
    destruct (Ascii.compare b c) eqn:Ebc; try done; intros H1 H2.
  - apply Ascii.compare_eq_iff in Eab as ->.
    apply Ascii.compare_eq_iff in Ebc as ->.
    unfold Ascii.compare. rewrite N.compare_refl. eauto.
  - apply Ascii.compare_eq_iff in Eab as ->. by rewrite Ebc.
  - apply Ascii.compare_eq_iff in Ebc as <-. by rewrite Eab.
  - by rewrite (ascii_compare_trans_lt a b c).
Qed.

Lemma string_leb_total s t : String.leb s t = false → String.leb t s = true.
Proof. intros E. destruct (String.leb_total s t); congruence. Qed.

Lemma string_leb_trans s t u :
  String.leb s t = true → String.leb t u = true → String.leb s u = true.
Proof.
  unfold String.leb.
  destruct (String.compare s t) eqn:Est; try done;
    destruct (String.compare t u) eqn:Etu; try done; intros _ _.
  - apply string_compare_eq in Est as ->. by rewrite Etu.
  - apply string_compare_eq in Est as ->. by rewrite Etu.
  - apply string_compare_eq in Etu as <-. by rewrite Est.
  - by rewrite (string_compare_trans_lt s t u).
Qed.

Section keyed.
Context {K : Type} (key : pyval → option K) (le : K → K → bool).
Hypothesis le_total : ∀ x y, le x y = false → le y x = true.
Hypothesis le_trans : ∀ x y z, le x y = true → le y z = true → le x z = true.
Hypothesis le_py_le : ∀ d1 d2 x y,
  key d1 = Some x → key d2 = Some y → le x y = true → py_le d1 d2 = Ok true.

Let keyed (p : K * Message) : Prop :=
  ∃ d, p.2 !! "date" = Some d ∧ key d = Some p.1.

Lemma keyed_zip (msgs : list Message) keys ks :
  Forall2 (λ (m : Message) k, getitem m "date" = Ok k) msgs keys →
  Forall2 (λ k q, key k = Some q) keys ks →
  length msgs = length ks ∧ Forall keyed (zip ks msgs).
Proof.
  intros H1. revert ks.
  induction H1 as [|m k msgs keys Hm _ IH]; intros ks H2.
  - apply Forall2_nil_inv_l in H2 as ->. by split.
  - apply Forall2_cons_inv_l in H2 as (q & ks' & Hq & H2 & ->).
    destruct (IH _ H2) as [Hlen Hall]. split; [simpl; congruence|].
    constructor; [|done]. exists k. split; [by apply getitem_Ok|done].
Qed.

Lemma sort_keyed (msgs : list Message) ks :
  length msgs = length ks → Forall keyed (zip ks msgs) →
  (stable_sort le (zip ks msgs)).*2 ≡ₚ msgs
  ∧ StronglySorted date_le ((stable_sort le (zip ks msgs)).*2).
Proof.
  intros Hlen Hall. split.
  - rewrite stable_sort_perm. rewrite snd_zip; [done|lia].
  - eapply (StronglySorted_map _ _ keyed);
      [ | | apply (stable_sort_sorted le le_total le_trans)].
    + intros p q (d1 & Hd1 & Hk1) (d2 & Hd2 & Hk2) Hle.
      exists d1, d2. eauto.
    + by rewrite stable_sort_perm.
Qed.
End keyed.

Lemma sorted_by_date_spec msgs sorted :
  sorted_by_date msgs = Ok sorted →
  sorted ≡ₚ msgs ∧ StronglySorted date_le sorted.
Proof.
  unfold sorted_by_date.
  destruct (mapM (λ x : Message, getitem x "date") msgs) as [keys|] eqn:Ek;
    simpl; [|discriminate].
  apply mapM_Ok in Ek.
  destruct msgs as [|m1 [|m2 rest]].
  - intros [= <-]. split; [done|constructor].
  - intros [= <-]. split; [done|]. repeat constructor.
  - set (msgs := m1 :: m2 :: rest) in *. clearbody msgs.
    destruct (mapM as_number keys) as [qs|] eqn:Eq.
    + intros [= <-]. apply mapM_Some in Eq.
      destruct (keyed_zip as_number msgs keys qs Ek Eq) as [Hlen Hall].
      apply (sort_keyed as_number Qle_bool Qle_bool_total Qle_bool_trans);
        [|done|done].
      intros d1 d2 x y H1 H2 Hle. unfold py_le. by rewrite H1, H2, Hle.
    + destruct (mapM as_string keys) as [ss|] eqn:Es; [|discriminate].
      intros [= <-]. apply mapM_Some in Es.
      destruct (keyed_zip as_string msgs keys ss Ek Es) as [Hlen Hall].
      apply (sort_keyed as_string String.leb string_leb_total string_leb_trans);
        [|done|done].
      intros [] [] x y [= <-] [= <-] Hle. cbv [py_le as_number]. by rewrite Hle.
Qed.

Section path_facts.
Context `{H : Helpers}.

Lemma chains_within_more seen msg path :
  Forall (λ c : list Message, c `sublist_of` seen ∧ (2 ≤ length c)%nat) path →
  Forall (λ c : list Message, c `sublist_of` seen ++ [msg] ∧ (2 ≤ length c)%nat) path.
Proof.
  intros HF. eapply Forall_impl; [exact HF|]. intros c [Hc Hl]. split; [|done].
  by apply sublist_inserts_r.
Qed.

Lemma chain_loop_within msgs seen st st' :
  chain_loop msgs st = Ok st' →
  chains_within seen st → chains_within (seen ++ msgs) st'.
Proof.
  revert seen st. induction msgs as [|msg rest IH]; intros seen st; simpl.
  - intros [= <-]. by rewrite app_nil_r.
  - destruct st as [path current].
    destruct (last current) as [prev|]; [|discriminate].
    destruct (_is_likely_forward prev msg) as [[]|]; simpl; [| |discriminate];
      intros E [Hpath Hcur]; simpl in *;
      rewrite (cons_middle msg seen rest), app_assoc;
      apply (IH _ _ E); split; simpl.
    + by apply chains_within_more.
    + by apply sublist_app.
    + destruct (1 <? length current)%nat eqn:El.
      * apply Forall_app. split; [by apply chains_within_more|].
        constructor; [|done]. apply Nat.ltb_lt in El.
        split; [by apply sublist_inserts_r|lia].
      * by apply chains_within_more.
    + apply sublist_inserts_l. done.
Qed.

Lemma reconstructed_chains similar_messages chains chain :
  _reconstruct_propagation_path similar_messages = Ok chains →
  chain ∈ chains →
  ∃ sorted, sorted ≡ₚ similar_messages ∧ StronglySorted date_le sorted
            ∧ chain `sublist_of` sorted ∧ (2 ≤ length chain)%nat.
Proof.
  unfold _reconstruct_propagation_path.
  destruct similar_messages as [|m0 ms]; [intros [= <-] Hin; by inversion Hin|].
  set (msgs := m0 :: ms). clearbody msgs.
  destruct (sorted_by_date msgs) as [sorted|] eqn:Es; simpl; [|discriminate].
  apply sorted_by_date_spec in Es as [Hperm Hsorted].
  destruct sorted as [|first others]; [discriminate|].
  destruct (chain_loop others ([], [first])) as [[path current]|] eqn:El;
    simpl; [|discriminate].
  apply (chain_loop_within _ [first]) in El as [Hpath Hcur];
    [|split; simpl; [constructor|done]].
  simpl in *. intros [= <-] Hin. exists (first :: others).
  split; [done|]. split; [done|].
  destruct (1 <? length current)%nat eqn:E1.
  - apply elem_of_app in Hin as [Hin|Hin].
    + rewrite Forall_forall in Hpath. by apply Hpath.
    + apply list_elem_of_singleton in Hin as ->. apply Nat.ltb_lt in E1.
      split; [done|lia].
  - rewrite Forall_forall in Hpath. by apply Hpath.
Qed.
End path_facts.

Lemma message_ids_sublist (l k : list Message) :
  l `sublist_of` k → message_ids l `sublist_of` message_ids k.
Proof.
  unfold message_ids. induction 1; simpl; by constructor.
Qed.

(** Claim C2, as the code has it.  Along every chain the reconstruction
    returns the timestamps are non-decreasing.  The reconstruction keeps no
    set of visited messages: a chain is free of repeated message ids when no
    id occurs twice among the similar messages it is given. *)
Theorem chains_follow_date_order (H : Helpers)
    (similar_messages : list Message) (chains : list (list Message))
    (chain : list Message) :
  _reconstruct_propagation_path similar_messages = Ok chains →
  chain ∈ chains →
  StronglySorted date_le chain
  ∧ (NoDup (message_ids similar_messages) → NoDup (message_ids chain)).
Proof.
  intros E Hin.
  destruct (reconstructed_chains _ _ _ E Hin) as (sorted & Hperm & Hs & Hsub & _).
  split.
  - by eapply StronglySorted_sublist.
  - intros Hnd. eapply sublist_NoDup; [|by apply message_ids_sublist].
    unfold message_ids. by rewrite Hperm.
Qed.

Lemma duplicate_row_repeats_in_chain :
  _reconstruct_propagation_path (H:=Demo.correlator)
    [Demo.meeting_a; Demo.meeting_b; Demo.meeting_b]
  = Ok [[Demo.meeting_a; Demo.meeting_b; Demo.meeting_b]]
  ∧ ¬ NoDup (message_ids [Demo.meeting_a; Demo.meeting_b; Demo.meeting_b]).
Proof.
  split; [compute_done|].
  intros Hnd. apply NoDup_cons in Hnd as [_ Hnd].
  apply NoDup_cons in Hnd as [Hnot _]. apply Hnot. by left.
Qed.

Lemma chains_follow_date_order_witness :
  StronglySorted date_le [Demo.meeting_a; Demo.meeting_b]
  ∧ (NoDup (message_ids [Demo.meeting_b; Demo.lunch; Demo.meeting_a]) →
     NoDup (message_ids [Demo.meeting_a; Demo.meeting_b])).
Proof.
  apply (chains_follow_date_order Demo.correlator
           [Demo.meeting_b; Demo.lunch; Demo.meeting_a]
           [[Demo.meeting_a; Demo.meeting_b]]).
  - compute_done.
  - by left.
Defined.

Section unlinked.
Context `{H : Helpers}.

Lemma chain_loop_unlinked msgs c :
  (∀ a b, a ∈ c :: msgs → b ∈ c :: msgs → _is_likely_forward a b = Ok false) →
  ∃ c', chain_loop msgs ([], [c]) = Ok ([], [c']).
Proof.
  revert c. induction msgs as [|m rest IH]; intros c Hno; simpl; [eauto|].
  rewrite (Hno c m) by (by repeat constructor). simpl.
  apply IH. intros a b Ha Hb. apply Hno; by constructor.
Qed.
End unlinked.

Lemma lone_message_no_chain `{H : Helpers} (target : Message) :
  is_Some (target !! "date") → _reconstruct_propagation_path [target] = Ok [].
Proof.
  intros [d Hd]. unfold _reconstruct_propagation_path, sorted_by_date.
  simpl. unfold getitem. rewrite Hd. reflexivity.
Qed.

(** Claim C7, as the code has it.  For a target without ancestors the
    reconstruction returns no chain at all, not a chain of one message:
    the result is the empty list when there is no similar message and when
    the only similar message is the target itself, and also whenever no
    similar message is a likely forward of another.  Every chain that is
    returned has at least two messages. *)
Theorem no_ancestors_no_chain (H : Helpers) :
  _reconstruct_propagation_path [] = Ok []
  ∧ (∀ target : Message,
       is_Some (target !! "date") →
       _reconstruct_propagation_path [target] = Ok [])
  ∧ (∀ (similar_messages : list Message) (chains : list (list Message)),
       _reconstruct_propagation_path similar_messages = Ok chains →
       (∀ chain, chain ∈ chains → (2 ≤ length chain)%nat)
       ∧ ((∀ a b, a ∈ similar_messages → b ∈ similar_messages →
                  _is_likely_forward a b = Ok false) → chains = [])).
Proof.
  split; [done|]. split; [apply lone_message_no_chain|].
  intros similar_messages chains E. split.
  - intros chain Hin.
    by destruct (reconstructed_chains _ _ _ E Hin) as (_ & _ & _ & _ & Hl).
  - intros Hno. revert E. unfold _reconstruct_propagation_path.
    destruct similar_messages as [|m0 ms]; [by intros [= <-]|].
    set (msgs := m0 :: ms) in *. clearbody msgs.
    destruct (sorted_by_date msgs) as [sorted|] eqn:Es; simpl; [|discriminate].
    apply sorted_by_date_spec in Es as [Hperm _].
    destruct sorted as [|first others]; [discriminate|].
    destruct (chain_loop_unlinked others first) as [c' ->]; [|by intros [= <-]].
    intros a b Ha Hb. apply Hno; by rewrite <- Hperm.
Qed.

Lemma lone_target_yields_no_chain :
  _reconstruct_propagation_path (H:=Demo.correlator) [Demo.lunch] = Ok []
  ∧ _reconstruct_propagation_path (H:=Demo.correlator) [Demo.lunch]
    ≠ Ok [[Demo.lunch]].
Proof.
  assert (E : _reconstruct_propagation_path (H:=Demo.correlator) [Demo.lunch]
              = Ok []) by compute_done.
  split; [done|]. rewrite E. discriminate.
Qed.

Lemma no_ancestors_no_chain_witness :
  _reconstruct_propagation_path (H:=Demo.correlator) [Demo.lunch] = Ok []
  ∧ ∀ chains,
      _reconstruct_propagation_path (H:=Demo.correlator)
        [Demo.meeting_b; Demo.meeting_a] = Ok chains →
      ∀ chain, chain ∈ chains → (2 ≤ length chain)%nat.
Proof.
  destruct (no_ancestors_no_chain Demo.correlator) as (_ & Hone & Hall).
  split.
  - apply Hone. by exists (VInt 7200).
  - intros chains E. by destruct (Hall _ _ E).
Defined.
End CorrelatorFacts.

(** ** The forwarding chain walk *)
Module AttributionFacts.
Import Attribution.

Section walk_facts.
Context `{H : Helpers}.

Lemma original_entry_keys m e :
  original_entry m = Ok e → dom e ⊆ entry_keys.
Proof.
  unfold original_entry. destruct (getitem m "date"); simpl; [|discriminate].
  intros [= <-]. rewrite !dom_insert_L, dom_empty_L. unfold entry_keys.
  set_solver.
Qed.

Lemma forward_entry_keys p m e :
  forward_entry p m = Ok e → dom e ⊆ entry_keys ∧ e !! "status" = None.
Proof.
  unfold forward_entry.
  destruct (getitem m "user_id"); simpl; [|discriminate].
  destruct (getitem m "date"); simpl; [|discriminate].
  destruct (_detect_modifications p m); simpl; [|discriminate].
  intros [= <-]. split; [|done].
  rewrite !dom_insert_L, dom_empty_L. unfold entry_keys. set_solver.
Qed.

Lemma original_entry_status m e :
  original_entry m = Ok e → e !! "status" = Some (OVal (VStr "original")).
Proof.
  unfold original_entry. destruct (getitem m "date"); simpl; [|discriminate].
  by intros [= <-].
Qed.

Lemma chain_walk_bounded budget m acc chain :
  chain_walk budget m acc = Ok chain →
  (length chain ≤ length acc + budget)%nat
  ∧ (Forall (λ e, dom e ⊆ entry_keys) acc →
     Forall (λ e, dom e ⊆ entry_keys) chain).
Proof.
  revert m acc. induction budget as [|budget IH]; intros m acc; simpl.
  { intros [= <-]. split; [lia|done]. }
  destruct (dict_truthy m); [|intros [= <-]; split; [lia|done]].
  destruct (_find_previous_version m) as [[p|]|]; simpl; [| |discriminate].
  - destruct (dict_truthy p).
    + destruct (forward_entry p m) as [e|] eqn:Ee; simpl; [|discriminate].
      intros E. apply IH in E as [Hl Hk]. rewrite length_app in Hl. simpl in Hl.
      split; [lia|]. intros Hacc. apply Hk, Forall_app. split; [done|].
      constructor; [|done]. by apply forward_entry_keys in Ee as [? _].
    + destruct (original_entry m) as [e|] eqn:Ee; simpl; [|discriminate].
      intros [= <-]. rewrite length_app. simpl. split; [lia|].
      intros Hacc. apply Forall_app. split; [done|].
      constructor; [|done]. by apply original_entry_keys in Ee.
  - destruct (original_entry m) as [e|] eqn:Ee; simpl; [|discriminate].
    intros [= <-]. rewrite length_app. simpl. split; [lia|].
    intros Hacc. apply Forall_app. split; [done|].
    constructor; [|done]. by apply original_entry_keys in Ee.
Qed.

Lemma chain_walk_no_origin budget m acc chain :
  chain_walk budget m acc = Ok chain →
  dict_truthy m = true →
  Forall (λ e, e !! "status" = None) chain →
  length chain = (length acc + budget)%nat.
Proof.
  revert m acc. induction budget as [|budget IH]; intros m acc; simpl.
  { intros [= <-] _ _. lia. }
  intros E Hm. rewrite Hm in E.
  destruct (_find_previous_version m) as [[p|]|]; simpl in E; [| |discriminate].
  - destruct (dict_truthy p) eqn:Hp.
    + destruct (forward_entry p m) as [e|] eqn:Ee; simpl in E; [|discriminate].
      intros Hall. rewrite (IH _ _ E Hp Hall), length_app. simpl. lia.
    + destruct (original_entry m) as [e|] eqn:Ee; simpl in E; [|discriminate].
      injection E as <-. intros Hall. apply Forall_app in Hall as [_ Hall].
      apply Forall_cons in Hall as [He _].
      apply original_entry_status in Ee. congruence.
  - destruct (original_entry m) as [e|] eqn:Ee; simpl in E; [|discriminate].
    injection E as <-. intros Hall. apply Forall_app in Hall as [_ Hall].
    apply Forall_cons in Hall as [He _].
    apply original_entry_status in Ee. congruence.
Qed.

Lemma chain_walk_total wf budget m acc :
  well_behaved wf → wf m → ∃ chain, chain_walk budget m acc = Ok chain.
Proof.
  intros Hwf. revert m acc. induction budget as [|budget IH]; intros m acc Hm;
    simpl; [eauto|].
  destruct (dict_truthy m); [|eauto].
  destruct (Hwf m Hm) as ([u Hu] & [d Hd] & r & -> & Hr). simpl.
  assert (Ho : ∃ e, original_entry m = Ok e).
  { unfold original_entry, getitem. rewrite Hd. simpl. eauto. }
  destruct r as [p|]; [|destruct Ho as [e ->]; simpl; eauto].
  destruct (dict_truthy p); [|destruct Ho as [e ->]; simpl; eauto].
  destruct (Hr p eq_refl) as [Hp [o Hmod]].
  unfold forward_entry, getitem. rewrite Hu, Hd. simpl. rewrite Hmod. simpl.
  by apply IH.
Qed.
End walk_facts.

Lemma lacks_spec key chain :
  lacks key chain = true → Forall (λ e, e !! key = None) chain.
Proof.
  induction chain as [|e chain IH]; simpl; [constructor|].
  destruct (e !! key) eqn:E; [discriminate|]. intros Hrest.
  constructor; auto.
Qed.

(** Claim C3, as the code has it.  The walk makes at most ten hops: the
    chain has at most [max_iterations] entries.  Reaching the cap is not
    flagged: no entry has a key other than the five of [entry_keys], so none
    has [MaxHopsExceeded]; a chain for a non-empty message in which no entry
    is marked as the original has exactly [max_iterations] entries.  The walk
    raises nothing of its own: when the lookups succeed on messages that
    carry ['user_id'] and ['date'], a chain is returned. *)
Theorem forwarding_chain_capped_without_flag (H : Helpers) (message : Message) :
  (∀ chain, _reconstruct_forwarding_chain message = Ok chain →
     (length chain ≤ max_iterations)%nat
     ∧ Forall (λ e, dom e ⊆ entry_keys ∧ e !! "MaxHopsExceeded" = None) chain
     ∧ (dict_truthy message = true →
        Forall (λ e, e !! "status" = None) chain →
        length chain = max_iterations))
  ∧ (∀ wf, well_behaved wf → wf message →
       ∃ chain, _reconstruct_forwarding_chain message = Ok chain).
Proof.
  unfold _reconstruct_forwarding_chain. split.
  - intros chain E.
    destruct (chain_walk max_iterations message []) as [walked|] eqn:Ew;
      simpl in E; [|discriminate].
    injection E as <-. rewrite length_reverse.
    destruct (chain_walk_bounded _ _ _ _ Ew) as [Hl Hk]. simpl in Hl.
    split; [done|]. split.
    + rewrite Forall_reverse. eapply Forall_impl; [by apply Hk|].
      intros e He. split; [done|]. apply not_elem_of_dom. intros Hin.
      apply He in Hin. unfold entry_keys in Hin. set_solver.
    + intros Hm Hall. rewrite Forall_reverse in Hall.
      by rewrite (chain_walk_no_origin _ _ _ _ Ew Hm Hall).
  - intros wf Hwf Hm.
    destruct (chain_walk_total wf max_iterations message [] Hwf Hm) as [c ->].
    simpl. eauto.
Qed.

Lemma cap_reached_without_flag :
  ∃ chain,
    _reconstruct_forwarding_chain (H:=Demo.attribution Demo.relays) (Demo.relay 11)
    = Ok chain
    ∧ length chain = 10%nat
    ∧ Forall (λ e, e !! "status" = None) chain
    ∧ Forall (λ e, e !! "MaxHopsExceeded" = None) chain.
Proof.
  assert (Hb : match _reconstruct_forwarding_chain
                       (H:=Demo.attribution Demo.relays) (Demo.relay 11) with
               | Ok chain =>
                   (length chain =? 10)%nat && lacks "status" chain
                   && lacks "MaxHopsExceeded" chain
               | Raise _ => false
               end = true) by (vm_compute; reflexivity).
  destruct (_reconstruct_forwarding_chain (H:=Demo.attribution Demo.relays)
              (Demo.relay 11)) as [chain|e]; [|discriminate].
  apply andb_true_iff in Hb as [Hb Hflag].
  apply andb_true_iff in Hb as [Hlen Hstatus].
  exists chain. split; [done|]. split; [by apply Nat.eqb_eq|].
  split; by apply lacks_spec.
Qed.

Lemma forwarding_chain_capped_without_flag_witness :
  ∃ chain,
    _reconstruct_forwarding_chain (H:=Demo.attribution Demo.relays) (Demo.relay 2)
    = Ok chain
    ∧ (length chain ≤ max_iterations)%nat
    ∧ Forall (λ e, dom e ⊆ entry_keys ∧ e !! "MaxHopsExceeded" = None) chain.
Proof.
  destruct (forwarding_chain_capped_without_flag
              (Demo.attribution Demo.relays) (Demo.relay 2)) as [Hgen _].
  assert (Hok : is_ok (_reconstruct_forwarding_chain
                         (H:=Demo.attribution Demo.relays) (Demo.relay 2))
                = true) by (vm_compute; reflexivity).
  destruct (_reconstruct_forwarding_chain (H:=Demo.attribution Demo.relays)
              (Demo.relay 2)) as [chain|e] eqn:E; [|discriminate].
  exists chain. split; [done|].
  destruct (Hgen chain eq_refl) as (Hl & Hk & _). by split.
Defined.
End AttributionFacts.

(** ** Leak scoring and monitoring *)
Module MonitorFacts.
Import ForwardingMonitor.

Lemma clamp01_bounds x : (0 <= clamp01 x <= 1)%Q.
Proof.
  unfold clamp01. split.
  - apply Q.le_max_l.
  - apply Q.max_lub; [done|apply Q.le_min_l].
Qed.

Lemma clamp01_inside x : (0 <= x <= 1)%Q → (clamp01 x == x)%Q.
Proof.
  intros [H0 H1]. unfold clamp01.
  rewrite (Q.min_r 1 x) by done. by apply Q.max_r.
Qed.

(** Claim C4.  With the leak confidence computed as specified, the weighted
    sum of the cross-chat, time-proximity and trust terms clamped to [0,1],
    the scoring step returns a value between 0 and 1 for every set of
    indicators, and every analysis [analyze_message_leakage] returns
    carries that value as its [leak_confidence]. *)
Theorem leak_confidence_in_unit_interval {W} (C : Collaborators W) :
  scores_as_specified C →
  (∀ leak_indicators w,
     ∃ q, _calculate_leak_confidence leak_indicators w = (Ok (VFloat q), w)
          ∧ (0 <= q <= 1)%Q)
  ∧ (∀ (message : Message) (w w' : W) (analysis : gmap string pyobj),
       analyze_message_leakage message w = (Ok analysis, w') →
       ∃ q, analysis !! "leak_confidence" = Some (OVal (VFloat q))
            ∧ (0 <= q <= 1)%Q).
Proof.
  intros Hspec. split.
  - intros ind w. eexists. split; [apply Hspec|apply clamp01_bounds].
  - intros message w w' analysis E. unfold analyze_message_leakage in E.
    do 9 step_ok E. injection E as <- _.
    rewrite Hspec in E6. injection E6 as <- _.
    eexists. split; [|apply clamp01_bounds].
    by rewrite !lookup_insert_ne, lookup_insert_eq by done.
Qed.

Lemma leak_confidence_in_unit_interval_witness :
  ∃ analysis q,
    (analyze_message_leakage (H:=Demo.working_monitor) Demo.meeting_a []).1
    = Ok analysis
    ∧ analysis !! "leak_confidence" = Some (OVal (VFloat q))
    ∧ (0 <= q <= 1)%Q.
Proof.
  assert (Hok : is_ok (analyze_message_leakage (H:=Demo.working_monitor)
                         Demo.meeting_a []).1 = true)
    by (vm_compute; reflexivity).
  destruct (analyze_message_leakage (H:=Demo.working_monitor) Demo.meeting_a [])
    as [[analysis|e] w'] eqn:E; [|discriminate].
  destruct (leak_confidence_in_unit_interval Demo.working_monitor)
    as [_ Hall]; [intros ind w; reflexivity|].
  destruct (Hall Demo.meeting_a [] w' analysis E) as (q & Hq & Hb).
  by exists analysis, q.
Defined.

Section trust_facts.
Context {W : Type} `{C : Collaborators W}.

Lemma trust_loop_provider_down e chat user similar w :
  provider_down C e → Forall well_formed_row similar →
  trust_loop chat user similar w
  = (if existsb (crosses_chat chat) similar then Raise e else Ok false, w).
Proof.
  intros Hdown. induction 1 as [|o rest (d & -> & [c Hc] & [u Hu]) _ IH];
    simpl; [done|].
  unfold crosses_chat at 1. simpl. unfold getitem. rewrite Hc.
  unfold mbind at 1, M_bind, lift. simpl.
  destruct (obj_ne c chat); simpl; [|exact IH].
  rewrite Hu. unfold mbind, M_bind. simpl. by rewrite Hdown.
Qed.
End trust_facts.

(** Claim C8, as the code has it.  The trust check has no handler and no
    degraded mode.  With a provider that raises whenever it is asked, the
    check returns [False] without asking when no similar message is from
    another chat; as soon as one is, the provider's exception escapes the
    check, and with it [analyze_message_leakage]: no result is returned. *)
Theorem trust_failure_escapes {W} (C : Collaborators W) (e : exn)
    (original_message : Message) (propagation : gmap string pyobj)
    (similar : list pyobj) (chat user : pyval) :
  provider_down C e →
  original_message !! "chat_id" = Some chat →
  original_message !! "user_id" = Some user →
  propagation !! "similar_messages" = Some (OList similar) →
  Forall well_formed_row similar →
  (∀ w, _check_trust_network original_message propagation w
        = (if existsb (crosses_chat chat) similar then Raise e else Ok false, w))
  ∧ (∀ w0 w1 w2 w t m,
       track_message_propagation original_message w0 = (Ok propagation, w1) →
       _check_temporal_proximity propagation w1 = (Ok t, w2) →
       _detect_content_modification propagation w2 = (Ok m, w) →
       existsb (crosses_chat chat) similar = true →
       analyze_message_leakage original_message w0 = (Raise e, w)).
Proof.
  intros Hdown Hchat Huser Hsim Hwf.
  assert (Htrust : ∀ w, _check_trust_network original_message propagation w
        = (if existsb (crosses_chat chat) similar then Raise e else Ok false, w)).
  { intros w. unfold _check_trust_network, getitem, dict_get.
    rewrite Hchat, Huser, Hsim. simpl.
    unfold mbind, M_bind, lift. simpl.
    by apply trust_loop_provider_down. }
  split; [done|].
  intros w0 w1 w2 w t m Et Ep Em Hcross. unfold analyze_message_leakage.
  assert (Hlen : ∀ w : W,
    lift (py_len (dict_get propagation "similar_messages" (OList []))) w
    = (Ok (length similar), w)).
  { intros w'. unfold dict_get. by rewrite Hsim. }
  erewrite bind_ok by exact Et. erewrite bind_ok by apply Hlen.
  erewrite bind_ok by exact Ep. erewrite bind_ok by exact Em.
  apply bind_raise. by rewrite Htrust, Hcross.
Qed.

Lemma trust_provider_failure_escapes_scoring :
  analyze_message_leakage (H:=Demo.untrusting_monitor) Demo.meeting_a []
  = (Raise Demo.failing_trust, []).
Proof. by vm_compute. Qed.

Lemma trust_failure_escapes_witness :
  _check_trust_network (H:=Demo.untrusting_monitor) Demo.meeting_a
    (Demo.propagation_of [Demo.meeting_a; Demo.meeting_b]) []
  = (Raise Demo.failing_trust, []).
Proof.
  pose proof (trust_failure_escapes Demo.untrusting_monitor Demo.failing_trust
                Demo.meeting_a
                (Demo.propagation_of [Demo.meeting_a; Demo.meeting_b])
                (of_message <$> [Demo.meeting_a; Demo.meeting_b])
                (VInt 1) (VInt 100)) as Hthm.
  destruct Hthm as [Hcheck _].
  - intros a b w. reflexivity.
  - compute_done.
  - compute_done.
  - reflexivity.
  - assert (Hrow : ∀ m : Message,
      is_Some (m !! "chat_id") → is_Some (m !! "user_id") →
      well_formed_row (of_message m)).
    { intros m [c Hc] [u Hu]. exists (OVal <$> m). split; [done|].
      rewrite !lookup_fmap, Hc, Hu. by split. }
    change (Forall well_formed_row
              [of_message Demo.meeting_a; of_message Demo.meeting_b]).
    repeat apply List.Forall_cons; [| |apply List.Forall_nil];
      apply Hrow; vm_compute; eauto.
  - exact (Hcheck []).
Defined.



(** A pass of the manipulation monitor ends at its sleep, when not
    before. *)
Lemma manipulation_cycle_step {W} `{ManipulationMonitor.Collaborators W}
    (r : Run W) :
  ManipulationMonitor.monitor_cycle r
  = match ManipulationMonitor.manipulation_scan (world r) with
    | (Ok _, w) =>
        (Raise (NameError "asyncio"), {| world := w; slept := slept r |})
    | (Raise e, w) => (Raise e, {| world := w; slept := slept r |})
    end.
Proof.
  unfold ManipulationMonitor.monitor_cycle, mbind, M_bind, in_world, lift.
  by destruct (ManipulationMonitor.manipulation_scan (world r))
    as [[[]|e] w].
Qed.


End MonitorFacts.

(** * Further properties *)

(** ** The monads *)

Lemma lift_ok_inv {St A} (r : result A) (s s' : St) a :
  lift r s = (Ok a, s') → r = Ok a ∧ s' = s.
Proof. unfold lift. by intros [= -> ->]. Qed.

Ltac lift_ok H :=
  let a := fresh "a" in
  let s := fresh "s" in
  let E := fresh "E" in
  apply bind_ok_inv in H as (a & s & [E ->]%lift_ok_inv & H).

Lemma lift_run {St A B} (r : result A) (f : A → M St B) (s : St) a :
  r = Ok a → (lift r ≫= f) s = f a s.
Proof. intros ->. reflexivity. Qed.

Lemma obj_gt_number v q (bound : Q) :
  as_number v = Some q →
  obj_gt (OVal v) (VFloat bound) = Ok (negb (Qle_bool q bound)).
Proof. intros E. cbn. unfold py_lt. cbn. by rewrite E. Qed.

Lemma result_bind_inv {A B} (r : result A) (f : A → result B) b :
  (r ≫= f) = Ok b → ∃ a, r = Ok a ∧ f a = Ok b.
Proof. destruct r as [a|]; [eauto|done]. Qed.

Lemma mapM_result_cons {A B} (f : A → result B) x l :
  mapM f (x :: l) = (y ← f x; k ← mapM f l; mret (y :: k)).
Proof. reflexivity. Qed.

Lemma result_bind_ok {A B} (a : A) (f : A → result B) : (Ok a ≫= f) = f a.
Proof. reflexivity. Qed.

(** ** The digests of a fingerprint *)
Module DigestFacts.
Import Fingerprinter Digests.

Lemma hex_digit_is_hex x : is_hex (Sha256.hex_digit (Z.land x 15)) = true.
Proof.
  change 15%Z with (Z.ones 4). rewrite Z.land_ones by lia.
  pose proof (Z.mod_pos_bound x (2 ^ 4) ltac:(lia)) as Hb.
  set (d := (x mod 2 ^ 4)%Z) in *.
  assert (Hd : d ∈ [0; 1; 2; 3; 4; 5; 6; 7; 8; 9; 10; 11; 12; 13; 14; 15]%Z).
  { assert (d = Z.of_nat (Z.to_nat d)) as -> by lia.
    assert (Z.to_nat d < 16)%nat as Hlt by lia.
    revert Hlt. generalize (Z.to_nat d). intros n Hn.
    do 16 (destruct n as [|n]; [set_solver|]). lia. }
  clearbody d. repeat (apply elem_of_cons in Hd as [->|Hd]; [reflexivity|]).
  by apply elem_of_nil in Hd.
Qed.

Lemma all_chars_string_of_list p l :
  all_chars p (string_of_list_ascii l) = forallb p l.
Proof. induction l as [|a l IH]; simpl; [done|]. by rewrite IH. Qed.

Lemma hexdigest_hex s : all_chars is_hex (sha256_hexdigest s) = true.
Proof.
  unfold sha256_hexdigest, Sha256.hexdigest. rewrite all_chars_string_of_list.
  apply forallb_forall. intros a Ha. apply in_concat in Ha as (w & Hw & Ha).
  apply in_map_iff in Hw as (x & <- & _). unfold Sha256.hex_word in Ha.
  apply in_map_iff in Ha as (i & <- & _). apply hex_digit_is_hex.
Qed.

Lemma prefix_length n s :
  (n ≤ String.length s)%nat → String.length (prefix n s) = n.
Proof.
  unfold prefix. revert s. induction n as [|n IH]; intros s Hn.
  - by destruct s.
  - destruct s as [|a s]; simpl in *; [lia|]. rewrite IH; [done|lia].
Qed.

Lemma prefix_all_chars p n s :
  all_chars p s = true → all_chars p (prefix n s) = true.
Proof.
  unfold prefix. revert s. induction n as [|n IH]; intros s Hs.
  - by destruct s.
  - destruct s as [|a s]; simpl in *; [done|].
    apply andb_true_iff in Hs as [Ha Hs]. rewrite Ha. simpl. by apply IH.
Qed.

Lemma truncated_digest_hash_like s : hash_like (prefix 32 (sha256_hexdigest s)).
Proof.
  split.
  - apply prefix_length. rewrite sha256_hexdigest_length. lia.
  - apply prefix_all_chars, hexdigest_hex.
Qed.

Section format.
Context `{H : Helpers}.

Lemma content_hash_hash_like text self h s :
  _generate_content_hash text self = (Ok h, s) → hash_like h.
Proof.
  unfold _generate_content_hash. intros E. do 5 step_ok E.
  injection E as <- _. apply truncated_digest_hash_like.
Qed.

Lemma semantic_hash_hash_like text self h s :
  _generate_semantic_hash text self = (Ok h, s) → hash_like h.
Proof.
  unfold _generate_semantic_hash. intros E. do 5 step_ok E.
  injection E as <- _. apply truncated_digest_hash_like.
Qed.

Lemma style_signature_hash_like text self h s :
  _analyze_writing_style text self = (Ok h, s) → hash_like h.
Proof.
  unfold _analyze_writing_style. intros E. do 7 step_ok E.
  injection E as <- _. apply truncated_digest_hash_like.
Qed.
End format.

(** Property X1.  The content hash, the semantic hash and the style
    signature of every fingerprint are 32 lower-case hexadecimal digits,
    whatever the helper methods return. *)
Theorem fingerprint_hashes_are_32_hex_digits (H : Helpers) (message : Message)
    (self s : Engine) (fp : MessageFingerprint) :
  create_message_fingerprint message self = (Ok fp, s) →
  hash_like (content_hash fp) ∧ hash_like (semantic_hash fp)
  ∧ hash_like (style_signature fp).
Proof.
  unfold create_message_fingerprint. intros E. do 6 step_ok E.
  injection E as <- _. simpl.
  split; [by eapply content_hash_hash_like|].
  split; [by eapply semantic_hash_hash_like|by eapply style_signature_hash_like].
Qed.

Lemma fingerprint_hashes_are_32_hex_digits_witness :
  ∃ fp, Demo.fp_of Demo.meeting_a = Ok fp
        ∧ hash_like (content_hash fp) ∧ hash_like (semantic_hash fp)
        ∧ hash_like (style_signature fp).
Proof.
  assert (Hok : is_ok (Demo.fp_of Demo.meeting_a) = true)
    by (vm_compute; reflexivity).
  unfold Demo.fp_of in *.
  destruct (create_message_fingerprint (H:=Demo.helpers) Demo.meeting_a
              Demo.engine) as [[fp|e] s] eqn:E; [|discriminate].
  exists fp. split; [done|].
  exact (fingerprint_hashes_are_32_hex_digits Demo.helpers Demo.meeting_a
           Demo.engine s fp E).
Defined.

(** Property X2.  A message whose ['text'] is present and is not a
    string, [None] for instance, cannot be fingerprinted: the call raises,
    whatever the helper methods do. *)
Theorem text_that_is_no_string_raises (H : Helpers) (message : Message)
    (self : Engine) (v : pyval) :
  message !! "text" = Some v → (∀ s, v ≠ VStr s) →
  ∃ e s', create_message_fingerprint message self = (Raise e, s').
Proof.
  intros Hv Hns. unfold create_message_fingerprint, dict_get. rewrite Hv. simpl.
  assert (Hc : ∃ e s', _generate_content_hash v self = (Raise e, s')).
  { unfold _generate_content_hash.
    destruct (_normalize_text v self) as [[n|e] s1] eqn:E1;
      [|erewrite bind_raise by exact E1; eauto].
    erewrite bind_ok by exact E1.
    destruct (py_encode n) as [b|e] eqn:E2; unfold lift at 1; simpl;
      [|erewrite bind_raise by reflexivity; eauto].
    erewrite bind_ok by reflexivity.
    assert (∃ e, py_lower v = Raise e) as [e Hl].
    { destruct v; simpl; eauto. by destruct (Hns s). }
    erewrite bind_raise; [eauto|]. unfold lift. by rewrite Hl. }
  destruct Hc as (e & s' & Hc). erewrite bind_raise by exact Hc. eauto.
Qed.

Lemma text_that_is_no_string_raises_witness :
  ∃ e s', create_message_fingerprint (H:=Demo.helpers) Examples.photo
            Demo.engine = (Raise e, s').
Proof.
  apply (text_that_is_no_string_raises Demo.helpers Examples.photo
           Demo.engine VNone).
  - reflexivity.
  - intros s. discriminate.
Defined.
End DigestFacts.

(** ** Propagation paths *)
Module PathFacts.
Import Correlator CorrelatorFacts Paths.

Section more_path_facts.
Context `{H : Helpers}.

Lemma last_Some_snoc {A} (l : list A) x : last l = Some x → ∃ l', l = l' ++ [x].
Proof.
  destruct l as [|y l _] using rev_ind; [done|].
  rewrite last_snoc. intros [= ->]. eauto.
Qed.

Lemma chain_loop_linked msgs seen st st' :
  chain_loop msgs st = Ok st' →
  linked_chains seen st → linked_chains (seen ++ msgs) st'.
Proof.
  revert seen st. induction msgs as [|msg rest IH]; intros seen st; simpl.
  - intros [= <-]. by rewrite app_nil_r.
  - destruct st as [path current].
    destruct (last current) as [prev|] eqn:Hlast; [|discriminate].
    destruct (_is_likely_forward prev msg) as [[]|] eqn:Hf; simpl;
      [| |discriminate];
      intros E (Hpath & Hcur & Hsub); simpl in *;
      rewrite (cons_middle msg seen rest), app_assoc;
      apply (IH _ _ E); repeat split; simpl.
    + done.
    + apply last_Some_snoc in Hlast as [l' ->].
      apply Sorted_snoc; [done|]. by constructor.
    + rewrite app_assoc. by apply sublist_app.
    + destruct (1 <? length current)%nat; [|done].
      apply Forall_app. split; [done|]. by constructor.
    + repeat constructor.
    + destruct (1 <? length current)%nat.
      * rewrite concat_app. simpl. rewrite app_nil_r. by apply sublist_app.
      * apply sublist_app; [|done]. etransitivity; [|exact Hsub].
        by apply sublist_inserts_r.
Qed.

Lemma reconstructed_linked similar_messages chains :
  _reconstruct_propagation_path similar_messages = Ok chains →
  ∃ sorted, sorted ≡ₚ similar_messages ∧ StronglySorted date_le sorted
            ∧ Forall (Sorted forwards_to) chains
            ∧ concat chains `sublist_of` sorted.
Proof.
  unfold _reconstruct_propagation_path.
  destruct similar_messages as [|m0 ms].
  { intros [= <-]. exists []. repeat split; constructor. }
  set (msgs := m0 :: ms). clearbody msgs.
  destruct (sorted_by_date msgs) as [sorted|] eqn:Es; simpl; [|discriminate].
  apply sorted_by_date_spec in Es as [Hperm Hsorted].
  destruct sorted as [|first others]; [discriminate|].
  destruct (chain_loop others ([], [first])) as [[path current]|] eqn:El;
    simpl; [|discriminate].
  apply (chain_loop_linked _ [first]) in El as (Hpath & Hcur & Hsub);
    [|repeat split; simpl; repeat constructor].
  simpl in *. intros [= <-]. exists (first :: others).
  split; [done|]. split; [done|].
  destruct (1 <? length current)%nat.
  - split; [apply Forall_app; split; [done|by constructor]|].
    rewrite concat_app. simpl. by rewrite app_nil_r.
  - split; [done|]. etransitivity; [|exact Hsub]. by apply sublist_inserts_r.
Qed.
End more_path_facts.

(** Property X3.  Inside a chain every message and the one after it
    passed [_is_likely_forward], in that order. *)
Theorem chain_steps_passed_the_forward_test (H : Helpers)
    (similar_messages : list Message) (chains : list (list Message))
    (chain : list Message) (i : nat) (a b : Message) :
  _reconstruct_propagation_path similar_messages = Ok chains →
  chain ∈ chains → chain !! i = Some a → chain !! S i = Some b →
  _is_likely_forward a b = Ok true.
Proof.
  intros E Hin Ha Hb.
  destruct (reconstructed_linked _ _ E) as (_ & _ & _ & Hl & _).
  rewrite Forall_forall in Hl. specialize (Hl _ Hin). clear E Hin.
  revert i Ha Hb. induction Hl as [|x l Hl IH Hx]; intros i Ha Hb; [done|].
  destruct i as [|i]; simpl in *.
  - injection Ha as ->. destruct l as [|y l]; [done|]. simpl in Hb.
    injection Hb as ->. by inversion Hx.
  - by eapply IH.
Qed.

Lemma chain_steps_passed_the_forward_test_witness :
  _is_likely_forward (Helpers:=Demo.correlator) Demo.meeting_a Demo.meeting_b
  = Ok true.
Proof.
  apply (chain_steps_passed_the_forward_test Demo.correlator
           [Demo.meeting_b; Demo.lunch; Demo.meeting_a]
           [[Demo.meeting_a; Demo.meeting_b]]
           [Demo.meeting_a; Demo.meeting_b] 0).
  - compute_done.
  - by left.
  - reflexivity.
  - reflexivity.
Defined.

(** Property X4.  The chains share no message: laid end to end they are a
    sublist of the similar messages in date order, so together they are no
    longer than the input, and no message id occurs in two chains when
    none occurs twice in the input. *)
Theorem chains_share_no_message (H : Helpers)
    (similar_messages : list Message) (chains : list (list Message)) :
  _reconstruct_propagation_path similar_messages = Ok chains →
  (∃ sorted, sorted ≡ₚ similar_messages ∧ StronglySorted date_le sorted
             ∧ concat chains `sublist_of` sorted)
  ∧ (length (concat chains) ≤ length similar_messages)%nat
  ∧ (NoDup (message_ids similar_messages) →
     NoDup (message_ids (concat chains))).
Proof.
  intros E.
  destruct (reconstructed_linked _ _ E) as (sorted & Hperm & Hs & _ & Hsub).
  split; [eauto|]. split.
  - apply sublist_length in Hsub. apply Permutation_length in Hperm. lia.
  - intros Hnd. eapply sublist_NoDup; [|by apply message_ids_sublist].
    unfold message_ids. by rewrite Hperm.
Qed.

Lemma chains_share_no_message_witness :
  (∃ sorted, sorted ≡ₚ [Demo.meeting_b; Demo.lunch; Demo.meeting_a]
             ∧ StronglySorted date_le sorted
             ∧ concat [[Demo.meeting_a; Demo.meeting_b]] `sublist_of` sorted)
  ∧ (length (concat [[Demo.meeting_a; Demo.meeting_b]])
     ≤ length [Demo.meeting_b; Demo.lunch; Demo.meeting_a])%nat
  ∧ (NoDup (message_ids [Demo.meeting_b; Demo.lunch; Demo.meeting_a]) →
     NoDup (message_ids (concat [[Demo.meeting_a; Demo.meeting_b]]))).
Proof.
  apply (chains_share_no_message Demo.correlator
           [Demo.meeting_b; Demo.lunch; Demo.meeting_a]
           [[Demo.meeting_a; Demo.meeting_b]]).
  compute_done.
Defined.

Lemma date_keys_raise (msgs : list Message) :
  Exists undated msgs →
  mapM (λ x : Message, getitem x "date") msgs = Raise (KeyError "date").
Proof.
  induction 1 as [m msgs Hm|m msgs _ IH]; rewrite mapM_result_cons; cbv beta.
  - unfold getitem. by rewrite Hm.
  - destruct (getitem m "date") as [d|e] eqn:Ed.
    + rewrite result_bind_ok. by rewrite IH.
    + unfold getitem in Ed. destruct (m !! "date"); by simplify_eq.
Qed.

Lemma date_keys_ok (msgs : list Message) keys :
  mapM (λ x : Message, getitem x "date") msgs = Ok keys →
  Forall2 (λ (m : Message) k, m !! "date" = Some k) msgs keys.
Proof.
  intros E%mapM_Ok. eapply Forall2_impl; [exact E|].
  intros m k. apply getitem_Ok.
Qed.

Lemma date_keys_outcome (msgs : list Message) :
  (∃ keys, mapM (λ x : Message, getitem x "date") msgs = Ok keys)
  ∨ Exists undated msgs.
Proof.
  induction msgs as [|m msgs IH]; [left; by eexists|].
  rewrite mapM_result_cons. cbv beta.
  destruct (m !! "date") as [d|] eqn:Ed.
  - assert (getitem m "date" = Ok d) as -> by (unfold getitem; by rewrite Ed).
    rewrite result_bind_ok.
    destruct IH as [[keys ->]|IH]; [left; by eexists|].
    right. by apply Exists_cons_tl.
  - right. by apply Exists_cons_hd.
Qed.

Lemma sorted_by_date_undated msgs :
  Exists undated msgs → sorted_by_date msgs = Raise (KeyError "date").
Proof. intros Hm. unfold sorted_by_date. by rewrite date_keys_raise. Qed.

Lemma sorted_by_date_incomparable msgs :
  Forall (λ m : Message, is_Some (m !! "date")) msgs →
  (2 ≤ length msgs)%nat →
  Exists date_no_number msgs → Exists date_no_string msgs →
  sorted_by_date msgs = Raise (TypeError "<").
Proof.
  intros Hall Hlen Hnn Hns. unfold sorted_by_date.
  destruct (date_keys_outcome msgs) as [[keys Ek]|Hun].
  2: { apply Exists_exists in Hun as (m & Hin & Hm).
       rewrite Forall_forall in Hall. destruct (Hall m Hin) as [d Hd].
       unfold undated in Hm. congruence. }
  rewrite Ek. simpl. apply date_keys_ok in Ek.
  destruct msgs as [|m1 [|m2 rest]]; simpl in Hlen; [lia|lia|].
  assert (mapM as_number keys = None) as ->.
  { apply mapM_None. apply Exists_exists in Hnn as (m & Hin & d & Hd & Hn).
    apply list_elem_of_lookup in Hin as [i Hi].
    destruct (Forall2_lookup_l _ _ _ _ _ Ek Hi) as (k & Hk & Hmk).
    apply Exists_exists. exists k. split; [by eapply list_elem_of_lookup_2|].
    congruence. }
  assert (mapM as_string keys = None) as ->; [|done].
  apply mapM_None. apply Exists_exists in Hns as (m & Hin & d & Hd & Hn).
  apply list_elem_of_lookup in Hin as [i Hi].
  destruct (Forall2_lookup_l _ _ _ _ _ Ek Hi) as (k & Hk & Hmk).
  apply Exists_exists. exists k. split; [by eapply list_elem_of_lookup_2|].
  congruence.
Qed.

Lemma sorted_by_date_raises msgs e :
  sorted_by_date msgs = Raise e →
  (e = KeyError "date" ∧ Exists undated msgs)
  ∨ (e = TypeError "<"
     ∧ Forall (λ m : Message, is_Some (m !! "date")) msgs
     ∧ (2 ≤ length msgs)%nat
     ∧ Exists date_no_number msgs ∧ Exists date_no_string msgs).
Proof.
  unfold sorted_by_date.
  destruct (date_keys_outcome msgs) as [[keys Ek]|Hun].
  2: { rewrite date_keys_raise by done. simpl. intros [= <-]. by left. }
  rewrite Ek. simpl. apply date_keys_ok in Ek.
  assert (Hall : Forall (λ m : Message, is_Some (m !! "date")) msgs).
  { apply Forall_forall. intros m Hin.
    apply list_elem_of_lookup in Hin as [i Hi].
    destruct (Forall2_lookup_l _ _ _ _ _ Ek Hi) as (k & Hk & Hmk). eauto. }
  assert (Hex : ∀ (T : Type) (f : pyval → option T),
    Exists (λ k, f k = None) keys →
    Exists (λ m : Message, ∃ d, m !! "date" = Some d ∧ f d = None) msgs).
  { intros T f Hf. apply Exists_exists in Hf as (k & Hin & Hk).
    apply list_elem_of_lookup in Hin as [i Hi].
    destruct (Forall2_lookup_r _ _ _ _ _ Ek Hi) as (m & Hm & Hmk).
    apply Exists_exists. exists m.
    split; [by eapply list_elem_of_lookup_2|eauto]. }
  destruct msgs as [|m1 [|m2 rest]]; [done|done|].
  destruct (mapM as_number keys) as [qs|] eqn:Eq; [done|].
  destruct (mapM as_string keys) as [ss|] eqn:Es; [done|].
  intros [= <-]. right. split; [done|]. split; [done|].
  split; [simpl; lia|].
  split; [apply (Hex _ as_number)|apply (Hex _ as_string)]; by apply mapM_None.
Qed.

(** Property X5.  One similar message without ['date'] makes the
    reconstruction raise [KeyError('date')], wherever it stands. *)
Theorem undated_message_raises_KeyError (H : Helpers)
    (similar_messages : list Message) (m : Message) :
  m ∈ similar_messages → m !! "date" = None →
  _reconstruct_propagation_path similar_messages = Raise (KeyError "date").
Proof.
  intros Hin Hm. unfold _reconstruct_propagation_path.
  destruct similar_messages as [|m0 ms]; [by inversion Hin|].
  rewrite sorted_by_date_undated; [done|].
  apply Exists_exists. eauto.
Qed.

Lemma undated_message_raises_KeyError_witness :
  _reconstruct_propagation_path (H:=Demo.correlator)
    [Demo.meeting_a; Examples.undated_note]
  = Raise (KeyError "date").
Proof.
  apply (undated_message_raises_KeyError Demo.correlator
           [Demo.meeting_a; Examples.undated_note] Examples.undated_note).
  - right. by left.
  - reflexivity.
Defined.

(** Property X6.  A date that is a number and a date that is a string
    among the similar messages, all of them dated, make the reconstruction
    raise [TypeError]: [sorted] cannot order the two. *)
Theorem number_and_string_dates_raise_TypeError (H : Helpers)
    (similar_messages : list Message) (m1 m2 : Message) (d1 : pyval)
    (q : Q) (s2 : string) :
  Forall (λ m : Message, is_Some (m !! "date")) similar_messages →
  m1 ∈ similar_messages → m1 !! "date" = Some d1 → as_number d1 = Some q →
  m2 ∈ similar_messages → m2 !! "date" = Some (VStr s2) →
  _reconstruct_propagation_path similar_messages = Raise (TypeError "<").
Proof.
  intros Hall Hin1 Hd1 Hn1 Hin2 Hd2.
  assert (Hlen : (2 ≤ length similar_messages)%nat).
  { destruct similar_messages as [|a [|b l]]; [by inversion Hin1| |simpl; lia].
    apply list_elem_of_singleton in Hin1, Hin2. subst.
    rewrite Hd2 in Hd1. injection Hd1 as <-. discriminate. }
  unfold _reconstruct_propagation_path.
  destruct similar_messages as [|m0 ms]; [by inversion Hin1|].
  rewrite sorted_by_date_incomparable; [done|done|done| |];
    apply Exists_exists; [exists m2|exists m1]; (split; [done|]).
  - by exists (VStr s2).
  - exists d1. split; [done|]. by destruct d1.
Qed.

Lemma number_and_string_dates_raise_TypeError_witness :
  _reconstruct_propagation_path (H:=Demo.correlator)
    [Demo.meeting_a; Examples.iso_dated]
  = Raise (TypeError "<").
Proof.
  apply (number_and_string_dates_raise_TypeError Demo.correlator
           [Demo.meeting_a; Examples.iso_dated]
           Demo.meeting_a Examples.iso_dated
           (VInt 0) 0%Q "2024-01-01T00:00:00").
  - repeat apply List.Forall_cons; [| |apply List.Forall_nil];
      vm_compute; eauto.
  - by left.
  - reflexivity.
  - reflexivity.
  - right. by left.
  - reflexivity.
Defined.

Lemma sorted_by_date_permutation (msgs1 msgs2 : list Message) :
  msgs1 ≡ₚ msgs2 →
  (∀ a b, a ∈ msgs1 → b ∈ msgs1 → date_le a b → date_le b a → a = b) →
  sorted_by_date msgs1 = sorted_by_date msgs2.
Proof.
  intros Hperm Hanti.
  assert (Hraise : ∀ l1 l2 e, l1 ≡ₚ l2 →
            sorted_by_date l1 = Raise e → sorted_by_date l2 = Raise e).
  { intros l1 l2 e Hp [[-> Hun]|(-> & Hall & Hlen & Hnn & Hns)]%sorted_by_date_raises.
    - apply sorted_by_date_undated. by rewrite <- Hp.
    - apply sorted_by_date_incomparable; by rewrite <- Hp. }
  destruct (sorted_by_date msgs1) as [s1|e1] eqn:E1.
  - destruct (sorted_by_date msgs2) as [s2|e2] eqn:E2.
    + apply sorted_by_date_spec in E1 as [Hp1 Hs1].
      apply sorted_by_date_spec in E2 as [Hp2 Hs2].
      f_equal. apply (StronglySorted_unique_strong date_le); [|done|done|].
      * intros a b Ha Hb.
        apply Hanti; [by rewrite <- Hp1 | by rewrite Hperm, <- Hp2].
      * by rewrite Hp1, Hp2.
    + apply (Hraise msgs2 msgs1) in E2; [congruence|by symmetry].
  - symmetry. by apply (Hraise msgs1 msgs2).
Qed.

(** Property X7.  The order in which the similar messages are given does
    not matter, as long as no two different ones have the same date. *)
Theorem input_order_is_irrelevant (H : Helpers)
    (msgs1 msgs2 : list Message) :
  msgs1 ≡ₚ msgs2 →
  (∀ a b, a ∈ msgs1 → b ∈ msgs1 → date_le a b → date_le b a → a = b) →
  _reconstruct_propagation_path msgs1 = _reconstruct_propagation_path msgs2.
Proof.
  intros Hperm Hanti. unfold _reconstruct_propagation_path.
  rewrite (sorted_by_date_permutation msgs1 msgs2 Hperm Hanti).
  destruct msgs1 as [|a l1], msgs2 as [|b l2]; try done.
  - by apply Permutation_nil_cons in Hperm.
  - symmetry in Hperm. by apply Permutation_nil_cons in Hperm.
Qed.

Lemma input_order_is_irrelevant_witness :
  _reconstruct_propagation_path (H:=Demo.correlator)
    [Demo.meeting_b; Demo.meeting_a]
  = _reconstruct_propagation_path (H:=Demo.correlator)
      [Demo.meeting_a; Demo.meeting_b].
Proof.
  apply (input_order_is_irrelevant Demo.correlator
           [Demo.meeting_b; Demo.meeting_a] [Demo.meeting_a; Demo.meeting_b]).
  - apply perm_swap.
  - assert (Hlt : ¬ date_le Demo.meeting_b Demo.meeting_a).
    { intros (d1 & d2 & E1 & E2 & Hle).
      vm_compute in E1. vm_compute in E2.
      injection E1 as <-. injection E2 as <-. vm_compute in Hle.
      discriminate. }
    intros a b Ha Hb Hab Hba.
    apply elem_of_cons in Ha as [->|Ha]; apply elem_of_cons in Hb as [->|Hb];
      try reflexivity;
      try (apply elem_of_cons in Ha as [->|Ha]; [|by inversion Ha]);
      try (apply elem_of_cons in Hb as [->|Hb]; [|by inversion Hb]);
      try reflexivity; by destruct Hlt.
Defined.
End PathFacts.

(** ** Forwarding chains *)
Module EntryFacts.
Import Attribution AttributionFacts Entries.

Section more_walk_facts.
Context `{H : Helpers}.

Lemma original_entry_shape m e :
  original_entry m = Ok e → is_original_entry e.
Proof.
  unfold original_entry. destruct (getitem m "date"); simpl; [|discriminate].
  intros [= <-]. repeat split; by eexists.
Qed.

Lemma forward_entry_shape p m e :
  forward_entry p m = Ok e → is_forward_entry e.
Proof.
  unfold forward_entry.
  destruct (getitem m "user_id"); simpl; [|discriminate].
  destruct (getitem m "date"); simpl; [|discriminate].
  destruct (_detect_modifications p m); simpl; [|discriminate].
  intros [= <-]. repeat split; by eexists.
Qed.

Lemma chain_walk_shape budget m acc chain :
  chain_walk budget m acc = Ok chain →
  ∃ forwards origin,
    chain = acc ++ forwards ++ origin
    ∧ Forall is_forward_entry forwards
    ∧ Forall is_original_entry origin ∧ (length origin ≤ 1)%nat.
Proof.
  assert (Hstop : ∀ l : list (gmap string pyobj), ∃ forwards origin,
    l = l ++ forwards ++ origin
    ∧ Forall is_forward_entry forwards
    ∧ Forall is_original_entry origin ∧ (length origin ≤ 1)%nat).
  { intros l. exists [], []. simpl. rewrite app_nil_r.
    repeat split; [constructor|constructor|lia]. }
  revert m acc. induction budget as [|budget IH]; intros m acc; simpl.
  { intros [= <-]. apply Hstop. }
  destruct (dict_truthy m); [|intros [= <-]; apply Hstop].
  assert (Horig : ∀ chain,
    (original_entry m ≫= λ entry, Ok (acc ++ [entry])) = Ok chain →
    ∃ forwards origin,
      chain = acc ++ forwards ++ origin
      ∧ Forall is_forward_entry forwards
      ∧ Forall is_original_entry origin ∧ (length origin ≤ 1)%nat).
  { intros c. destruct (original_entry m) as [e|] eqn:Ee; simpl; [|discriminate].
    intros [= <-]. exists [], [e]. repeat split; [done| |simpl; lia].
    constructor; [|done]. by eapply original_entry_shape. }
  destruct (_find_previous_version m) as [[p|]|]; simpl; [| |discriminate];
    [|apply Horig].
  destruct (dict_truthy p); [|apply Horig].
  destruct (forward_entry p m) as [e|] eqn:Ee; simpl; [|discriminate].
  intros E. apply IH in E as (forwards & origin & -> & Hf & Ho & Hl).
  exists (e :: forwards), origin. rewrite <- app_assoc. simpl.
  repeat split; [|done|done]. constructor; [|done].
  by eapply forward_entry_shape.
Qed.
End more_walk_facts.

(** Property X8.  A forwarding chain has at most one entry marked as the
    original, it is the first one, and all the others are forwarding hops:
    they have a forwarder and modifications and no status. *)
Theorem original_is_first_and_only (H : Helpers) (message : Message)
    (chain : list (gmap string pyobj)) :
  _reconstruct_forwarding_chain message = Ok chain →
  ∃ origin forwards,
    chain = origin ++ forwards
    ∧ (length origin ≤ 1)%nat
    ∧ Forall is_original_entry origin
    ∧ Forall is_forward_entry forwards.
Proof.
  unfold _reconstruct_forwarding_chain.
  destruct (chain_walk max_iterations message []) as [walked|] eqn:Ew;
    simpl; [|discriminate].
  intros [= <-].
  apply chain_walk_shape in Ew as (forwards & origin & -> & Hf & Ho & Hl).
  exists (reverse origin), (reverse forwards). simpl.
  rewrite reverse_app, length_reverse, !Forall_reverse. done.
Qed.

Lemma original_is_first_and_only_witness :
  ∃ chain origin forwards,
    _reconstruct_forwarding_chain (H:=Demo.attribution Demo.relays)
      (Demo.relay 2) = Ok chain
    ∧ chain = origin ++ forwards
    ∧ (length origin ≤ 1)%nat
    ∧ Forall is_original_entry origin
    ∧ Forall is_forward_entry forwards.
Proof.
  assert (Hok : is_ok (_reconstruct_forwarding_chain
                         (H:=Demo.attribution Demo.relays) (Demo.relay 2))
                = true) by (vm_compute; reflexivity).
  destruct (_reconstruct_forwarding_chain (H:=Demo.attribution Demo.relays)
              (Demo.relay 2)) as [chain|e] eqn:E; [|discriminate].
  destruct (original_is_first_and_only (Demo.attribution Demo.relays)
              (Demo.relay 2) chain E) as (origin & forwards & Hshape).
  exists chain, origin, forwards. split; [done|exact Hshape].
Defined.

(** Property X9.  A non-empty message for which no previous version is
    found is its own origin: the chain is the single entry that holds the
    message, the status ["original"] and the date of the message. *)
Theorem message_without_previous_version_is_its_origin (H : Helpers)
    (message : Message) (d : pyval) (r : option Message) :
  dict_truthy message = true →
  message !! "date" = Some d →
  _find_previous_version message = Ok r →
  (∀ p, r = Some p → dict_truthy p = false) →
  _reconstruct_forwarding_chain message
  = Ok [ <["timestamp" := OVal d]>
         (<["status" := OVal (VStr "original")]>
         (<["message" := of_message message]> ∅)) ].
Proof.
  intros Hm Hd Hr Hp. unfold _reconstruct_forwarding_chain, max_iterations.
  simpl. rewrite Hm, Hr. simpl.
  assert (original_entry message
          = Ok (<["timestamp" := OVal d]>
                (<["status" := OVal (VStr "original")]>
                (<["message" := of_message message]> ∅)))) as Ho.
  { unfold original_entry, getitem. by rewrite Hd. }
  destruct r as [p|]; [rewrite (Hp p eq_refl)|]; by rewrite Ho.
Qed.

Lemma message_without_previous_version_is_its_origin_witness :
  _reconstruct_forwarding_chain (H:=Demo.attribution Demo.relays)
    (Demo.relay 0)
  = Ok [ <["timestamp" := OVal (VInt 0)]>
         (<["status" := OVal (VStr "original")]>
         (<["message" := of_message (Demo.relay 0)]> ∅)) ].
Proof.
  apply (message_without_previous_version_is_its_origin
           (Demo.attribution Demo.relays) (Demo.relay 0) (VInt 0) None).
  - by vm_compute.
  - reflexivity.
  - by vm_compute.
  - intros p. discriminate.
Defined.

Lemma first_hop `{H : Helpers} budget (message previous : Message) acc walked :
  dict_truthy message = true → dict_truthy previous = true →
  _find_previous_version message = Ok (Some previous) →
  chain_walk (S budget) message acc = Ok walked →
  ∃ e rest, forward_entry previous message = Ok e ∧ walked = acc ++ e :: rest.
Proof.
  intros Hm Hp Hr. simpl. rewrite Hm, Hr. simpl. rewrite Hp.
  destruct (forward_entry previous message) as [e|] eqn:Ee; simpl; [|discriminate].
  intros (forwards & origin & -> & _)%chain_walk_shape.
  exists e, (forwards ++ origin). split; [done|]. by rewrite <- app_assoc.
Qed.

(** Property X10.  When a previous version of the message is found, the
    last entry of the chain is the hop into the message: it holds the
    previous version, and the sender and the date of the message itself. *)
Theorem chain_ends_with_the_hop_into_the_message (H : Helpers)
    (message previous : Message) (chain : list (gmap string pyobj)) :
  dict_truthy message = true → dict_truthy previous = true →
  _find_previous_version message = Ok (Some previous) →
  _reconstruct_forwarding_chain message = Ok chain →
  ∃ e, last chain = Some e
       ∧ e !! "message" = Some (of_message previous)
       ∧ e !! "forwarder" = OVal <$> message !! "user_id"
       ∧ e !! "timestamp" = OVal <$> message !! "date"
       ∧ e !! "status" = None.
Proof.
  intros Hm Hp Hr. unfold _reconstruct_forwarding_chain.
  destruct (chain_walk max_iterations message []) as [walked|] eqn:Ew;
    simpl; [|discriminate].
  intros [= <-].
  apply (first_hop 9 message previous) in Ew as (e & rest & Ee & ->);
    [|done..].
  exists e. split.
  { simpl. rewrite reverse_cons. apply last_snoc. }
  revert Ee. unfold forward_entry, getitem.
  destruct (message !! "user_id") as [u|]; simpl; [|discriminate].
  destruct (message !! "date") as [d|]; simpl; [|discriminate].
  destruct (_detect_modifications previous message); simpl; [|discriminate].
  by intros [= <-].
Qed.

Lemma chain_ends_with_the_hop_into_the_message_witness :
  ∃ chain e,
    _reconstruct_forwarding_chain (H:=Demo.attribution Demo.relays)
      (Demo.relay 2) = Ok chain
    ∧ last chain = Some e
    ∧ e !! "message" = Some (of_message (Demo.relay 1))
    ∧ e !! "forwarder" = OVal <$> Demo.relay 2 !! "user_id"
    ∧ e !! "timestamp" = OVal <$> Demo.relay 2 !! "date"
    ∧ e !! "status" = None.
Proof.
  assert (Hok : is_ok (_reconstruct_forwarding_chain
                         (H:=Demo.attribution Demo.relays) (Demo.relay 2))
                = true) by (vm_compute; reflexivity).
  destruct (_reconstruct_forwarding_chain (H:=Demo.attribution Demo.relays)
              (Demo.relay 2)) as [chain|e0] eqn:E; [|discriminate].
  destruct (chain_ends_with_the_hop_into_the_message
              (Demo.attribution Demo.relays) (Demo.relay 2) (Demo.relay 1)
              chain) as (e & Hlast);
    [by vm_compute | by vm_compute | compute_done | exact E |].
  exists chain, e. split; [done|exact Hlast].
Defined.
End EntryFacts.

(** ** The monitors *)
Module AlertFacts.
Import ForwardingMonitor MonitorFacts Alerts.

Section trust.
Context {W : Type} `{C : Collaborators W}.

Lemma trust_loop_scores score chat user similar w :
  provider_scores C score → Forall well_formed_row similar →
  trust_loop chat user similar w
  = (Ok (existsb (low_trust_crossing score chat user) similar), w).
Proof.
  intros Hscore. induction 1 as [|o rest (d & -> & [c Hc] & [u Hu]) _ IH];
    simpl; [done|].
  unfold low_trust_crossing at 1, crosses_chat. simpl. unfold getitem.
  rewrite Hc, Hu.
  unfold mbind at 1, M_bind, lift. simpl.
  destruct (obj_ne c chat); simpl; [|exact IH].
  unfold mbind at 1, M_bind. simpl. unfold mbind at 1, M_bind.
  rewrite Hscore. unfold mbind at 1, M_bind. simpl.
  destruct (Qle_bool float_0_3 (score user u)); simpl; [exact IH|done].
Qed.
End trust.

(** Property X11.  With a trust provider that answers and rows that have
    a chat and a user, the trust check says whether some row of another
    chat has an author who scores below 0.3; it changes nothing. *)
Theorem trust_check_decides_by_low_score {W} (C : Collaborators W)
    (score : pyval → pyobj → Q)
    (original_message : Message) (propagation : gmap string pyobj)
    (similar : list pyobj) (chat user : pyval) (w : W) :
  provider_scores C score →
  original_message !! "chat_id" = Some chat →
  original_message !! "user_id" = Some user →
  propagation !! "similar_messages" = Some (OList similar) →
  Forall well_formed_row similar →
  _check_trust_network original_message propagation w
  = (Ok (existsb (low_trust_crossing score chat user) similar), w).
Proof.
  intros Hscore Hchat Huser Hsim Hwf.
  unfold _check_trust_network, getitem, dict_get.
  rewrite Hchat, Huser, Hsim. simpl. unfold mbind, M_bind, lift. simpl.
  by apply trust_loop_scores.
Qed.

Lemma trust_check_decides_by_low_score_witness :
  _check_trust_network (H:=Demo.working_monitor) Demo.meeting_a
    (Demo.propagation_of [Demo.meeting_a; Demo.meeting_b]) []
  = (Ok (existsb (low_trust_crossing (λ _ _, 1 # 10) (VInt 1) (VInt 100))
           (of_message <$> [Demo.meeting_a; Demo.meeting_b])), []).
Proof.
  apply (trust_check_decides_by_low_score Demo.working_monitor
           (λ _ _, 1 # 10) Demo.meeting_a
           (Demo.propagation_of [Demo.meeting_a; Demo.meeting_b])
           (of_message <$> [Demo.meeting_a; Demo.meeting_b])
           (VInt 1) (VInt 100) []).
  - intros a b w. reflexivity.
  - reflexivity.
  - reflexivity.
  - reflexivity.
  - assert (Hrow : ∀ m : Message,
      is_Some (m !! "chat_id") → is_Some (m !! "user_id") →
      well_formed_row (of_message m)).
    { intros m [c Hc] [u Hu]. exists (OVal <$> m). split; [done|].
      rewrite !lookup_fmap, Hc, Hu. by split. }
    change (Forall well_formed_row
              [of_message Demo.meeting_a; of_message Demo.meeting_b]).
    repeat apply List.Forall_cons; [| |apply List.Forall_nil];
      apply Hrow; vm_compute; eauto.
Defined.

(** Property X13.  As shipped, the manipulation monitor ends in its first
    pass and never sleeps: [realtime_monitor.py] does not import [asyncio],
    so a scan that completes is followed by a [NameError] at
    [asyncio.sleep(30)], and a scan that raises ends the loop itself. *)
Theorem manipulation_monitor_ends_in_its_first_pass {W}
    (C : ManipulationMonitor.Collaborators W) (cycles : nat) (r : Run W) :
  ManipulationMonitor.monitor_manipulation_activity (S cycles) r
  = match ManipulationMonitor.manipulation_scan (world r) with
    | (Ok _, w) =>
        (Escaped (NameError "asyncio"), {| world := w; slept := slept r |})
    | (Raise e, w) => (Escaped e, {| world := w; slept := slept r |})
    end.
Proof.
  unfold ManipulationMonitor.monitor_manipulation_activity.
  cbn [while_true]. rewrite manipulation_cycle_step.
  by destruct (ManipulationMonitor.manipulation_scan (world r))
    as [[[]|e] w].
Qed.

Lemma while_true_ext {St} (body1 body2 : M St unit) cycles s :
  (∀ s, body1 s = body2 s) →
  while_true cycles body1 s = while_true cycles body2 s.
Proof.
  intros Hb. revert s. induction cycles as [|cycles IH]; intros s; simpl; [done|].
  rewrite Hb. destruct (body2 s) as [[[]|e] s']; [apply IH|done].
Qed.

Lemma for_each_ext {St A} (xs : list A) (f g : A → M St unit) s :
  (∀ x s, f x s = g x s) → for_each xs f s = for_each xs g s.
Proof.
  intros Hfg. revert s. induction xs as [|x xs IH]; intros s; simpl; [done|].
  unfold mbind, M_bind. rewrite Hfg.
  destruct (g x s) as [[[]|e] s']; [apply IH|done].
Qed.

Lemma in_world_ext {W A} (c1 c2 : M W A) (k : A → M (Run W) unit) r :
  (∀ w, c1 w = c2 w) → (in_world c1 ≫= k) r = (in_world c2 ≫= k) r.
Proof. intros Hc. unfold mbind, M_bind, in_world. by rewrite Hc. Qed.

Section manipulation.
Import ManipulationMonitor.
Context {W : Type} (C : Collaborators W).

Lemma signals_never_report_a_campaign activity w signals w' :
  _detect_real_time_manipulation activity w = (Ok signals, w') →
  signals !! "campaign_detected" = Some (OVal (VBool false))
  ∧ signals !! "confidence_level" = Some (OVal (VFloat 0)).
Proof.
  unfold _detect_real_time_manipulation. intros E. do 3 step_ok E.
  by injection E as <- _.
Qed.

Lemma manipulation_scan_never_alerts alert w :
  manipulation_scan (H:=with_manipulation_alert C alert) w
  = manipulation_scan (H:=C) w.
Proof.
  unfold manipulation_scan.
  change (@_get_recent_activity W (with_manipulation_alert C alert))
    with (@_get_recent_activity W C).
  destruct (_get_recent_activity w) as [[activity|e] w1] eqn:E1;
    [|by rewrite !(bind_raise _ _ _ _ _ E1)].
  rewrite !(bind_ok _ _ _ _ _ E1).
  change (@_detect_real_time_manipulation W (with_manipulation_alert C alert))
    with (@_detect_real_time_manipulation W C).
  destruct (_detect_real_time_manipulation activity w1)
    as [[signals|e] w2] eqn:E2; [|by rewrite !(bind_raise _ _ _ _ _ E2)].
  rewrite !(bind_ok _ _ _ _ _ E2).
  apply signals_never_report_a_campaign in E2 as [Hc _].
  unfold getitem. rewrite Hc. reflexivity.
Qed.
End manipulation.

(** Property X14.  The manipulation monitor never calls
    [_trigger_manipulation_alert]: [_detect_real_time_manipulation] always
    reports [campaign_detected] as [False], so the monitor runs the same
    with any other method in its place. *)
Theorem manipulation_monitor_never_alerts {W}
    (C : ManipulationMonitor.Collaborators W)
    (alert : gmap string pyobj → M W unit) (cycles : nat) (r : Run W) :
  ManipulationMonitor.monitor_manipulation_activity
    (H:=with_manipulation_alert C alert) cycles r
  = ManipulationMonitor.monitor_manipulation_activity (H:=C) cycles r.
Proof.
  unfold ManipulationMonitor.monitor_manipulation_activity,
    ManipulationMonitor.monitor_cycle.
  apply while_true_ext. intros s. apply in_world_ext.
  apply manipulation_scan_never_alerts.
Qed.

Section gating.
Context {W : Type} (C : Collaborators W).

Lemma analysis_confidence message w analysis w' :
  analyze_message_leakage message w = (Ok analysis, w') →
  ∃ leak_indicators w1 v w2,
    _calculate_leak_confidence leak_indicators w1 = (Ok v, w2)
    ∧ analysis !! "leak_confidence" = Some (OVal v).
Proof.
  unfold analyze_message_leakage. intros E. do 9 step_ok E.
  injection E as <- _. eexists _, _, _, _. split; [exact E6|].
  by rewrite !lookup_insert_ne, lookup_insert_eq by done.
Qed.

Lemma leak_scan_quiet alarm countermeasures chat_id w :
  never_above_threshold C →
  leak_scan (H:=with_alerts C alarm countermeasures) chat_id w
  = leak_scan (H:=C) chat_id w.
Proof.
  intros Hquiet. unfold leak_scan.
  change (@_get_recent_messages W (with_alerts C alarm countermeasures))
    with (@_get_recent_messages W C).
  destruct (_get_recent_messages chat_id 24 w) as [[recent|e] w1] eqn:E1;
    [|by rewrite !(bind_raise _ _ _ _ _ E1)].
  rewrite !(bind_ok _ _ _ _ _ E1). apply for_each_ext. clear E1.
  intros message s.
  change (@analyze_message_leakage W (with_alerts C alarm countermeasures))
    with (@analyze_message_leakage W C).
  destruct (analyze_message_leakage message s) as [[analysis|e] s1] eqn:E2;
    [|by rewrite !(bind_raise _ _ _ _ _ E2)].
  rewrite !(bind_ok _ _ _ _ _ E2).
  destruct (analysis_confidence _ _ _ _ E2) as (ind & wa & v & wb & Hv & Hc).
  unfold lift, getitem. rewrite Hc.
  unfold mbind, M_bind. simpl. by rewrite (Hquiet _ _ _ _ Hv).
Qed.
End gating.

(** Property X15.  While the scoring answers nothing above the threshold
    of 0.7, the leak monitor calls neither [_trigger_leak_alert] nor
    [_implement_countermeasures]: it runs the same with any other methods
    in their place. *)
Theorem scores_below_threshold_never_alert {W} (C : Collaborators W)
    (alarm countermeasures : gmap string pyobj → M W unit)
    (cycles : nat) (chat_id user_id : pyval) (r : Run W) :
  never_above_threshold C →
  monitor_conversation_leaks (H:=with_alerts C alarm countermeasures)
    cycles chat_id user_id r
  = monitor_conversation_leaks (H:=C) cycles chat_id user_id r.
Proof.
  intros Hquiet. unfold monitor_conversation_leaks, monitor_cycle.
  apply while_true_ext. intros s. apply in_world_ext. intros w.
  by apply leak_scan_quiet.
Qed.

Lemma scores_below_threshold_never_alert_witness :
  monitor_conversation_leaks
    (H:=with_alerts Examples.calm_monitor
          (λ _, Demo.logging "siren") (λ _, Demo.logging "lockdown"))
    2 (VInt 1) (VInt 100) Demo.start
  = monitor_conversation_leaks (H:=Examples.calm_monitor)
      2 (VInt 1) (VInt 100) Demo.start.
Proof.
  apply (scores_below_threshold_never_alert Examples.calm_monitor).
  intros leak_indicators w v w' E. injection E as <- _. reflexivity.
Defined.
End AlertFacts.

(** ** The forwarding network *)
Module GraphFacts.
Import DiGraph Propagation.

Lemma py_eqb_refl a : py_eqb a a = true.
Proof.
  destruct a; cbn; try reflexivity; try (apply Qeq_bool_iff; reflexivity).
  apply String.eqb_refl.
Qed.

Lemma py_eqb_sym a b : py_eqb a b = py_eqb b a.
Proof.
  destruct a, b; cbn; try reflexivity;
    try (apply eq_true_iff_eq; rewrite !Qeq_bool_iff; split; intros E;
         symmetry; exact E).
  apply String.eqb_sym.
Qed.

Lemma py_eqb_trans a b c :
  py_eqb a b = true → py_eqb b c = true → py_eqb a c = true.
Proof.
  destruct a, b, c; cbn; try discriminate; try reflexivity;
    try (rewrite !Qeq_bool_iff; intros E1 E2; rewrite E1; exact E2).
  rewrite !String.eqb_eq. congruence.
Qed.

Lemma same_edge_refl e : same_edge e e = true.
Proof. unfold same_edge. by rewrite !py_eqb_refl. Qed.

Lemma same_edge_sym e1 e2 : same_edge e1 e2 = same_edge e2 e1.
Proof.
  unfold same_edge. by rewrite (py_eqb_sym e1.1), (py_eqb_sym e1.2).
Qed.

Lemma same_edge_trans e1 e2 e3 :
  same_edge e1 e2 = true → same_edge e2 e3 = true → same_edge e1 e3 = true.
Proof.
  unfold same_edge. rewrite !andb_true_iff. intros [? ?] [? ?].
  split; eapply py_eqb_trans; eauto.
Qed.

Section entries_by_key.
Context {K : Type} (same : K → K → bool).
Hypothesis same_sym : ∀ a b, same a b = same b a.
Hypothesis same_trans :
  ∀ a b c, same a b = true → same b c = true → same a c = true.

Lemma same_false_r a b c :
  same a b = true → same a c = false → same b c = false.
Proof.
  intros Hab Hac. destruct (same b c) eqn:Hbc; [|done].
  by rewrite (same_trans _ _ _ Hab Hbc) in Hac.
Qed.

(** Looking up the key just written: the new attributes on top of the
    old ones. *)
Lemma entry_update_hit k' k attr l :
  same k' k = true →
  entry same k (update_entry same k' attr l)
  = Some (attr ∪ default ∅ (entry same k l)).
Proof.
  intros Hk. unfold entry. induction l as [|[k0 v0] l IH]; cbn.
  - rewrite Hk. cbn. by rewrite (right_id_L ∅ (∪)).
  - destruct (same k0 k') eqn:H0; cbn.
    + by rewrite (same_trans _ _ _ H0 Hk).
    + assert (same k0 k = false) as ->; [|exact IH].
      destruct (same k0 k) eqn:H1; [|done].
      rewrite same_sym in Hk.
      by rewrite (same_trans _ _ _ H1 Hk) in H0.
Qed.

(** Looking up any other key: nothing has changed. *)
Lemma entry_update_miss k' k attr l :
  same k' k = false →
  entry same k (update_entry same k' attr l) = entry same k l.
Proof.
  intros Hk. unfold entry. induction l as [|[k0 v0] l IH]; cbn.
  - by rewrite Hk.
  - destruct (same k0 k') eqn:H0; cbn.
    + rewrite same_sym in H0.
      assert (same k0 k = false) as ->; [|done].
      destruct (same k0 k) eqn:H1; [|done].
      by rewrite (same_trans _ _ _ H0 H1) in Hk.
    + destruct (same k0 k); [done|exact IH].
Qed.
End entries_by_key.

Lemma add_node_nodes n attr G G' :
  add_node n attr G = Ok G' →
  nodes G' = update_entry py_eqb n attr (nodes G) ∧ edges G' = edges G.
Proof. destruct n; cbn; intros E; inversion E; done. Qed.

Lemma add_node_sets n attr G G' u key v :
  add_node n attr G = Ok G' → py_eqb n u = true → attr !! key = Some v →
  node_has G' u key v.
Proof.
  intros [E _]%add_node_nodes Hn Hv. unfold node_has, node_attrs.
  rewrite E, (entry_update_hit _ py_eqb_sym py_eqb_trans _ _ _ _ Hn).
  eexists; split; [done|]. by apply lookup_union_Some_l.
Qed.

Lemma add_node_keeps n attr G G' u key v :
  add_node n attr G = Ok G' →
  py_eqb n u = false ∨ attr !! key = None →
  node_has G u key v → node_has G' u key v.
Proof.
  intros [E _]%add_node_nodes Hn (attrs & Ha & Hv).
  unfold node_has, node_attrs in *. rewrite E.
  destruct (py_eqb n u) eqn:Hnu.
  - destruct Hn as [|Hn]; [done|].
    rewrite (entry_update_hit _ py_eqb_sym py_eqb_trans _ _ _ _ Hnu), Ha.
    eexists; split; [done|]. cbn. by rewrite lookup_union_r.
  - rewrite (entry_update_miss _ py_eqb_sym py_eqb_trans _ _ _ _ Hnu).
    eauto.
Qed.

Lemma add_node_edge_keeps n attr G G' u c key v :
  add_node n attr G = Ok G' → edge_has G u c key v → edge_has G' u c key v.
Proof.
  intros [_ E]%add_node_nodes. unfold edge_has, edge_attrs. by rewrite E.
Qed.

Lemma add_edge_inv u c attr G G' :
  add_edge u c attr G = Ok G' →
  ∃ G1 G2, add_node u ∅ G = Ok G1 ∧ add_node c ∅ G1 = Ok G2
           ∧ nodes G' = nodes G2
           ∧ edges G' = update_entry same_edge (u, c) attr (edges G2).
Proof.
  unfold add_edge. intros E.
  destruct (add_node u ∅ G) as [G1|] eqn:E1; [|done]. cbn in E.
  destruct (add_node c ∅ G1) as [G2|] eqn:E2; [|done]. cbn in E.
  inversion E; subst. eauto 10.
Qed.

Lemma add_edge_node_keeps u' c' attr G G' u key v :
  add_edge u' c' attr G = Ok G' → node_has G u key v → node_has G' u key v.
Proof.
  intros (G1 & G2 & E1 & E2 & En & _)%add_edge_inv Hn.
  assert (node_has G2 u key v) as (attrs & ? & ?).
  { eapply add_node_keeps; [exact E2|by right|].
    eapply add_node_keeps; [exact E1|by right|done]. }
  exists attrs. unfold node_attrs in *. by rewrite En.
Qed.

Lemma add_edge_sets u' c' attr G G' u c key v :
  add_edge u' c' attr G = Ok G' → same_edge (u', c') (u, c) = true →
  attr !! key = Some v → edge_has G' u c key v.
Proof.
  intros (G1 & G2 & _ & _ & _ & E)%add_edge_inv Hs Hv.
  unfold edge_has, edge_attrs.
  rewrite E, (entry_update_hit _ same_edge_sym same_edge_trans _ _ _ _ Hs).
  eexists; split; [done|]. by apply lookup_union_Some_l.
Qed.

Lemma add_edge_keeps u' c' attr G G' u c key v :
  add_edge u' c' attr G = Ok G' → same_edge (u', c') (u, c) = false →
  edge_has G u c key v → edge_has G' u c key v.
Proof.
  intros (G1 & G2 & E1 & E2 & _ & E)%add_edge_inv Hs He.
  assert (edge_has G2 u c key v) as (attrs & ? & ?).
  { eapply add_node_edge_keeps; [exact E2|].
    eapply add_node_edge_keeps; [exact E1|done]. }
  exists attrs. unfold edge_attrs in *.
  by rewrite E, (entry_update_miss _ same_edge_sym same_edge_trans _ _ _ _ Hs).
Qed.

Lemma add_message_inv G m G' :
  add_message G m = Ok G' →
  ∃ u c d i G1 G2,
    m !! "user_id" = Some u ∧ m !! "chat_id" = Some c
    ∧ m !! "date" = Some d ∧ m !! "id" = Some i
    ∧ add_node u (<["first_seen" := d]> {[ "type" := VStr "user" ]}) G
      = Ok G1
    ∧ add_node c {[ "type" := VStr "chat" ]} G1 = Ok G2
    ∧ add_edge u c (<["timestamp" := d]> {[ "message_id" := i ]}) G2
      = Ok G'.
Proof.
  unfold add_message, getitem. intros E.
  destruct (m !! "user_id") as [u|]; [|done]. cbn in E.
  destruct (m !! "chat_id") as [c|]; [|done]. cbn in E.
  destruct (m !! "date") as [d|]; [|done]. cbn in E.
  destruct (add_node u _ G) as [G1|] eqn:E1; [|done]. cbn in E.
  destruct (add_node c _ G1) as [G2|] eqn:E2; [|done]. cbn in E.
  destruct (m !! "id") as [i|]; [|done]. cbn in E.
  eauto 20.
Qed.

Lemma network_loop_app l1 l2 G G' :
  network_loop (l1 ++ l2) G = Ok G' →
  ∃ G1, network_loop l1 G = Ok G1 ∧ network_loop l2 G1 = Ok G'.
Proof.
  revert G. induction l1 as [|m l1 IH]; intros G; cbn; [eauto|].
  destruct (add_message G m) as [G0|]; [|done]. cbn. apply IH.
Qed.

Lemma network_loop_keeps (P : DiGraph.t → Prop) (ok : Message → Prop) l :
  (∀ m G G', ok m → add_message G m = Ok G' → P G → P G') →
  Forall ok l →
  ∀ G G', network_loop l G = Ok G' → P G → P G'.
Proof.
  intros Hstep Hl. induction Hl as [|m l Hm _ IH]; intros G G'; cbn.
  - by intros [= ->].
  - destruct (add_message G m) as [G0|] eqn:E; [|done]. cbn.
    intros E' HP. eapply IH; [exact E'|]. eapply Hstep; eauto.
Qed.

(** Property X16.  In the forwarding network the attribute [first_seen]
    of a user is the date of the last of the user's messages in the list,
    not of the first: every message of the user overwrites it. *)
Theorem first_seen_is_the_date_of_the_last_message
    (similar_messages pre post : list Message) (m : Message) (G : DiGraph.t)
    (u d : pyval) :
  network_loop similar_messages DiGraph.empty = Ok G →
  similar_messages = pre ++ m :: post →
  m !! "user_id" = Some u → m !! "date" = Some d →
  Forall (λ m' : Message,
            ∀ u', m' !! "user_id" = Some u' → py_eqb u' u = false) post →
  ∃ attrs, node_attrs G u = Some attrs ∧ attrs !! "first_seen" = Some d.
Proof.
  intros HG -> Hu Hd Hpost.
  apply network_loop_app in HG as (G1 & _ & HG). cbn in HG.
  destruct (add_message G1 m) as [G2|] eqn:Em; [|done]. cbn in HG.
  change (node_has G u "first_seen" d).
  eapply (network_loop_keeps (λ G, node_has G u "first_seen" d));
    [|exact Hpost|exact HG|].
  - intros m' Ga Gb Hm'
      (u' & c' & d' & i' & Gx & Gy & Hu' & _ & _ & _ & E1 & E2 & E3)%add_message_inv
      HP.
    eapply add_edge_node_keeps; [exact E3|].
    eapply add_node_keeps; [exact E2|by right|].
    eapply add_node_keeps; [exact E1|left; by apply Hm'|done].
  - apply add_message_inv in Em
      as (u' & c' & d' & i' & Gx & Gy & Hu' & _ & Hd' & _ & E1 & E2 & E3).
    assert (u' = u) as -> by congruence. assert (d' = d) as -> by congruence.
    eapply add_edge_node_keeps; [exact E3|].
    eapply add_node_keeps; [exact E2|by right|].
    eapply add_node_sets; [exact E1|apply py_eqb_refl|].
    by rewrite lookup_insert.
Qed.

Lemma first_seen_is_the_date_of_the_last_message_witness :
  ∃ G attrs,
    network_loop [Demo.meeting_a; Examples.repost] DiGraph.empty = Ok G
    ∧ node_attrs G (VInt 100) = Some attrs
    ∧ attrs !! "first_seen" = Some (VInt 60).
Proof.
  assert (Hok : is_ok (network_loop [Demo.meeting_a; Examples.repost]
                         DiGraph.empty) = true) by (vm_compute; reflexivity).
  destruct (network_loop [Demo.meeting_a; Examples.repost] DiGraph.empty)
    as [G|e] eqn:E; [|discriminate].
  destruct (first_seen_is_the_date_of_the_last_message
              [Demo.meeting_a; Examples.repost] [Demo.meeting_a] []
              Examples.repost G (VInt 100) (VInt 60))
    as (attrs & Hattrs);
    [exact E | reflexivity | reflexivity | reflexivity
    | apply List.Forall_nil |].
  exists G, attrs. split; [done|exact Hattrs].
Defined.

(** Property X17.  Between a user and a chat the network keeps one edge;
    it carries the id and the date of the last message of that user in
    that chat. *)
Theorem edge_carries_the_last_message
    (similar_messages pre post : list Message) (m : Message) (G : DiGraph.t)
    (u c d i : pyval) :
  network_loop similar_messages DiGraph.empty = Ok G →
  similar_messages = pre ++ m :: post →
  m !! "user_id" = Some u → m !! "chat_id" = Some c →
  m !! "date" = Some d → m !! "id" = Some i →
  Forall (λ m' : Message,
            ∀ u' c', m' !! "user_id" = Some u' → m' !! "chat_id" = Some c' →
                     same_edge (u', c') (u, c) = false) post →
  ∃ attrs, edge_attrs G u c = Some attrs
           ∧ attrs !! "message_id" = Some i
           ∧ attrs !! "timestamp" = Some d.
Proof.
  intros HG -> Hu Hc Hd Hi Hpost.
  apply network_loop_app in HG as (G1 & _ & HG). cbn in HG.
  destruct (add_message G1 m) as [G2|] eqn:Em; [|done]. cbn in HG.
  enough (edge_has G u c "message_id" i ∧ edge_has G u c "timestamp" d)
    as [(a1 & E1 & ?) (a2 & E2 & ?)].
  { exists a1. rewrite E1 in E2. by inversion E2; subst. }
  eapply (network_loop_keeps
            (λ G, edge_has G u c "message_id" i
                  ∧ edge_has G u c "timestamp" d));
    [|exact Hpost|exact HG|].
  - intros m' Ga Gb Hm'
      (u' & c' & d' & i' & Gx & Gy & Hu' & Hc' & _ & _ & E1 & E2 & E3)%add_message_inv
      [HP1 HP2].
    split; (eapply add_edge_keeps; [exact E3|by apply Hm'|]);
      (eapply add_node_edge_keeps; [exact E2|]);
      (eapply add_node_edge_keeps; [exact E1|done]).
  - apply add_message_inv in Em
      as (u' & c' & d' & i' & Gx & Gy & Hu' & Hc' & Hd' & Hi' & E1 & E2 & E3).
    assert (u' = u) as -> by congruence. assert (c' = c) as -> by congruence.
    assert (d' = d) as -> by congruence. assert (i' = i) as -> by congruence.
    split; (eapply add_edge_sets; [exact E3|apply same_edge_refl|]).
    + by rewrite lookup_insert_ne, lookup_singleton.
    + by rewrite lookup_insert.
Qed.

Lemma edge_carries_the_last_message_witness :
  ∃ G attrs,
    network_loop [Demo.meeting_a; Examples.repost] DiGraph.empty = Ok G
    ∧ edge_attrs G (VInt 100) (VInt 1) = Some attrs
    ∧ attrs !! "message_id" = Some (VInt 7)
    ∧ attrs !! "timestamp" = Some (VInt 60).
Proof.
  assert (Hok : is_ok (network_loop [Demo.meeting_a; Examples.repost]
                         DiGraph.empty) = true) by (vm_compute; reflexivity).
  destruct (network_loop [Demo.meeting_a; Examples.repost] DiGraph.empty)
    as [G|e] eqn:E; [|discriminate].
  destruct (edge_carries_the_last_message
              [Demo.meeting_a; Examples.repost] [Demo.meeting_a] []
              Examples.repost G (VInt 100) (VInt 1) (VInt 60) (VInt 7))
    as (attrs & Hattrs);
    [exact E | reflexivity | reflexivity | reflexivity | reflexivity
    | reflexivity | apply List.Forall_nil |].
  exists G, attrs. split; [done|exact Hattrs].
Defined.
End GraphFacts.

(** ** The propagation analysis *)
Module PropagationFacts.
Import Propagation.

Section propagation.
Context {W : Type} `{Collaborators W} `{Correlator.Helpers}.

Lemma leakage_loop_spec windows : ∀ acc w points w',
  leakage_loop windows acc w = (Ok points, w') →
  ∃ new,
    points = acc ++ new
    ∧ (λ p : gmap string pyobj, p !! "messages") <$> new
      = window_field "messages" <$> List.filter crowded windows
    ∧ (λ p : gmap string pyobj, p !! "timestamp") <$> new
      = window_field "window_start" <$> List.filter crowded windows.
Proof.
  induction windows as [|window rest IH]; intros acc w points w' E.
  - cbn in E. inversion E; subst. exists []. by rewrite app_nil_r.
  - cbn [leakage_loop] in E.
    lift_ok E. lift_ok E.
    assert (crowded window = (1 <? a0)%nat) as Hc
      by (unfold crowded; by rewrite E0, E1).
    cbn [List.filter]. rewrite Hc.
    destruct (1 <? a0)%nat.
    + lift_ok E. lift_ok E. step_ok E. lift_ok E. step_ok E.
      apply IH in E as (new & -> & Hm & Ht).
      eexists (_ :: new). split; [by rewrite <- app_assoc|].
      assert (window_field "messages" window = Some a2) as Hw1
        by (unfold window_field; by rewrite E3).
      assert (window_field "window_start" window = Some a1) as Hw2
        by (unfold window_field; by rewrite E2).
      rewrite !fmap_cons, Hm, Ht, Hw1, Hw2.
      split; reflexivity.
    + by apply IH in E.
Qed.

(** Property X18.  The leakage points are the time windows with more than
    one message, in the order of the windows, each with the messages and
    the start of its window. *)
Theorem leakage_points_are_the_crowded_windows
    (similar_messages : list Message) (w w' : W)
    (points : list (gmap string pyobj)) :
  _identify_leakage_points similar_messages w = (Ok points, w') →
  ∃ time_windows w1 windows,
    _create_time_windows similar_messages w = (Ok time_windows, w1)
    ∧ py_iter time_windows = Ok windows
    ∧ (λ p : gmap string pyobj, p !! "messages") <$> points
      = window_field "messages" <$> List.filter crowded windows
    ∧ (λ p : gmap string pyobj, p !! "timestamp") <$> points
      = window_field "window_start" <$> List.filter crowded windows.
Proof.
  unfold _identify_leakage_points. intros E.
  step_ok E. lift_ok E.
  apply leakage_loop_spec in E as (new & -> & Hm & Ht).
  eauto 10.
Qed.

Lemma find_similar_messages_name_error target_fingerprint w table w1
    formatted w2 :
  messages_table w = (Ok table, w1) →
  _format_message_results
    (Correlator.exact_matches table target_fingerprint) w1
  = (Ok formatted, w2) →
  _find_similar_messages target_fingerprint w
  = (Raise (NameError "target_message"), w2).
Proof.
  intros Et Ef. unfold _find_similar_messages.
  rewrite (bind_ok _ _ _ _ _ Et). cbv zeta.
  by rewrite (bind_ok _ _ _ _ _ Ef).
Qed.

Lemma find_similar_messages_raises target_fingerprint w :
  ∃ e w', _find_similar_messages target_fingerprint w = (Raise e, w').
Proof.
  destruct (messages_table w) as [[table|e] w1] eqn:Et.
  - destruct (_format_message_results
                (Correlator.exact_matches table target_fingerprint) w1)
      as [[formatted|e] w2] eqn:Ef.
    + erewrite find_similar_messages_name_error by eassumption. eauto.
    + unfold _find_similar_messages.
      rewrite (bind_ok _ _ _ _ _ Et). cbv zeta.
      rewrite (bind_raise _ _ _ _ _ Ef). eauto.
  - unfold _find_similar_messages. rewrite (bind_raise _ _ _ _ _ Et). eauto.
Qed.

Lemma track_message_propagation_raises target_message w :
  ∃ e w', track_message_propagation target_message w = (Raise e, w').
Proof.
  unfold track_message_propagation.
  destruct (_create_message_fingerprint target_message w)
    as [[fp|e] w1] eqn:Ef; [|rewrite (bind_raise _ _ _ _ _ Ef); eauto].
  rewrite (bind_ok _ _ _ _ _ Ef).
  destruct (find_similar_messages_raises fp w1) as (e & w2 & Es).
  rewrite (bind_raise _ _ _ _ _ Es). eauto.
Qed.

(** Property X19.  As shipped, a [CrossChatCorrelationEngine] never returns
    a propagation analysis, and a forwarding monitor around it never
    returns a leak analysis: [_find_similar_messages] reads the undefined
    name [target_message] before its second query.  When the fingerprint,
    the table and the formatting of the exact matches are obtained, what
    is raised is that [NameError]. *)
Theorem engine_never_returns_an_analysis
    (C : ForwardingMonitor.Collaborators W) (message : Message) (w : W) :
  (∃ e w', track_message_propagation message w = (Raise e, w'))
  ∧ (∃ e w', ForwardingMonitor.analyze_message_leakage
               (H:=monitor_with_engine C) message w = (Raise e, w'))
  ∧ (∀ fp w1 table w2 formatted w3,
       _create_message_fingerprint message w = (Ok fp, w1) →
       messages_table w1 = (Ok table, w2) →
       _format_message_results (Correlator.exact_matches table fp) w2
       = (Ok formatted, w3) →
       track_message_propagation message w
       = (Raise (NameError "target_message"), w3)).
Proof.
  split; [apply track_message_propagation_raises|]. split.
  - destruct (track_message_propagation_raises message w) as (e & w' & E).
    exists e, w'. unfold ForwardingMonitor.analyze_message_leakage.
    apply bind_raise. exact E.
  - intros fp w1 table w2 formatted w3 Ef Et Er.
    unfold track_message_propagation. rewrite (bind_ok _ _ _ _ _ Ef).
    apply bind_raise. by eapply find_similar_messages_name_error.
Qed.
End propagation.

Lemma leakage_points_are_the_crowded_windows_witness :
  ∃ points w' time_windows w1 windows,
    _identify_leakage_points (H:=Examples.engine_parts)
      [Demo.meeting_a; Demo.meeting_b] [] = (Ok points, w')
    ∧ _create_time_windows (Collaborators:=Examples.engine_parts)
        [Demo.meeting_a; Demo.meeting_b] [] = (Ok time_windows, w1)
    ∧ py_iter time_windows = Ok windows
    ∧ (λ p : gmap string pyobj, p !! "messages") <$> points
      = window_field "messages" <$> List.filter crowded windows
    ∧ (λ p : gmap string pyobj, p !! "timestamp") <$> points
      = window_field "window_start" <$> List.filter crowded windows.
Proof.
  assert (Hok : is_ok (_identify_leakage_points (H:=Examples.engine_parts)
                         [Demo.meeting_a; Demo.meeting_b] []).1 = true)
    by (vm_compute; reflexivity).
  destruct (_identify_leakage_points (H:=Examples.engine_parts)
              [Demo.meeting_a; Demo.meeting_b] [])
    as [[points|e] w'] eqn:E; [|discriminate].
  destruct (leakage_points_are_the_crowded_windows
              (H:=Examples.engine_parts)
              [Demo.meeting_a; Demo.meeting_b] [] w' points E)
    as (time_windows & w1 & windows & Hrest).
  exists points, w', time_windows, w1, windows. split; [done|exact Hrest].
Defined.

Lemma engine_never_returns_an_analysis_witness :
  track_message_propagation (H:=Examples.engine_parts) (H0:=Demo.correlator)
    Demo.meeting_a []
  = (Raise (NameError "target_message"), []).
Proof.
  destruct (engine_never_returns_an_analysis (H:=Examples.engine_parts)
              (H0:=Demo.correlator) Demo.working_monitor Demo.meeting_a [])
    as (_ & _ & Hname).
  assert (Hok : is_ok (Demo.fp_of Demo.meeting_a) = true)
    by (vm_compute; reflexivity).
  destruct (Demo.fp_of Demo.meeting_a) as [fp|e] eqn:E; [|discriminate].
  apply (Hname fp [] [Demo.meeting_a; Demo.meeting_b; Demo.lunch] []
           (Correlator.exact_matches
              [Demo.meeting_a; Demo.meeting_b; Demo.lunch] fp) []).
  - cbn. unfold lift. by rewrite E.
  - reflexivity.
  - reflexivity.
Defined.
End PropagationFacts.

(** ** External sources *)
Module ContentOriginFacts.
Import ContentOrigin.

Section sources.
Context `{Helpers} `{Attribution.Helpers} `{Fingerprinter.Helpers}.

Lemma detect_external_sources_raises text :
  _detect_external_sources text = Raise (NameError "re").
Proof. reflexivity. Qed.

Lemma analyze_content_origin_raises message :
  _analyze_content_origin message = Raise (NameError "re").
Proof.
  unfold _analyze_content_origin. by rewrite detect_external_sources_raises.
Qed.

Lemma find_original_author_raises message :
  ∃ e, _find_original_author message = Raise e.
Proof.
  unfold _find_original_author.
  destruct (Fingerprinter.create_message_fingerprint message fingerprinter).1;
    cbn; eauto.
Qed.

(** Property X20.  As shipped, [SourceAttributionEngine] returns no
    content analysis and no attribution, for [source_attribution.py] has
    no import.  [_detect_external_sources] raises [NameError] at
    [re.findall] for every text, before a URL is looked for or a marker is
    tested, and with it [_analyze_content_origin] for every message,
    whatever the helper methods do.  [attribute_message_source] raises for
    every message, in [_find_original_author] already: when the message
    can be fingerprinted, what is raised is the [NameError] at
    [sqlite3.connect]. *)
Theorem attribution_never_returns (suspicious_message : Message) :
  (∀ text, _detect_external_sources text = Raise (NameError "re"))
  ∧ _analyze_content_origin suspicious_message = Raise (NameError "re")
  ∧ (∃ e, attribute_message_source suspicious_message = Raise e)
  ∧ (∀ fp self,
       Fingerprinter.create_message_fingerprint suspicious_message
         fingerprinter = (Ok fp, self) →
       attribute_message_source suspicious_message
       = Raise (NameError "sqlite3")).
Proof.
  split; [apply detect_external_sources_raises|].
  split; [apply analyze_content_origin_raises|]. split.
  - destruct (find_original_author_raises suspicious_message) as [e E].
    exists e. unfold attribute_message_source. by rewrite E.
  - intros fp self E. unfold attribute_message_source, _find_original_author.
    by rewrite E.
Qed.
End sources.

Lemma attribution_never_returns_witness :
  attribute_message_source (H:=Examples.origin)
    (H0:=Demo.attribution Demo.relays) (H1:=Demo.helpers) (Demo.relay 2)
  = Raise (NameError "sqlite3").
Proof.
  destruct (attribution_never_returns (H:=Examples.origin)
              (H0:=Demo.attribution Demo.relays) (H1:=Demo.helpers)
              (Demo.relay 2))
    as (_ & _ & _ & Hname).
  assert (Hok : is_ok (Demo.fp_of (Demo.relay 2)) = true)
    by (vm_compute; reflexivity).
  unfold Demo.fp_of in Hok.
  destruct (Fingerprinter.create_message_fingerprint (H:=Demo.helpers)
              (Demo.relay 2) Demo.engine) as [[fp|e] self] eqn:E;
    [|discriminate].
  exact (Hname fp self E).
Defined.
End ContentOriginFacts.

(** ** Countermeasures *)
Module CountermeasureFacts.
Import Countermeasures.

Lemma analysis_shape {W} `{ForwardingMonitor.Collaborators W}
    (message : Message) (w w' : W) (analysis : gmap string pyobj) :
  ForwardingMonitor.analyze_message_leakage message w = (Ok analysis, w') →
  analysis !! "original_chat" = None
  ∧ is_Some (analysis !! "suspected_leaker").
Proof.
  unfold ForwardingMonitor.analyze_message_leakage. intros E.
  step_ok E. lift_ok E. step_ok E. step_ok E. step_ok E. lift_ok E.
  step_ok E. step_ok E. step_ok E. inversion E; subst.
  split; [reflexivity|]. eexists. reflexivity.
Qed.

Section measures.
Context {W : Type} `{Collaborators W}.

(** Property X25.  At a confidence of 0.5 or less no countermeasure is
    taken, and nothing is changed. *)
Theorem low_confidence_takes_no_measure
    (leak_analysis : gmap string pyobj) (v : pyval) (q : Q) (w : W) :
  leak_analysis !! "leak_confidence" = Some (OVal v) →
  as_number v = Some q → Qle_bool q float_0_5 = true →
  implement_countermeasures leak_analysis w = (Ok tt, w).
Proof.
  intros Hc Hv Hq. unfold implement_countermeasures.
  assert (getitem leak_analysis "leak_confidence" = Ok (OVal v)) as Hg
    by (unfold getitem; by rewrite Hc).
  assert (Qle_bool q float_0_8 = true) as Hq8.
  { apply Qle_bool_iff. apply Qle_bool_iff in Hq.
    eapply Qle_trans; [exact Hq|]. by apply Qle_bool_iff. }
  rewrite (lift_run _ _ _ _ Hg).
  rewrite (lift_run _ _ _ _ (obj_gt_number _ _ float_0_8 Hv)), Hq8.
  cbn [negb].
  unfold mbind at 1, M_bind at 1.
  rewrite (lift_run _ _ _ _ Hg).
  rewrite (lift_run _ _ _ _ (obj_gt_number _ _ float_0_5 Hv)), Hq.
  reflexivity.
Qed.

Lemma inject_without_original_chat
    (leak_analysis : gmap string pyobj) (suspect canaries first : pyobj)
    (rest : list pyobj) (w w2 : W) :
  leak_analysis !! "original_chat" = None →
  leak_analysis !! "suspected_leaker" = Some suspect →
  generate_canary_messages suspect w = (Ok canaries, w2) →
  py_iter canaries = Ok (first :: rest) →
  _inject_deception_data leak_analysis w
  = (Raise (KeyError "original_chat"), w2).
Proof.
  intros Ho Hs Hg Hi. unfold _inject_deception_data.
  assert (getitem leak_analysis "suspected_leaker" = Ok suspect) as Hg1
    by (unfold getitem; by rewrite Hs).
  rewrite (lift_run _ _ _ _ Hg1).
  rewrite (bind_ok _ _ _ _ _ Hg).
  rewrite (lift_run _ _ _ _ Hi).
  cbn [for_each]. unfold mbind at 1, M_bind at 1.
  unfold mbind at 1, M_bind at 1, lift, getitem. by rewrite Ho.
Qed.

(** Property X26.  An analysis of the forwarding monitor with a
    confidence above 0.8 makes the countermeasures fail: as soon as there
    is a canary message to send, [_inject_deception_data] looks up
    ['original_chat'], which such an analysis does not have; nothing is
    sent, and none of the other measures is taken. *)
Theorem monitor_analysis_stops_the_countermeasures
    (C : ForwardingMonitor.Collaborators W) (message : Message)
    (w0 w1 w w2 : W) (analysis : gmap string pyobj) (v : pyval) (q : Q)
    (suspect canaries first : pyobj) (rest : list pyobj) :
  ForwardingMonitor.analyze_message_leakage message w0 = (Ok analysis, w1) →
  analysis !! "leak_confidence" = Some (OVal v) →
  as_number v = Some q → Qle_bool q float_0_8 = false →
  analysis !! "suspected_leaker" = Some suspect →
  generate_canary_messages suspect w = (Ok canaries, w2) →
  py_iter canaries = Ok (first :: rest) →
  implement_countermeasures analysis w
  = (Raise (KeyError "original_chat"), w2).
Proof.
  intros Ha Hc Hv Hq Hs Hg Hi.
  apply analysis_shape in Ha as [Ho _].
  unfold implement_countermeasures.
  assert (getitem analysis "leak_confidence" = Ok (OVal v)) as Hg1
    by (unfold getitem; by rewrite Hc).
  rewrite (lift_run _ _ _ _ Hg1).
  rewrite (lift_run _ _ _ _ (obj_gt_number _ _ float_0_8 Hv)), Hq.
  cbn [negb]. unfold mbind at 1, M_bind at 1. cbn [mret M_ret].
  cbn [for_each]. unfold mbind at 1, M_bind at 1.
  by rewrite (inject_without_original_chat _ _ _ _ _ _ _ Ho Hs Hg Hi).
Qed.
End measures.

Lemma low_confidence_takes_no_measure_witness :
  implement_countermeasures (H:=Examples.measures) Examples.shrug []
  = (Ok tt, []).
Proof.
  apply (low_confidence_takes_no_measure (H:=Examples.measures)
           Examples.shrug (VFloat float_0_5) float_0_5 []);
    reflexivity.
Defined.

Lemma monitor_analysis_stops_the_countermeasures_witness :
  ∃ analysis w1,
    ForwardingMonitor.analyze_message_leakage (H:=Demo.working_monitor)
      Demo.meeting_a [] = (Ok analysis, w1)
    ∧ implement_countermeasures (H:=Examples.measures) analysis []
      = (Raise (KeyError "original_chat"), ["canaries"]).
Proof.
  assert (Hq : match (ForwardingMonitor.analyze_message_leakage
                        (H:=Demo.working_monitor) Demo.meeting_a []).1 with
               | Ok a =>
                   match Alerts.confidence_of a with
                   | Some q => negb (Qle_bool q float_0_8)
                   | None => false
                   end
               | Raise _ => false
               end = true) by (vm_compute; reflexivity).
  destruct (ForwardingMonitor.analyze_message_leakage
              (H:=Demo.working_monitor) Demo.meeting_a [])
    as [[analysis|e] w1] eqn:E; [|discriminate].
  cbn [fst] in Hq. unfold Alerts.confidence_of in Hq.
  destruct (analysis !! "leak_confidence") as [[v| |]|] eqn:Hc;
    try discriminate.
  destruct (as_number v) as [q|] eqn:Hv; [|discriminate].
  apply negb_true_iff in Hq.
  destruct (analysis_shape _ _ _ _ E) as [_ [suspect Hs]].
  exists analysis, w1. split; [done|].
  apply (monitor_analysis_stops_the_countermeasures (H:=Examples.measures)
           Demo.working_monitor Demo.meeting_a [] w1 [] ["canaries"]
           analysis v q suspect (OList [OVal (VStr "canary")])
           (OVal (VStr "canary")) []);
    [exact E | exact Hc | exact Hv | exact Hq | exact Hs
    | reflexivity | reflexivity].
Defined.
End CountermeasureFacts.
